(** * handwerk-ml: similarity and confidence engine

    A shallow embedding of the ML core of the repository
    ([calculator/ml/confidence.py], [calculator/ml/embeddings.py],
    [calculator/ml/feature_engineer.py], [calculator/ml/price_predictor.py],
    [app/services/embeddings.py]) together with the properties the
    specification states about it.

    Conventions of the embedding.
    - Python floats used by the confidence formula and by cosine similarity
      are idealised as real numbers ([R]); [np.log], [np.exp] and
      [np.sqrt] are [ln], [exp] and [sqrt].
    - Feature values and prices of the regressor wrapper are rationals
      ([Q]), so that feature extraction stays executable.
    - A raised exception is a value of [exn]; fallible code returns [res].
    - Wall-clock reads ([datetime.now()], [pd.Timestamp.now()]) are an
      explicit argument [now], in whole seconds.
    - The sentence-transformer model, the XGBoost regressor, the
      train/test split and the metrics are external collaborators:
      section variables, each of which returns or raises. *)

From Stdlib Require Import Reals Lra Lia ZArith QArith List String Ascii Bool.
From Stdlib Require Import DecimalString Sorted Permutation.
From Stdlib Require Lqa.
Import ListNotations.

Set Implicit Arguments.
Open Scope string_scope.
Open Scope list_scope.

(* ================================================================== *)
(** * Python runtime notions shared by the modules                     *)
(* ================================================================== *)

Module Py.

(** Exceptions the modelled code (or the library calls it makes) raises. *)
Inductive exn : Type :=
| ValueError (msg : string)
| KeyError (key : string)
| IndexError (msg : string)
| NotFittedError (msg : string)
| RuntimeError (msg : string).

(** The class name of an exception, as [type(e).__name__] gives it. *)
Definition exc_name (e : exn) : string :=
  match e with
  | ValueError _ => "ValueError"
  | KeyError _ => "KeyError"
  | IndexError _ => "IndexError"
  | NotFittedError _ => "NotFittedError"
  | RuntimeError _ => "RuntimeError"
  end.

Inductive res (A : Type) : Type :=
| Ok (a : A)
| Raise (e : exn).
Arguments Ok {A} a.
Arguments Raise {A} e.

Definition bind {A B : Type} (m : res A) (k : A -> res B) : res B :=
  match m with
  | Ok a => k a
  | Raise e => Raise e
  end.

(** [l[:k]] for an integer [k]: a negative [k] counts from the end. *)
Definition slice_to {A : Type} (k : Z) (l : list A) : list A :=
  if (0 <=? k)%Z then firstn (Z.to_nat k) l
  else firstn (List.length l - Z.to_nat (- k)) l.

(** The comparison [a <= b] of two floats as a boolean. *)
Definition Rleb (a b : R) : bool := if Rle_dec a b then true else false.

(** A stable sort: [x] is put in front of the first element it is not
    behind ([before x y] says [x] may stand in front of [y]), and the
    elements are inserted from the last to the first, so elements that
    compare equal keep their original order. *)
Section StableSort.
Context {A : Type} (before : A -> A -> bool).

Fixpoint insert (x : A) (l : list A) : list A :=
  match l with
  | [] => [x]
  | y :: l' => if before x y then x :: y :: l' else y :: insert x l'
  end.

Fixpoint stable_sort (l : list A) : list A :=
  match l with
  | [] => []
  | x :: l' => insert x (stable_sort l')
  end.
End StableSort.

(** [l.sort(key=key, reverse=True)]: the sort is stable, also when
    reversed. *)
Definition sort_desc {A : Type} (key : A -> R) (l : list A) : list A :=
  stable_sort (fun x y => Rleb (key y) (key x)) l.

(** The same for integer keys (SQL [ORDER BY ... DESC] on a date
    column). *)
Definition sort_descZ {A : Type} (key : A -> Z) (l : list A) : list A :=
  stable_sort (fun x y => (key y <=? key x)%Z) l.

(** Scores descend along the list. *)
Definition descending {A : Type} (key : A -> R) (l : list A) : Prop :=
  StronglySorted (fun x y => (key y <= key x)%R) l.

(** [x] stands at an earlier index of [l] than [y]. *)
Inductive precedes {A : Type} (x y : A) : list A -> Prop :=
| precedes_here (l : list A) : In y l -> precedes x y (x :: l)
| precedes_later (a : A) (l : list A) :
    precedes x y l -> precedes x y (a :: l).

(** [str.isspace] on the ASCII range: tab, LF, VT, FF, CR, the four
    separators 0x1c-0x1f and space. *)
Definition is_space (c : ascii) : bool :=
  let n := nat_of_ascii c in
  ((9 <=? n)%nat && (n <=? 13)%nat) || ((28 <=? n)%nat && (n <=? 32)%nat).

Fixpoint all_space (s : string) : bool :=
  match s with
  | EmptyString => true
  | String c s' => is_space c && all_space s'
  end.

(** [not text or not text.strip()]: the text is empty or only
    whitespace ([strip] of it is the empty string). *)
Definition is_blank (text : string) : bool :=
  match text with
  | EmptyString => true
  | _ => all_space text
  end.

(** [round(x)] to the nearest integer, ties to the even one. *)
Definition round_half_even (x : R) : Z :=
  let f := Zfloor x in
  let d := (x - IZR f)%R in
  if Rlt_dec d (1 / 2) then f
  else if Rlt_dec (1 / 2) d then (f + 1)%Z
  else if Z.even f then f else (f + 1)%Z.

(** [round(x, ndigits)] for [ndigits >= 0]. *)
Definition round (x : R) (ndigits : nat) : R :=
  (IZR (round_half_even (x * 10 ^ ndigits)) / 10 ^ ndigits)%R.

(** [str(n)] of a non-negative integer. *)
Definition str_of_nat (n : nat) : string :=
  NilZero.string_of_uint (Nat.to_uint n).

End Py.

Import Py.

Declare Scope res_scope.
Delimit Scope res_scope with res.
Notation "x <- m ;; k" := (Py.bind m (fun x => k))
  (at level 61, m at next level, right associativity) : res_scope.

(* ================================================================== *)
(** * calculator/models.py: the Project table                          *)
(* ================================================================== *)

Module Models.

(** A row of [Project].  [project_date] is a day number;
    [description_embedding] is the nullable JSON field. *)
Record Project : Type := mkProject {
  id : string;
  name : string;
  description : string;
  project_type : string;
  region : string;
  total_area_sqm : option Q;
  wood_type : string;
  complexity : Z;
  final_price : Q;
  project_date : Z;
  description_embedding : option (list R);
  is_finalized : bool
}.

(** [Meta.ordering = ['-project_date']]: a queryset without an explicit
    [order_by] yields its rows by descending [project_date]. *)
Definition default_ordering (rows : list Project) : list Project :=
  Py.sort_descZ project_date rows.

End Models.

(* ================================================================== *)
(** * calculator/ml/embeddings.py                                      *)
(* ================================================================== *)

Module EmbeddingGenerator.
Local Open Scope R_scope.

Definition Embedding : Type := list R.

(** [[0.0] * dim] *)
Definition zeros (dim : nat) : Embedding := repeat 0 dim.

Section Model.
(** [self.model.encode] of the sentence transformer, on one text and on
    a list of texts. *)
Variable encode : string -> res Embedding.
Variable encode_batch : list string -> res (list Embedding).

Definition generate_embedding (text : string) : res Embedding :=
  if Py.is_blank text then Ok (zeros 384)
  else encode text.

Definition generate_embeddings_batch (texts : list string)
  : res (list Embedding) :=
  encode_batch texts.

End Model.

(** [sklearn.metrics.pairwise.cosine_similarity] on two row vectors:
    both rows are scaled to unit length (a zero norm is left alone, as
    [normalize] replaces it by 1) and multiplied. *)
Definition dot (a b : list R) : R :=
  fold_right Rplus 0 (map (fun p => fst p * snd p) (combine a b)).

Definition l2_norm (a : list R) : R := sqrt (dot a a).

Definition normalize (a : list R) : list R :=
  let n := l2_norm a in
  let n' := if Req_dec_T n 0 then 1 else n in
  map (fun x => x / n') a.

Definition cosine_similarity (a b : list R) : res R :=
  if (List.length a =? 0)%nat || (List.length b =? 0)%nat then
    Raise (ValueError "Found array with 0 feature(s)")
  else if negb (List.length a =? List.length b)%nat then
    Raise (ValueError "Incompatible dimension for X and Y matrices")
  else Ok (dot (normalize a) (normalize b)).

Definition calculate_similarity (embedding1 embedding2 : Embedding) : res R :=
  cosine_similarity embedding1 embedding2.

(** The dict appended to [results]. *)
Record Result : Type := mkResult {
  r_id : string;
  r_name : string;
  r_type : string;
  similarity : R;
  price : Q
}.

Definition result_of (project : Models.Project) (s : R) : Result :=
  {| r_id := Models.id project;
     r_name := Models.name project;
     r_type := Models.project_type project;
     similarity := s;
     price := if Qeq_bool (Models.final_price project) 0 then 0%Q
              else Models.final_price project |}.

(** The loop of [find_similar_projects]: projects without an embedding
    are skipped, so are those whose similarity raises, and only those
    with [similarity > 0.3] are kept. *)
Fixpoint results (query_embedding : Embedding) (projects : list Models.Project)
  : list Result :=
  match projects with
  | [] => []
  | project :: rest =>
      match Models.description_embedding project with
      | None | Some [] => results query_embedding rest
      | Some emb =>
          match cosine_similarity query_embedding emb with
          | Ok s =>
              if Rgt_dec s 0.3
              then result_of project s :: results query_embedding rest
              else results query_embedding rest
          | Raise _ => results query_embedding rest
          end
      end
  end.

Definition find_similar_projects
    (query_embedding : Embedding) (projects : list Models.Project) (top_k : Z)
  : list Result :=
  Py.slice_to top_k (Py.sort_desc similarity (results query_embedding projects)).

Definition default_top_k : Z := 5.

End EmbeddingGenerator.

(* ================================================================== *)
(** * app/services/embeddings.py                                       *)
(* ================================================================== *)

Module EmbeddingService.
Import EmbeddingGenerator.

Section Model.
(** [embedding_model.encode], already initialised. *)
Variable encode : string -> res Embedding.
Variable encode_batch : list string -> res (list Embedding).

Definition embed_text (text : string) : Embedding :=
  if Py.is_blank text then zeros 384
  else match encode text with
       | Ok embedding => embedding
       | Raise _ => zeros 384
       end.

Definition embed_texts_batch (texts : list string) : list Embedding :=
  match encode_batch texts with
  | Ok embeddings => embeddings
  | Raise _ => map (fun _ => zeros 384) texts
  end.

End Model.
End EmbeddingService.

(* ================================================================== *)
(** * calculator/ml/confidence.py: the confidence formula              *)
(* ================================================================== *)

Module ConfidenceCalculator.
Local Open Scope R_scope.

(** Component 1, [min(np.log(1 + n) / np.log(100), 1.0)].  [np.log] is
    real-valued for [1 + n > 0] only, that is for counts [n >= 0]. *)
Definition similarity_score (similar_projects_count : Z) : R :=
  Rmin (ln (1 + IZR similar_projects_count) / ln 100) 1.

(** Component 2, with the neutral 0.5 outside the guard. *)
Definition variance_score (price_variance predicted_price : R) : R :=
  match Rlt_dec 0 predicted_price, Rge_dec price_variance 0 with
  | left _, left _ => 1 / (1 + price_variance / predicted_price)
  | _, _ => 0.5
  end.

(** Component 3, [max(0.0, min(1.0, data_quality_score))]. *)
Definition quality_score (data_quality_score : R) : R :=
  Rmax 0 (Rmin 1 data_quality_score).

(** Component 4, [np.exp(-0.1 * avg_months_old)]. *)
Definition temporal_score (avg_months_old : R) : R :=
  exp (- 0.1 * avg_months_old).

(** The weighted sum before rounding. *)
Definition weighted_sum
    (similar_projects_count : Z)
    (price_variance predicted_price data_quality_score avg_months_old : R)
  : R :=
  0.35 * similarity_score similar_projects_count
  + 0.30 * variance_score price_variance predicted_price
  + 0.20 * quality_score data_quality_score
  + 0.15 * temporal_score avg_months_old.

Definition calculate_confidence
    (similar_projects_count : Z)
    (price_variance predicted_price data_quality_score avg_months_old : R)
  : R :=
  Py.round
    (weighted_sum similar_projects_count price_variance predicted_price
       data_quality_score avg_months_old)
    3.

(** The dict [classify_confidence_level] returns. *)
Record Tier : Type := mkTier {
  level : string;
  color : string;
  recommendation : string
}.

Definition tier_sehr_hoch : Tier :=
  mkTier "Sehr hoch" "green" "Vorhersage kann direkt verwendet werden.".
Definition tier_hoch : Tier :=
  mkTier "Hoch" "lightgreen"
    "Vorhersage ist verlässlich, manuelle Überprüfung empfohlen.".
Definition tier_mittel : Tier :=
  mkTier "Mittel" "yellow"
    "Vorhersage mit Vorsicht verwenden, sorgfältige Prüfung notwendig.".
Definition tier_niedrig : Tier :=
  mkTier "Niedrig" "orange"
    "Vorhersage unsicher, manuelle Kalkulation empfohlen.".
Definition tier_sehr_niedrig : Tier :=
  mkTier "Sehr niedrig" "red"
    "Vorhersage nicht verlässlich - manuelle Kalkulation erforderlich.".

Definition classify_confidence_level (confidence : R) : Tier :=
  if Rge_dec confidence 0.8 then tier_sehr_hoch
  else if Rge_dec confidence 0.6 then tier_hoch
  else if Rge_dec confidence 0.4 then tier_mittel
  else if Rge_dec confidence 0.2 then tier_niedrig
  else tier_sehr_niedrig.


(** ** [find_similar_projects] of the confidence calculator *)

(** The dict appended to [similarities]. *)
Record Similarity : Type := mkSimilarity {
  project : Models.Project;
  similarity : R
}.

(** [Project.objects.exclude(description_embedding__isnull=True)
     .filter(is_finalized=True)], in the default ordering of the model. *)
Definition finalized_with_embedding (table : list Models.Project)
  : list Models.Project :=
  Models.default_ordering
    (filter Models.is_finalized
       (filter (fun p => match Models.description_embedding p with
                         | None => false
                         | Some _ => true
                         end) table)).

Definition project_similarity
    (new_embedding : EmbeddingGenerator.Embedding) (p : Models.Project)
  : res R :=
  match Models.description_embedding p with
  | Some emb => EmbeddingGenerator.calculate_similarity new_embedding emb
  | None => Raise (ValueError "Expected 2D array, got object array")
  end.

Fixpoint similarities
    (new_embedding : EmbeddingGenerator.Embedding)
    (projects : list Models.Project) : res (list Similarity) :=
  match projects with
  | [] => Ok []
  | p :: rest =>
      (s <- project_similarity new_embedding p ;;
       sims <- similarities new_embedding rest ;;
       Ok (mkSimilarity p s :: sims))%res
  end.

Section Search.
Variable encode : string -> res EmbeddingGenerator.Embedding.

Definition find_similar_projects
    (table : list Models.Project) (new_project_description : string)
    (top_k : Z) : res (list Similarity) :=
  (new_embedding <-
     EmbeddingGenerator.generate_embedding encode new_project_description ;;
   sims <- similarities new_embedding (finalized_with_embedding table) ;;
   Ok (Py.slice_to top_k (Py.sort_desc similarity sims)))%res.

End Search.

Definition default_top_k : Z := 20.

End ConfidenceCalculator.

(* ================================================================== *)
(** * calculator/ml/feature_engineer.py                                *)
(* ================================================================== *)

Module FeatureEngineer.
Local Open Scope Q_scope.

(** What [pd.to_datetime(project_dict['project_date'])] makes of the
    value: a timestamp (seconds), or an exception. *)
Inductive DateValue : Type :=
| Parsed (t : Z)
| Unparseable.

(** The project dict: [None] is an absent key.  Present values have the
    type the field is converted to. *)
Record ProjectDict : Type := mkProjectDict {
  total_area_sqm : option Q;
  complexity : option Z;
  wood_type : option string;
  project_type : option string;
  region : option string;
  project_date : option DateValue
}.

(** [d.get(key, default)] *)
Definition get {A : Type} (field : option A) (default : A) : A :=
  match field with
  | Some v => v
  | None => default
  end.

(** The dict [extract_features] returns. *)
Record Features : Type := mkFeatures {
  f_total_area_sqm : Q;
  f_complexity : Z;
  f_wood_type : string;
  f_project_type : string;
  f_region : string;
  area_per_complexity : Q;
  months_old : Q;
  is_recent : Z
}.

Definition seconds_per_day : Z := 86400.

(** [(datetime.now() - project_date).days]: whole days, rounded down. *)
Definition days_old (now t : Z) : Z := ((now - t) / seconds_per_day)%Z.

(** [max(0, x)] *)
Definition max0 (x : Q) : Q := if Qlt_le_dec 0 x then x else 0.

Definition extract_features (now : Z) (project_dict : ProjectDict) : Features :=
  let area := get (total_area_sqm project_dict) 0 in
  let cx := get (complexity project_dict) 1%Z in
  let temporal :=
    match project_date project_dict with
    | Some (Parsed t) =>
        let d := days_old now t in
        (max0 (inject_Z d / 30), if (d <? 180)%Z then 1%Z else 0%Z)
    | Some Unparseable => (0, 0%Z)
    | None => (0, 0%Z)
    end in
  {| f_total_area_sqm := area;
     f_complexity := cx;
     f_wood_type := get (wood_type project_dict) "Unbekannt";
     f_project_type := get (project_type project_dict) "Sonstiges";
     f_region := get (region project_dict) "Deutschland";
     area_per_complexity := area / inject_Z (Z.max cx 1);
     months_old := fst temporal;
     is_recent := snd temporal |}.

End FeatureEngineer.

(* ================================================================== *)
(** * sklearn.preprocessing.LabelEncoder                               *)
(* ================================================================== *)

Module LabelEncoder.

(** [classes_] is absent until [fit] has run. *)
Record t : Type := mk { classes_ : option (list string) }.

Definition unfitted : t := mk None.

Fixpoint insert_unique (s : string) (l : list string) : list string :=
  match l with
  | [] => [s]
  | x :: l' =>
      match String.compare s x with
      | Lt => s :: x :: l'
      | Eq => x :: l'
      | Gt => x :: insert_unique s l'
      end
  end.

(** [np.unique]: the distinct values in ascending order. *)
Definition unique (values : list string) : list string :=
  fold_right insert_unique [] values.

Definition fit (values : list string) : t := mk (Some (unique values)).

Fixpoint index_of (s : string) (classes : list string) : option Z :=
  match classes with
  | [] => None
  | c :: classes' =>
      if String.eqb s c then Some 0%Z
      else option_map Z.succ (index_of s classes')
  end.

(** [transform] raises [ValueError] as soon as one value is not among
    [classes_]. *)
Fixpoint transform_values (classes : list string) (values : list string)
  : res (list Z) :=
  match values with
  | [] => Ok []
  | v :: values' =>
      match index_of v classes, transform_values classes values' with
      | Some i, Ok l => Ok (i :: l)
      | _, _ => Raise (ValueError "y contains previously unseen labels")
      end
  end.

Definition transform (enc : t) (values : list string) : res (list Z) :=
  match classes_ enc with
  | None => Raise (NotFittedError "This LabelEncoder instance is not fitted yet")
  | Some classes => transform_values classes values
  end.

End LabelEncoder.

(* ================================================================== *)
(** * calculator/ml/price_predictor.py                                 *)
(* ================================================================== *)

Module PricePredictor.
Local Open Scope Q_scope.

(** A pandas frame over the columns the predictor reads; [None] is an
    absent column.  Present columns have [nrows] entries. *)
Record DataFrame : Type := mkDataFrame {
  nrows : nat;
  col_total_area_sqm : option (list Q);
  col_complexity : option (list Z);
  col_wood_type : option (list string);
  col_project_type : option (list string);
  col_region : option (list string);
  col_final_price : option (list Q);
  col_project_date : option (list Z)
}.

(** The frame [prepare_features] builds. *)
Record Features : Type := mkFeatures {
  total_area_sqm : list Q;
  complexity : list Z;
  wood_type_encoded : list Z;
  project_type_encoded : list Z;
  region_encoded : list Z;
  wood_area_interaction : list Q;
  complexity_area_interaction : list Q;
  months_old : option (list Q);
  is_recent : option (list Z)
}.

Definition columns (X : Features) : list string :=
  ["total_area_sqm"; "complexity"; "wood_type_encoded";
   "project_type_encoded"; "region_encoded"; "wood_area_interaction";
   "complexity_area_interaction"]
  ++ match months_old X with Some _ => ["months_old"; "is_recent"] | None => [] end.

(** [float(predictions[0])] on what [model.predict] gave: the first
    value, or the exception the model raised.  [model.predict] answers
    with one value per row, so the index exists on a frame with a row. *)
Definition first_prediction (predictions : res (list Q)) : res Q :=
  match predictions with
  | Ok (predicted_price :: _) => Ok predicted_price
  | Ok [] => Raise (IndexError "index 0 is out of bounds")
  | Raise e => Raise e
  end.

Section Regressor.
(** The XGBoost regressor and the helpers of scikit-learn and numpy.
    Each of them may refuse its input with an exception: the split a
    [test_size] out of range, the regressor columns it cannot read or
    columns other than those of the fit, the metrics values they cannot
    subtract. *)
Variable regressor : Type.
(** [xgb.XGBRegressor(objective='reg:squarederror', ...)], not fitted. *)
Variable xgb_new : regressor.
(** [model.fit(X_train, y_train, eval_set=[(X_test, y_test)], ...)]: the
    fitted regressor. *)
Variable xgb_fit :
  regressor -> Features -> list Q -> Features -> list Q -> res regressor.
Variable xgb_predict : regressor -> Features -> res (list Q).
Variable train_test_split :
  Features -> list Q -> Q
  -> res ((Features * Features) * (list Q * list Q)).
(** [round(np.mean(np.abs((y - pred) / y)) * 100, 2)] and
    [round(np.sqrt(np.mean((y - pred) ** 2)), 2)]. *)
Variable mape : list Q -> list Q -> res Q.
Variable rmse : list Q -> list Q -> res Q.

(** The attributes of a [PricePredictor] object. *)
Record t : Type := mk {
  model : option regressor;
  label_encoders : list (string * LabelEncoder.t);
  feature_names : list string;
  model_version : string
}.

Definition init : t := mk None [] [] "v1.0.0".

(** Methods read and write the object and may raise: the state after a
    raise is the state reached when it was raised. *)
Definition M (A : Type) : Type := t -> res A * t.

Definition ret {A : Type} (a : A) : M A := fun st => (Ok a, st).
Definition raise {A : Type} (e : exn) : M A := fun st => (Raise e, st).
Definition bindM {A B : Type} (m : M A) (k : A -> M B) : M B :=
  fun st => match m st with
            | (Ok a, st') => k a st'
            | (Raise e, st') => (Raise e, st')
            end.
Definition lift {A : Type} (r : res A) : M A := fun st => (r, st).

Local Notation "x <-- m ;; k" := (bindM m (fun x => k))
  (at level 61, m at next level, right associativity).
Local Notation "m ;;; k" := (bindM m (fun _ => k))
  (at level 61, right associativity).

(** [projects_df[col]] *)
Definition column {A : Type} (name : string) (c : option (list A))
  : M (list A) :=
  match c with
  | Some values => ret values
  | None => raise (KeyError name)
  end.

Fixpoint lookup (name : string) (d : list (string * LabelEncoder.t))
  : option LabelEncoder.t :=
  match d with
  | [] => None
  | (k, v) :: d' => if String.eqb name k then Some v else lookup name d'
  end.

Fixpoint update (name : string) (enc : LabelEncoder.t)
    (d : list (string * LabelEncoder.t)) : list (string * LabelEncoder.t) :=
  match d with
  | [] => [(name, enc)]
  | (k, v) :: d' =>
      if String.eqb name k then (k, enc) :: d' else (k, v) :: update name enc d'
  end.

(** The encoder stored under [name] has been fitted, with [classes]. *)
Definition fitted_with (name : string) (classes : list string) (st : t)
  : Prop :=
  lookup name (label_encoders st) = Some (LabelEncoder.mk (Some classes)).

Definition set_encoder (name : string) (enc : LabelEncoder.t) : M unit :=
  fun st => (Ok tt, mk (model st) (update name enc (label_encoders st))
                       (feature_names st) (model_version st)).

Definition get_encoder (name : string) : M LabelEncoder.t :=
  fun st => match lookup name (label_encoders st) with
            | Some enc => (Ok enc, st)
            | None => (Raise (KeyError name), st)
            end.

Definition has_encoder (name : string) : M bool :=
  fun st => (Ok (match lookup name (label_encoders st) with
                 | Some _ => true
                 | None => false
                 end), st).

(** One round of the loop over the categorical columns. *)
Definition encode_column (col : string) (c : option (list string))
  : M (list Z) :=
  known <-- has_encoder col ;;
  (if known then ret tt
   else set_encoder col LabelEncoder.unfitted ;;;
        values <-- column col c ;;
        set_encoder col (LabelEncoder.fit values)) ;;;
  enc <-- get_encoder col ;;
  values <-- column col c ;;
  lift (LabelEncoder.transform enc values).

Definition zip_with {A B C : Type} (f : A -> B -> C) (l : list A) (l' : list B)
  : list C :=
  map (fun p => f (fst p) (snd p)) (combine l l').

Definition seconds_per_day : Z := 86400.

(** [(pd.Timestamp.now() - pd.to_datetime(d)).dt.days / 30] *)
Definition months_old_of (now d : Z) : Q :=
  inject_Z ((now - d) / seconds_per_day) / 30.

Definition set_feature_names (names : list string) : M unit :=
  fun st => (Ok tt, mk (model st) (label_encoders st) names (model_version st)).

Definition prepare_features (now : Z) (projects_df : DataFrame) : M Features :=
  area <-- column "total_area_sqm" (col_total_area_sqm projects_df) ;;
  cx <-- column "complexity" (col_complexity projects_df) ;;
  wood <-- encode_column "wood_type" (col_wood_type projects_df) ;;
  ptype <-- encode_column "project_type" (col_project_type projects_df) ;;
  reg <-- encode_column "region" (col_region projects_df) ;;
  let temporal :=
    match col_project_date projects_df with
    | Some dates =>
        let months := map (months_old_of now) dates in
        (Some months,
         Some (map (fun m => if Qlt_le_dec m 6 then 1%Z else 0%Z) months))
    | None => (None, None)
    end in
  let features :=
    {| total_area_sqm := area;
       complexity := cx;
       wood_type_encoded := wood;
       project_type_encoded := ptype;
       region_encoded := reg;
       wood_area_interaction :=
         zip_with (fun a w => a * inject_Z (w + 1)) area wood;
       complexity_area_interaction :=
         zip_with (fun a c => a * inject_Z c) area cx;
       months_old := fst temporal;
       is_recent := snd temporal |} in
  set_feature_names (columns features) ;;;
  ret features.

(** A row of [projects_queryset.values(...)], of a project whose area
    is not null. *)
Record ProjectValues : Type := mkProjectValues {
  v_total_area_sqm : Q;
  v_wood_type : string;
  v_project_type : string;
  v_region : string;
  v_complexity : Z;
  v_final_price : Q;
  v_project_date : Z
}.

(** [pd.DataFrame(list(...))]: no rows give a frame without columns. *)
Definition frame_of_values (rows : list ProjectValues) : DataFrame :=
  match rows with
  | [] => mkDataFrame 0 None None None None None None None
  | _ =>
      mkDataFrame (List.length rows)
        (Some (map v_total_area_sqm rows))
        (Some (map v_complexity rows))
        (Some (map v_wood_type rows))
        (Some (map v_project_type rows))
        (Some (map v_region rows))
        (Some (map v_final_price rows))
        (Some (map v_project_date rows))
  end.

(** The metrics dict [train] returns. *)
Record Metrics : Type := mkMetrics {
  train_mape : Q;
  test_mape : Q;
  train_rmse : Q;
  test_rmse : Q;
  training_samples : nat;
  test_samples : nat;
  metrics_model_version : string
}.

Definition set_model (m : regressor) : M unit :=
  fun st => (Ok tt, mk (Some m) (label_encoders st) (feature_names st)
                       (model_version st)).

Definition get_model_version : M string :=
  fun st => (Ok (model_version st), st).

Definition too_few_projects (n : nat) : string :=
  ("Mindestens 30 Projekte benötigt, nur " ++ Py.str_of_nat n
   ++ " vorhanden.")%string.

(** [self.model] is assigned the new regressor before [fit] runs on
    it: a [fit] that raises leaves the unfitted regressor there. *)
Definition train (now : Z) (projects_queryset : list ProjectValues)
    (test_size : Q) : M Metrics :=
  let df := frame_of_values projects_queryset in
  if (nrows df <? 30)%nat then
    raise (ValueError (too_few_projects (nrows df)))
  else
    X <-- prepare_features now df ;;
    y <-- column "final_price" (col_final_price df) ;;
    parts <-- lift (train_test_split X y test_size) ;;
    let '((X_train, X_test), (y_train, y_test)) := parts in
    set_model xgb_new ;;;
    m <-- lift (xgb_fit xgb_new X_train y_train X_test y_test) ;;
    set_model m ;;;
    train_predictions <-- lift (xgb_predict m X_train) ;;
    test_predictions <-- lift (xgb_predict m X_test) ;;
    mape_train <-- lift (mape y_train train_predictions) ;;
    mape_test <-- lift (mape y_test test_predictions) ;;
    rmse_train <-- lift (rmse y_train train_predictions) ;;
    rmse_test <-- lift (rmse y_test test_predictions) ;;
    version <-- get_model_version ;;
    ret {| train_mape := mape_train;
           test_mape := mape_test;
           train_rmse := rmse_train;
           test_rmse := rmse_test;
           training_samples := List.length (total_area_sqm X_train);
           test_samples := List.length (total_area_sqm X_test);
           metrics_model_version := version |}.

Definition default_test_size : Q := 2 # 10.

(** The [project_data] dict of [predict]: [None] is an absent key. *)
Record ProjectData : Type := mkProjectData {
  d_total_area_sqm : option Q;
  d_complexity : option Z;
  d_wood_type : option string;
  d_project_type : option string;
  d_region : option string;
  d_project_date : option Z
}.

(** [pd.DataFrame([project_data])]: one row, a column per key. *)
Definition frame_of_dict (project_data : ProjectData) : DataFrame :=
  let one {A : Type} (v : option A) := option_map (fun x => [x]) v in
  mkDataFrame 1
    (one (d_total_area_sqm project_data))
    (one (d_complexity project_data))
    (one (d_wood_type project_data))
    (one (d_project_type project_data))
    (one (d_region project_data))
    None
    (one (d_project_date project_data)).

Definition get_model : M (option regressor) :=
  fun st => (Ok (model st), st).

Definition predict (now : Z) (project_data : ProjectData) : M Q :=
  m <-- get_model ;;
  match m with
  | None => raise (ValueError "Modell muss erst trainiert oder geladen werden.")
  | Some m =>
      let df := frame_of_dict project_data in
      X <-- prepare_features now df ;;
      lift (first_prediction (xgb_predict m X))
  end.

End Regressor.
End PricePredictor.

(* ================================================================== *)
(** * Concrete inputs used by the examples below                       *)
(* ================================================================== *)

Module Scenario.
Local Open Scope R_scope.

(** Two finalized projects with the same one-dimensional embedding; the
    first is the older one. *)
Definition older_project : Models.Project :=
  Models.mkProject "a" "Treppe alt" "Eichentreppe" "Treppenbau" "Nord"
    (Some 20%Q) "Eiche" 2 9000%Q 100 (Some [1]) true.

Definition newer_project : Models.Project :=
  Models.mkProject "b" "Treppe neu" "Eichentreppe" "Treppenbau" "Nord"
    (Some 20%Q) "Eiche" 2 9500%Q 200 (Some [1]) true.

(** A project whose cosine similarity to [threshold_query] is exactly
    3/10. *)
Definition threshold_query : EmbeddingGenerator.Embedding := [1; 0; 0; 0].

Definition threshold_project : Models.Project :=
  Models.mkProject "c" "Dachstuhl" "Dachstuhl Kiefer" "Dachstuhl" "Nord"
    (Some 80%Q) "Kiefer" 3 21000%Q 150 (Some [3; 9; 3; 1]) true.

(** A sentence transformer that maps every text to the vector [[1]]. *)
Definition constant_encode (text : string)
  : res EmbeddingGenerator.Embedding := Ok [1].

Definition constant_encode_batch (texts : list string)
  : res (list EmbeddingGenerator.Embedding) := Ok (map (fun _ => [1]) texts).

(** A project dict with a date, and the same without. *)
Definition dated_project : FeatureEngineer.ProjectDict :=
  FeatureEngineer.mkProjectDict (Some 20%Q) (Some 2%Z) (Some "Eiche")
    (Some "Treppenbau") (Some "Nord") (Some (FeatureEngineer.Parsed 0)).

Definition undated_project : FeatureEngineer.ProjectDict :=
  FeatureEngineer.mkProjectDict (Some 20%Q) (Some 2%Z) (Some "Eiche")
    (Some "Treppenbau") (Some "Nord") None.

(** Rows of finalized projects with a price, of two wood types. *)
Definition oak_row : PricePredictor.ProjectValues :=
  PricePredictor.mkProjectValues 20%Q "Eiche" "Treppenbau" "Nord" 2 9000%Q 0.

Definition pine_row : PricePredictor.ProjectValues :=
  PricePredictor.mkProjectValues 35%Q "Kiefer" "Dachstuhl" "Nord" 3 12000%Q 0.

Definition ten_projects : list PricePredictor.ProjectValues :=
  repeat oak_row 5 ++ repeat pine_row 5.

Definition thirty_projects : list PricePredictor.ProjectValues :=
  repeat oak_row 15 ++ repeat pine_row 15.

(** A regressor that predicts one and the same price, a split that
    hands out the whole frame twice, and constant metrics. *)
Definition flat_fit (m : unit) (X : PricePredictor.Features) (y : list Q)
    (X_val : PricePredictor.Features) (y_val : list Q) : res unit := Ok tt.

Definition flat_predict (m : unit) (X : PricePredictor.Features)
  : res (list Q) :=
  Ok (map (fun _ => 9000%Q) (PricePredictor.total_area_sqm X)).

Definition whole_split (X : PricePredictor.Features) (y : list Q)
    (test_size : Q)
  : res ((PricePredictor.Features * PricePredictor.Features)
         * (list Q * list Q)) :=
  Ok ((X, X), (y, y)).

Definition zero_metric (y pred : list Q) : res Q := Ok 0%Q.

Definition flat_train (now : Z) (rows : list PricePredictor.ProjectValues)
  : PricePredictor.M unit PricePredictor.Metrics :=
  PricePredictor.train tt flat_fit flat_predict whole_split zero_metric
    zero_metric now rows PricePredictor.default_test_size.

(** The predictor after training on [thirty_projects]. *)
Definition trained_predictor : PricePredictor.t unit :=
  snd (flat_train 0 thirty_projects (PricePredictor.init unit)).

(** Prediction inputs: one with a wood type of the training data, one
    with a wood type that does not occur there. *)
Definition seen_wood_type : PricePredictor.ProjectData :=
  PricePredictor.mkProjectData (Some 20%Q) (Some 2%Z) (Some "Eiche")
    (Some "Treppenbau") (Some "Nord") None.

Definition unseen_wood_type : PricePredictor.ProjectData :=
  PricePredictor.mkProjectData (Some 20%Q) (Some 2%Z) (Some "Mahagoni")
    (Some "Treppenbau") (Some "Nord") None.

End Scenario.

(* ================================================================== *)
(** * Taylor polynomials of the exponential                            *)
(* ================================================================== *)

(** Used to enclose [exp] and [ln] at the rational arguments of the
    confidence scenario. *)
Module Taylor.
Local Open Scope R_scope.

Fixpoint zfact (n : nat) : Z :=
  match n with
  | O => 1%Z
  | S k => (Z.of_nat (S k) * zfact k)%Z
  end.

(** The monomial [x^n / n!] and the partial sum up to degree [n]. *)
Definition tmon (n : nat) (x : R) : R := x ^ n / IZR (zfact n).

Fixpoint texp (n : nat) (x : R) : R :=
  match n with
  | O => 1
  | S k => texp k x + tmon (S k) x
  end.

Definition dtexp (n : nat) (x : R) : R :=
  match n with
  | O => 0
  | S k => texp k x
  end.

End Taylor.

(* ================================================================== *)
(** * Exceptions beyond those of the core                              *)
(* ================================================================== *)

Module PyExt.

(** The exceptions of [Py.exn], [TypeError], [FileNotFoundError] and
    [IsADirectoryError]. *)
Inductive exn : Type :=
| Core (e : Py.exn)
| TypeError (msg : string)
| FileNotFoundError (msg : string)
| IsADirectoryError (msg : string).

Inductive res (A : Type) : Type :=
| Ok (a : A)
| Raise (e : exn).
Arguments Ok {A} a.
Arguments Raise {A} e.

End PyExt.

(* ================================================================== *)
(** * calculator/ml/confidence.py: the data-quality score              *)
(* ================================================================== *)

Module DataQuality.
Local Open Scope R_scope.

(** A value of the [project_data] dict: [None], a string or a number. *)
Inductive Value : Type :=
| VNone
| VStr (s : string)
| VNum (x : R).

(** The dict over the six required fields; [None] is an absent key. *)
Record ProjectData : Type := mkProjectData {
  wood_type : option Value;
  total_area_sqm : option Value;
  project_type : option Value;
  complexity : option Value;
  region : option Value;
  description : option Value
}.

Section Str.
(** [str(x)] of a number; it is never blank. *)
Variable str_of_number : R -> string.

(** [value is not None and str(value).strip()] for
    [value = project_data.get(field)]. *)
Definition filled (value : option Value) : bool :=
  match value with
  | None | Some VNone => false
  | Some (VStr s) => negb (Py.is_blank s)
  | Some (VNum _) => true
  end.

Definition required_fields (project_data : ProjectData)
  : list (option Value) :=
  [wood_type project_data; total_area_sqm project_data;
   project_type project_data; complexity project_data;
   region project_data; description project_data].

Definition filled_fields (project_data : ProjectData) : nat :=
  List.length (filter filled (required_fields project_data)).

(** [str(project_data.get('description', ''))] *)
Definition description_text (project_data : ProjectData) : string :=
  match description project_data with
  | None => ""
  | Some VNone => "None"
  | Some (VStr s) => s
  | Some (VNum x) => str_of_number x
  end.

(** [0.1 if 5 <= area <= 500 else 0] for
    [area = project_data.get('total_area_sqm', 0)]; the comparison with
    [None] or with a string raises. *)
Definition area_bonus (project_data : ProjectData) : PyExt.res R :=
  match total_area_sqm project_data with
  | None => PyExt.Ok 0
  | Some (VNum area) =>
      if Rle_dec 5 area then
        if Rle_dec area 500 then PyExt.Ok 0.1 else PyExt.Ok 0
      else PyExt.Ok 0
  | Some VNone =>
      PyExt.Raise (PyExt.TypeError
        "'<=' not supported between instances of 'int' and 'NoneType'")
  | Some (VStr _) =>
      PyExt.Raise (PyExt.TypeError
        "'<=' not supported between instances of 'int' and 'str'")
  end.

Definition calculate_data_quality (project_data : ProjectData)
  : PyExt.res R :=
  let base_score :=
    INR (filled_fields project_data)
    / INR (List.length (required_fields project_data)) in
  let description_bonus :=
    Rmin (INR (String.length (description_text project_data)) / 100) 0.2 in
  match area_bonus project_data with
  | PyExt.Raise e => PyExt.Raise e
  | PyExt.Ok bonus =>
      let total_score := Rmin 1 (base_score + description_bonus + bonus) in
      PyExt.Ok (Py.round total_score 3)
  end.

End Str.
End DataQuality.

(* ================================================================== *)
(** * calculator/ml/feature_engineer.py: queryset and normalisation    *)
(* ================================================================== *)

Module FeatureFrames.
Local Open Scope Q_scope.

(** [x or default] for a nullable decimal, an integer and a string. *)
Definition or_decimal (x : option Q) (default : Q) : Q :=
  match x with
  | None => default
  | Some q => if Qeq_bool q 0 then default else q
  end.

Definition or_int (x : Z) (default : Z) : Z :=
  if (x =? 0)%Z then default else x.

Definition or_str (s : string) (default : string) : string :=
  match s with
  | EmptyString => default
  | _ => s
  end.

(** The dict [extract_from_queryset] builds for a project; the date is
    the midnight of [project_date]. *)
Definition data_of (project : Models.Project) : FeatureEngineer.ProjectDict :=
  FeatureEngineer.mkProjectDict
    (Some (or_decimal (Models.total_area_sqm project) 0))
    (Some (or_int (Models.complexity project) 1))
    (Some (or_str (Models.wood_type project) "Unbekannt"))
    (Some (or_str (Models.project_type project) "Sonstiges"))
    (Some (or_str (Models.region project) "Deutschland"))
    (Some (FeatureEngineer.Parsed
             (Models.project_date project * FeatureEngineer.seconds_per_day))).

(** The feature rows and the prices, project by project. *)
Definition extract_from_queryset (now : Z) (queryset : list Models.Project)
  : list FeatureEngineer.Features * list Q :=
  (map (fun project =>
          FeatureEngineer.extract_features now (data_of project)) queryset,
   map (fun project => or_decimal (Some (Models.final_price project)) 0)
     queryset).



(** [col.min()] and [col.max()]; [None] is the NaN of an empty column. *)
Fixpoint col_min (values : list Q) : option Q :=
  match values with
  | [] => None
  | x :: rest =>
      match col_min rest with
      | None => Some x
      | Some m => Some (if Qlt_le_dec m x then m else x)
      end
  end.

Fixpoint col_max (values : list Q) : option Q :=
  match values with
  | [] => None
  | x :: rest =>
      match col_max rest with
      | None => Some x
      | Some m => Some (if Qlt_le_dec x m then m else x)
      end
  end.

(** The configuration: per column its minimum and maximum. *)
Definition Config : Type := list (string * (Q * Q)).

Fixpoint config_get (config : Config) (col : string) : option (Q * Q) :=
  match config with
  | [] => None
  | (k, v) :: rest => if String.eqb col k then Some v else config_get rest col
  end.

(** One round of the loop over the numeric columns. *)
Definition normalize_column (config : option Config) (col : string)
    (values : list Q) : list Q :=
  let bounds :=
    match config with
    | Some cfg =>
        match config_get cfg col with
        | Some (min_val, max_val) => (Some min_val, Some max_val)
        | None => (col_min values, col_max values)
        end
    | None => (col_min values, col_max values)
    end in
  match bounds with
  | (Some min_val, Some max_val) =>
      if Qlt_le_dec min_val max_val
      then map (fun x => (x - min_val) / (max_val - min_val)) values
      else map (fun _ => 0) values
  | _ => map (fun _ => 0) values
  end.


End FeatureFrames.

(* ================================================================== *)
(** * calculator/ml/price_predictor.py: persistence                    *)
(* ================================================================== *)

Module Persistence.

(** ** [os.path.dirname] on POSIX paths *)








Section Regressor.
Variable regressor : Type.









End Regressor.
End Persistence.

(* ================================================================== *)
(** * app/services/embeddings.py: the 768-d model and the comparison   *)
(* ================================================================== *)

Module EmbeddingService768.
Import EmbeddingGenerator.
Local Open Scope R_scope.

Section Models.
(** [embedding_model.encode] and [embedding_model_768d.encode], both
    models already initialised. *)
Variable encode : string -> res Embedding.
Variable encode_768d : string -> res Embedding.
Variable encode_batch_768d : list string -> res (list Embedding).

Definition embed_text_768d (text : string) : Embedding :=
  if Py.is_blank text then zeros 768
  else match encode_768d text with
       | Ok embedding => embedding
       | Raise _ => zeros 768
       end.

Definition embed_texts_batch_768d (texts : list string) : list Embedding :=
  match encode_batch_768d texts with
  | Ok embeddings => embeddings
  | Raise _ => map (fun _ => zeros 768) texts
  end.

(** The dict [compare_embedding_models] returns when nothing raises; a
    similarity of [None] is the NaN that dividing a zero vector by its
    zero norm gives. *)
Record Comparison : Type := mkComparison {
  text : string;
  embedding_384d_size : nat;
  embedding_768d_size : nat;
  model_similarity : option R;
  model_difference : option R
}.

(** [np.dot] of the two vectors, each divided by its norm: a
    [ValueError] (here [None]) unless both have the same length. *)
Definition normalized_dot (a b : Embedding) : option (option R) :=
  if negb (List.length a =? List.length b)%nat then None
  else match a with
       | [] => Some (Some 0)
       | _ =>
           if Req_dec_T (l2_norm a) 0 then Some None
           else if Req_dec_T (l2_norm b) 0 then Some None
           else Some (Some (dot (map (fun x => x / l2_norm a) a)
                                (map (fun x => x / l2_norm b) b)))
       end.

(** [None] is the empty dict of the [except] branch. *)
Definition compare_embedding_models (txt : string) : option Comparison :=
  let embedding_384d := EmbeddingService.embed_text encode txt in
  let embedding_768d := embed_text_768d txt in
  match normalized_dot embedding_384d embedding_768d with
  | None => None
  | Some similarity =>
      Some (mkComparison (String.substring 0 100 txt)
              (List.length embedding_384d) (List.length embedding_768d)
              similarity (option_map (fun s => 1 - s) similarity))
  end.

End Models.
End EmbeddingService768.

(* ================================================================== *)
(** * app/services/embeddings.py: the vector store                     *)
(* ================================================================== *)

Module VectorStore.

Record Payload : Type := mkPayload {
  project_id : string;
  name : string;
  description : string;
  project_type : string;
  region : string;
  final_price : Q
}.

Record Point : Type := mkPoint {
  id : Z;
  vector : list R;
  payload : Payload
}.

(** A Qdrant collection: the vector size it was created with and its
    points, with distinct ids. *)
Record Collection : Type := mkCollection {
  size : nat;
  points : list Point
}.

(** [settings.QDRANT_VECTOR_SIZE], the size [init_qdrant] creates the
    collection with. *)
Definition default_vector_size : nat := 768.

(** [upsert] replaces the point that has the id or adds the point;
    [delete] removes the point that has the id. *)
Fixpoint upsert (point : Point) (c : list Point) : list Point :=
  match c with
  | [] => [point]
  | p :: rest =>
      if (id p =? id point)%Z then point :: rest else p :: upsert point rest
  end.

Definition delete (point_id : Z) (c : list Point) : list Point :=
  filter (fun p => negb (id p =? point_id)%Z) c.

Fixpoint retrieve (point_id : Z) (c : list Point) : option Point :=
  match c with
  | [] => None
  | p :: rest => if (id p =? point_id)%Z then Some p else retrieve point_id rest
  end.

(** [qdrant_client.upsert(collection_name, points=[point])]: the server
    refuses a vector whose dimension is not the collection's and the
    client raises; [None] is that exception. *)
Definition client_upsert (point : Point) (c : Collection)
  : option Collection :=
  if (List.length (vector point) =? size c)%nat
  then Some (mkCollection (size c) (upsert point (points c)))
  else None.

(** [qdrant_client.delete(collection_name, points_selector=[point_id])] *)
Definition client_delete (point_id : Z) (c : Collection) : Collection :=
  mkCollection (size c) (delete point_id (points c)).

(** The [metadata] dict; [None] is an absent key. *)
Record Metadata : Type := mkMetadata {
  m_name : option string;
  m_description : option string;
  m_project_type : option string;
  m_region : option string;
  m_final_price : option Q
}.

Definition get {A : Type} (field : option A) (default : A) : A :=
  match field with
  | Some v => v
  | None => default
  end.

Section Uuid.
(** [UUID(project_id).int], or [None] where [UUID] raises. *)
Variable uuid_int : string -> option Z.

(** [int(UUID(project_id).int % (2**31))] *)
Definition point_id_of (project : string) : option Z :=
  option_map (fun u => u mod 2 ^ 31)%Z (uuid_int project).

(** [upsert_vector] and [delete_vector] on the client's collection;
    [None] is a client that was not initialised.  Whatever raises
    inside is caught and answered with [False].  The result is the
    returned flag and the collection afterwards. *)
Definition upsert_vector (client : option Collection) (project : string)
    (embedding : list R) (metadata : Metadata)
  : bool * option Collection :=
  match client with
  | None => (false, None)
  | Some c =>
      match point_id_of project with
      | None => (false, Some c)
      | Some point_id =>
          let point :=
            mkPoint point_id embedding
              (mkPayload project
                 (get (m_name metadata) "")
                 (get (m_description metadata) "")
                 (get (m_project_type metadata) "")
                 (get (m_region metadata) "")
                 (get (m_final_price metadata) 0%Q)) in
          match client_upsert point c with
          | Some c' => (true, Some c')
          | None => (false, Some c)
          end
      end
  end.

Definition delete_vector (client : option Collection) (project : string)
  : bool * option Collection :=
  match client with
  | None => (false, None)
  | Some c =>
      match point_id_of project with
      | None => (false, Some c)
      | Some point_id => (true, Some (client_delete point_id c))
      end
  end.

End Uuid.
End VectorStore.

(* ================================================================== *)
(** * calculator/views.py: the similarity endpoints                    *)
(* ================================================================== *)

Module Views.
Import EmbeddingGenerator.
Local Open Scope R_scope.

(** [Project.objects.filter(is_finalized=True)
     .exclude(description_embedding__isnull=True)] *)
Definition finalized_projects (table : list Models.Project)
  : list Models.Project :=
  Models.default_ordering
    (filter (fun p => match Models.description_embedding p with
                      | None => false
                      | Some _ => true
                      end)
       (filter Models.is_finalized table)).

Fixpoint map_res {A B : Type} (f : A -> res B) (l : list A) : res (list B) :=
  match l with
  | [] => Ok []
  | x :: rest =>
      (y <- f x ;; ys <- map_res f rest ;; Ok (y :: ys))%res
  end.

(** ** [SimilarProjectsViewSet.find] *)

Record SimilarItem : Type := mkSimilarItem {
  i_id : string;
  i_name : string;
  i_description : string;
  i_final_price : Q;
  i_wood_type : string;
  i_project_type : string;
  i_complexity : Z;
  i_similarity : R
}.

(** [s['project']]: the dicts of [find_similar_projects] have the keys
    id, name, type, similarity and price, and no key 'project'. *)
Definition project_of (s : Result) : res Models.Project :=
  Raise (KeyError "project").

Definition similar_item (s : Result) : res SimilarItem :=
  (project <- project_of s ;;
   Ok (mkSimilarItem (Models.id project) (Models.name project)
         (String.substring 0 100 (Models.description project))
         (Models.final_price project) (Models.wood_type project)
         (Models.project_type project) (Models.complexity project)
         (Py.round (similarity s) 3)))%res.

Inductive FindResponse : Type :=
| Find400 (error : string)
| Find500 (error : string)
| Find200 (input_embedding_dimension : nat)
          (similar_projects : list SimilarItem) (count : nat).

(** ** [BatchSimilarityViewSet.find] *)

Inductive BatchResult : Type :=
| BatchError (error : string)
| BatchMatch (description : string) (similar_count : nat)
             (top_match_similarity : R).

Inductive BatchResponse : Type :=
| Batch400 (error : string)
| Batch500 (e : exn)
| Batch200 (total : nat) (results : list BatchResult).

Section Model.
Variable encode : string -> res Embedding.

Definition find (table : list Models.Project) (description : string)
    (top_k : Z) : res FindResponse :=
  match description with
  | EmptyString => Ok (Find400 "description ist erforderlich")
  | _ =>
      (embedding <- generate_embedding encode description ;;
       match embedding with
       | [] => Ok (Find500 "Konnte Embedding nicht generieren")
       | _ =>
           let similar :=
             find_similar_projects embedding (finalized_projects table)
               top_k in
           items <- map_res similar_item similar ;;
           Ok (Find200 (List.length embedding) items (List.length similar))
       end)%res
  end.

(** One round of the loop over the descriptions. *)
Definition batch_result (table : list Models.Project) (top_k : Z)
    (desc : string) : res BatchResult :=
  (embedding <- generate_embedding encode desc ;;
   match embedding with
   | [] => Ok (BatchError "Could not generate embedding")
   | _ =>
       let similar :=
         find_similar_projects embedding (finalized_projects table) top_k in
       Ok (BatchMatch (String.substring 0 50 desc) (List.length similar)
             (match similar with
              | best :: _ => Py.round (similarity best) 3
              | [] => 0
              end))
   end)%res.

Definition batch_find (table : list Models.Project)
    (descriptions : list string) (top_k : Z) : BatchResponse :=
  match descriptions with
  | [] => Batch400 "descriptions list is required"
  | _ =>
      match map_res (batch_result table top_k) descriptions with
      | Ok results => Batch200 (List.length results) results
      | Raise e => Batch500 e
      end
  end.

End Model.

(** ** [DocumentViewSet.similar_projects] *)

Record DocumentMatch : Type := mkDocumentMatch {
  dm_id : string;
  dm_name : string;
  dm_type : string;
  similarity_score : R;
  dm_price : Q
}.

Inductive DocumentResponse : Type :=
| Document400 (error : string)
| Document200 (document_id : string) (similar_projects_count : nat)
              (projects : list DocumentMatch).

(** The loop over the projects: a project whose similarity raises is
    skipped, one with a similarity above 0.5 is kept with its score
    rounded to three places. *)
Fixpoint document_matches (doc_embedding : Embedding)
    (projects : list Models.Project) : list DocumentMatch :=
  match projects with
  | [] => []
  | project :: rest =>
      match Models.description_embedding project with
      | None => document_matches doc_embedding rest
      | Some emb =>
          match calculate_similarity doc_embedding emb with
          | Ok s =>
              if Rgt_dec s 0.5
              then mkDocumentMatch (Models.id project) (Models.name project)
                     (Models.project_type project) (Py.round s 3)
                     (Models.final_price project)
                   :: document_matches doc_embedding rest
              else document_matches doc_embedding rest
          | Raise _ => document_matches doc_embedding rest
          end
      end
  end.

Definition similar_projects (table : list Models.Project)
    (document_id : string) (document_embedding : option Embedding)
  : DocumentResponse :=
  match document_embedding with
  | None | Some [] =>
      Document400 "Document not processed or no embedding available"
  | Some doc_embedding =>
      let similar :=
        Py.sort_desc similarity_score
          (document_matches doc_embedding (finalized_projects table)) in
      Document200 document_id (List.length similar) (Py.slice_to 10 similar)
  end.

End Views.

(* ================================================================== *)
(** * Further concrete inputs                                          *)
(* ================================================================== *)

Module Samples.
Local Open Scope R_scope.

(** A complete project dict of the data-quality score, and one whose
    area is a JSON null. *)
Definition complete_data : DataQuality.ProjectData :=
  DataQuality.mkProjectData
    (Some (DataQuality.VStr "Eiche")) (Some (DataQuality.VNum 20))
    (Some (DataQuality.VStr "Treppenbau")) (Some (DataQuality.VNum 2))
    (Some (DataQuality.VStr "Nord"))
    (Some (DataQuality.VStr "Eichentreppe, 14 Stufen, gedreht")).

Definition null_area_data : DataQuality.ProjectData :=
  DataQuality.mkProjectData
    (Some (DataQuality.VStr "Eiche")) (Some DataQuality.VNone)
    None None None None.

Definition str_of_number (x : R) : string := "20.0".

(** A project stored with complexity 0 and without a wood type. *)
Definition bare_project : Models.Project :=
  Models.mkProject "d" "Regal" "Regal" "" "Nord" None "" 0 0%Q 300
    (Some [1]) true.


(** A UUID parser that reads the two project ids below as 5 and as
    5 + 2^31. *)
Definition uuid_int (project : string) : option Z :=
  if String.eqb project "00000000-0000-0000-0000-000000000005"
  then Some 5%Z
  else if String.eqb project "00000000-0000-0000-0000-000080000005"
       then Some 2147483653%Z
       else None.

Definition first_project : string := "00000000-0000-0000-0000-000000000005".
Definition second_project : string := "00000000-0000-0000-0000-000080000005".

Definition no_metadata : VectorStore.Metadata :=
  VectorStore.mkMetadata None None None None None.

(** Two sentence transformers of the declared dimensions. *)
Definition encode_384 (text : string) : res EmbeddingGenerator.Embedding :=
  Ok (repeat 1 384).

Definition encode_768 (text : string) : res EmbeddingGenerator.Embedding :=
  Ok (repeat 1 768).

(** A regressor whose [fit] refuses the columns it is given. *)
Definition refusing_fit (m : unit) (X : PricePredictor.Features) (y : list Q)
    (X_val : PricePredictor.Features) (y_val : list Q) : res unit :=
  Raise (ValueError "DataFrame.dtypes for data must be int, float or bool").

(** A document embedding and a table of three projects for the
    similarity endpoints. *)
Definition small_table : list Models.Project :=
  [Scenario.older_project; Scenario.newer_project; bare_project].

End Samples.

(* ================================================================== *)
(** * Enclosures of [exp] and [ln]                                     *)
(* ================================================================== *)

Module TaylorFacts.
Import Taylor.
Local Open Scope R_scope.

Lemma zfact_pos n : (0 < zfact n)%Z.
Proof. induction n; cbn [zfact]; [lia|]. apply Z.mul_pos_pos; lia. Qed.

Lemma zfact_R_pos n : 0 < IZR (zfact n).
Proof. apply IZR_lt, zfact_pos. Qed.

Lemma texp_at_0 n : texp n 0 = 1.
Proof.
  induction n; [reflexivity|]. cbn [texp]. rewrite IHn. unfold tmon.
  rewrite pow_ne_zero by discriminate. unfold Rdiv. lra.
Qed.

Lemma derivable_tmon n x : derivable_pt_lim (tmon (S n)) x (tmon n x).
Proof.
  unfold tmon.
  assert (Hn : 0 < IZR (zfact n)) by apply zfact_R_pos.
  assert (HS : 0 < INR (S n)) by (apply lt_0_INR; lia).
  replace (x ^ n / IZR (zfact n))
    with (INR (S n) * x ^ pred (S n) * / IZR (zfact (S n))).
  - apply (derivable_pt_lim_scal_right (fun y => y ^ S n)).
    apply derivable_pt_lim_pow.
  - cbn [zfact pred]. rewrite mult_IZR, <- INR_IZR_INZ. field. lra.
Qed.

Lemma derivable_texp n x : derivable_pt_lim (texp n) x (dtexp n x).
Proof.
  induction n as [|n IH].
  - apply derivable_pt_lim_const.
  - cbn [dtexp].
    replace (texp n x) with (dtexp n x + tmon n x).
    + apply (derivable_pt_lim_plus (texp n) (tmon (S n))); [exact IH|].
      apply derivable_tmon.
    + destruct n; cbn [dtexp texp]; [|reflexivity].
      unfold tmon; simpl; field.
Qed.

Lemma derivable_exp_minus_texp n x :
  derivable_pt_lim (fun y => exp y - texp (S n) y) x (exp x - texp n x).
Proof.
  apply (derivable_pt_lim_minus exp (texp (S n))).
  - apply derivable_pt_lim_exp.
  - apply (derivable_texp (S n)).
Qed.

(** On the non-negative half-line every partial sum is below [exp]. *)
Lemma texp_le_exp n : forall x, 0 <= x -> texp n x <= exp x.
Proof.
  induction n as [|n IH]; intros x Hx.
  - cbn [texp]. pose proof (exp_ineq1_le x). lra.
  - destruct Hx as [Hx | <-]; [|rewrite texp_at_0, exp_0; lra].
    destruct (MVT_cor2 (fun y => exp y - texp (S n) y)
                (fun y => exp y - texp n y) 0 x Hx) as (c & Hc & Hc1).
    { intros; apply derivable_exp_minus_texp. }
    rewrite texp_at_0, exp_0 in Hc.
    assert (0 <= exp c - texp n c) by (specialize (IH c); lra).
    nra.
Qed.

(** On the non-positive half-line the partial sums alternate around
    [exp]: those of even degree are above, those of odd degree below. *)
Lemma texp_alternates n : forall x, x <= 0 ->
  (Nat.even n = true -> exp x <= texp n x) /\
  (Nat.even n = false -> texp n x <= exp x).
Proof.
  induction n as [|n IH]; intros x Hx.
  - split; [intros _|discriminate]. cbn [texp].
    rewrite <- exp_0.
    destruct Hx as [Hx| ->]; [left; now apply exp_increasing | right; reflexivity].
  - destruct Hx as [Hx | ->]; [|rewrite texp_at_0, exp_0; split; intros; lra].
    destruct (MVT_cor2 (fun y => exp y - texp (S n) y)
                (fun y => exp y - texp n y) x 0 Hx) as (c & Hc & Hc1).
    { intros; apply derivable_exp_minus_texp. }
    rewrite texp_at_0, exp_0 in Hc.
    destruct (IH c) as [He Ho]; [lra|].
    rewrite Nat.even_succ, <- Nat.negb_even.
    destruct (Nat.even n); cbn [negb]; split; try discriminate; intros _.
    + specialize (He eq_refl). nra.
    + specialize (Ho eq_refl). nra.
Qed.

Lemma exp_neg_lower n a :
  0 <= a -> Nat.even n = false -> texp n (- a) <= exp (- a).
Proof. intros Ha Hn. apply texp_alternates; [lra | exact Hn]. Qed.

Lemma exp_neg_upper n a : 0 <= a -> 0 < texp n a -> exp (- a) <= / texp n a.
Proof.
  intros Ha Hp. rewrite exp_Ropp.
  apply Rinv_le_contravar; [exact Hp | now apply texp_le_exp].
Qed.

Lemma ln_upper n x a : 0 < x -> 0 <= a -> x < texp n a -> ln x < a.
Proof.
  intros Hx Ha H. apply exp_lt_inv. rewrite exp_ln by exact Hx.
  pose proof (texp_le_exp n Ha). lra.
Qed.

Lemma ln_lower n x a :
  0 < x -> 0 <= a -> Nat.even n = false -> / x < texp n (- a) -> a < ln x.
Proof.
  intros Hx Ha Hn H. apply exp_lt_inv. rewrite exp_ln by exact Hx.
  pose proof (exp_neg_lower n Ha Hn) as Hl.
  rewrite exp_Ropp in Hl.
  assert (He : 0 < exp a) by apply exp_pos.
  assert (Hi : / x < / exp a) by lra.
  assert (Hx1 : x * / x = 1) by (field; lra).
  assert (He1 : exp a * / exp a = 1) by (field; lra).
  assert (0 < / x) by (apply Rinv_0_lt_compat; lra).
  nra.
Qed.

(** Evaluates a partial sum at a rational constant. *)
Ltac eval_texp :=
  cbv [texp tmon zfact pow Z.of_nat Pos.of_succ_nat Pos.succ Z.mul Pos.mul
       Pos.add Nat.even];
  lra.

Lemma ln_6_upper : ln 6 < 1791762 / 1000000.
Proof. apply (@ln_upper 14); [lra | lra | eval_texp]. Qed.

Lemma ln_6_lower : 17917 / 10000 < ln 6.
Proof. apply (@ln_lower 13); [lra | lra | reflexivity | eval_texp]. Qed.

Lemma ln_10_lower : 23025825 / 10000000 < ln 10.
Proof. apply (@ln_lower 19); [lra | lra | reflexivity | eval_texp]. Qed.

Lemma ln_10_upper : ln 10 < 23026 / 10000.
Proof. apply (@ln_upper 14); [lra | lra | eval_texp]. Qed.

Lemma ln_100_eq : ln 100 = ln 10 + ln 10.
Proof. rewrite <- ln_mult by lra. f_equal; lra. Qed.

Lemma exp_m06_upper : exp (- (6 / 10)) < 548813 / 1000000.
Proof.
  assert (Hp : 1000000 / 548813 < texp 10 (6 / 10)) by eval_texp.
  assert (H := @exp_neg_upper 10 (6 / 10)).
  assert (Hi : / texp 10 (6 / 10) < / (1000000 / 548813)).
  { apply Rinv_lt_contravar; [|exact Hp].
    apply Rmult_lt_0_compat; lra. }
  replace (/ (1000000 / 548813)) with (548813 / 1000000) in Hi by field.
  specialize (H ltac:(lra) ltac:(lra)). lra.
Qed.

Lemma exp_m06_lower : 5488 / 10000 < exp (- (6 / 10)).
Proof.
  assert (H := @exp_neg_lower 9 (6 / 10) ltac:(lra) eq_refl).
  assert (5488 / 10000 < texp 9 (- (6 / 10))) by eval_texp.
  lra.
Qed.

End TaylorFacts.

(* ================================================================== *)
(** * Rounding                                                         *)
(* ================================================================== *)

Module RoundFacts.
Local Open Scope R_scope.

(** Within half a unit of an integer, rounding gives that integer. *)
Lemma round_half_even_near (z : Z) (x : R) :
  IZR z - 1 / 2 < x < IZR z + 1 / 2 -> Py.round_half_even x = z.
Proof.
  intros [Hl Hu]. unfold Py.round_half_even.
  pose proof (Zfloor_bound x) as [Hf1 Hf2].
  assert (Hz : (Zfloor x = z - 1 \/ Zfloor x = z)%Z).
  { assert (z - 1 <= Zfloor x)%Z.
    { apply Zfloor_lub. rewrite minus_IZR. lra. }
    assert (Zfloor x < z + 1)%Z.
    { apply lt_IZR. rewrite plus_IZR. lra. }
    lia. }
  destruct Hz as [Hz | Hz]; rewrite Hz in *; clear Hz.
  - rewrite minus_IZR in *.
    destruct (Rlt_dec _ _) as [H|H]; [lra|].
    destruct (Rlt_dec _ _) as [H'|H']; [lia|lra].
  - destruct (Rlt_dec _ _) as [H|H]; [reflexivity|lra].
Qed.

Lemma round_half_even_IZR (z : Z) : Py.round_half_even (IZR z) = z.
Proof. apply round_half_even_near; lra. Qed.

(** The result is the floor or the floor plus one. *)
Lemma round_half_even_floor (x : R) :
  (Zfloor x <= Py.round_half_even x <= Zfloor x + 1)%Z.
Proof.
  unfold Py.round_half_even.
  repeat destruct (Rlt_dec _ _); try destruct (Z.even _); lia.
Qed.

Lemma round_half_even_mono (x y : R) :
  x <= y -> (Py.round_half_even x <= Py.round_half_even y)%Z.
Proof.
  intros Hxy.
  pose proof (Zfloor_le _ _ Hxy) as Hf.
  pose proof (round_half_even_floor x) as Hx.
  pose proof (round_half_even_floor y) as Hy.
  destruct (Z.eq_dec (Zfloor x) (Zfloor y)) as [E|NE]; [|lia].
  clear Hx Hy Hf. unfold Py.round_half_even. rewrite E.
  destruct (Rlt_dec (x - IZR (Zfloor y)) (1 / 2)) as [Hx|Hx].
  - repeat destruct (Rlt_dec _ _); try destruct (Z.even _); lia.
  - destruct (Rlt_dec (y - IZR (Zfloor y)) (1 / 2)) as [Hy|Hy]; [lra|].
    destruct (Rlt_dec (1 / 2) (x - IZR (Zfloor y))) as [Hx'|Hx'].
    + destruct (Rlt_dec (1 / 2) (y - IZR (Zfloor y))); [lia|lra].
    + destruct (Rlt_dec (1 / 2) (y - IZR (Zfloor y)));
        destruct (Z.even _); lia.
Qed.

Lemma pow10_pos (n : nat) : 0 < 10 ^ n.
Proof. apply pow_lt; lra. Qed.

Lemma round_mono (n : nat) (x y : R) : x <= y -> Py.round x n <= Py.round y n.
Proof.
  intros Hxy. unfold Py.round.
  pose proof (pow10_pos n) as Hp.
  apply Rmult_le_compat_r; [left; now apply Rinv_0_lt_compat|].
  apply IZR_le, round_half_even_mono.
  apply Rmult_le_compat_r; lra.
Qed.

(** Rounding to three places keeps a value between the integers
    [a / 1000] and [b / 1000] there. *)
Lemma round3_between (a b : Z) (x : R) :
  IZR a / 1000 <= x <= IZR b / 1000 ->
  IZR a / 1000 <= Py.round x 3 <= IZR b / 1000.
Proof.
  intros [Ha Hb]. unfold Py.round.
  replace (10 ^ 3) with 1000 by (simpl; lra).
  assert (Hl : (a <= Py.round_half_even (x * 1000))%Z).
  { pose proof (@round_half_even_mono (IZR a) (x * 1000) ltac:(lra)) as H.
    now rewrite round_half_even_IZR in H. }
  assert (Hu : (Py.round_half_even (x * 1000) <= b)%Z).
  { pose proof (@round_half_even_mono (x * 1000) (IZR b) ltac:(lra)) as H.
    now rewrite round_half_even_IZR in H. }
  apply IZR_le in Hl, Hu. lra.
Qed.

Lemma round3_near (z : Z) (x : R) :
  (IZR z - 1 / 2) / 1000 < x < (IZR z + 1 / 2) / 1000 ->
  Py.round x 3 = IZR z / 1000.
Proof.
  intros H. unfold Py.round.
  replace (10 ^ 3) with 1000 by (simpl; lra).
  rewrite (@round_half_even_near z); [reflexivity | lra].
Qed.

End RoundFacts.

(* ================================================================== *)
(** * The confidence formula                                           *)
(* ================================================================== *)

Module ConfidenceFacts.
Import ConfidenceCalculator.
Local Open Scope R_scope.

Lemma ln_100_pos : 0 < ln 100.
Proof. rewrite <- ln_1. apply ln_increasing; lra. Qed.

Lemma ln_count_nonneg (n : Z) : (0 <= n)%Z -> 0 <= ln (1 + IZR n).
Proof.
  intros Hn. apply IZR_le in Hn.
  destruct (Req_dec (IZR n) 0) as [E|NE].
  - rewrite E, Rplus_0_r, ln_1. lra.
  - rewrite <- ln_1. left. apply ln_increasing; lra.
Qed.

Lemma ln_count_mono (n1 n2 : Z) :
  (0 <= n1 <= n2)%Z -> ln (1 + IZR n1) <= ln (1 + IZR n2).
Proof.
  intros [H0 H12]. apply IZR_le in H0, H12.
  destruct (Req_dec (IZR n1) (IZR n2)) as [E|NE].
  - rewrite E. lra.
  - left. apply ln_increasing; lra.
Qed.

Lemma similarity_score_bounds (n : Z) :
  (0 <= n)%Z -> 0 <= similarity_score n <= 1.
Proof.
  intros Hn. unfold similarity_score.
  pose proof ln_100_pos. pose proof (ln_count_nonneg Hn).
  split; [|apply Rmin_r].
  apply Rmin_glb; [|lra].
  apply Rmult_le_pos; [lra|]. left. now apply Rinv_0_lt_compat.
Qed.

Lemma similarity_score_zero : similarity_score 0 = 0.
Proof.
  unfold similarity_score. rewrite Rplus_0_r, ln_1.
  unfold Rdiv. rewrite Rmult_0_l. apply Rmin_left. lra.
Qed.

Lemma similarity_score_mono (n1 n2 : Z) :
  (0 <= n1 <= n2)%Z -> similarity_score n1 <= similarity_score n2.
Proof.
  intros H. unfold similarity_score.
  apply Rle_min_compat_r.
  apply Rmult_le_compat_r; [|now apply ln_count_mono].
  left. apply Rinv_0_lt_compat, ln_100_pos.
Qed.

Lemma variance_score_bounds (v p : R) : 0 < variance_score v p <= 1.
Proof.
  unfold variance_score.
  destruct (Rlt_dec 0 p) as [Hp|Hp]; [|lra].
  destruct (Rge_dec v 0) as [Hv|Hv]; [|lra].
  assert (Hq : 0 <= v / p).
  { apply Rmult_le_pos; [lra|]. left. now apply Rinv_0_lt_compat. }
  split.
  - apply Rdiv_lt_0_compat; lra.
  - apply Rmult_le_reg_r with (1 + v / p); [lra|].
    unfold Rdiv at 1. rewrite Rmult_assoc, Rinv_l by lra. lra.
Qed.

Lemma quality_score_bounds (q : R) : 0 <= quality_score q <= 1.
Proof.
  unfold quality_score. split; [apply Rmax_l|].
  apply Rmax_lub; [lra | apply Rmin_l].
Qed.

Lemma quality_score_mono (q1 q2 : R) :
  q1 <= q2 -> quality_score q1 <= quality_score q2.
Proof.
  intros H. unfold quality_score.
  apply Rle_max_compat_l, Rle_min_compat_l, H.
Qed.

Lemma temporal_score_bounds (m : R) : 0 <= m -> 0 < temporal_score m <= 1.
Proof.
  intros Hm. unfold temporal_score. split; [apply exp_pos|].
  rewrite <- exp_0.
  destruct (Req_dec m 0) as [->|NE].
  - right. f_equal. lra.
  - left. apply exp_increasing. lra.
Qed.

(** With a non-negative count and a non-negative age the rounded score
    lies in the unit interval. *)
Lemma calculate_confidence_unit_interval (n : Z) (v p q m : R) :
  (0 <= n)%Z -> 0 <= m -> 0 <= calculate_confidence n v p q m <= 1.
Proof.
  intros Hn Hm. unfold calculate_confidence.
  pose proof (similarity_score_bounds Hn).
  pose proof (variance_score_bounds v p).
  pose proof (quality_score_bounds q).
  pose proof (temporal_score_bounds Hm).
  pose proof (@RoundFacts.round3_between 0 1000
                (weighted_sum n v p q m)) as Hr.
  unfold weighted_sum in *. lra.
Qed.

(** The temporal component alone is not bounded: a negative age makes
    it exceed any given value. *)
Lemma temporal_score_unbounded (B : R) : exists m, B < temporal_score m.
Proof.
  exists (- 10 * B). unfold temporal_score.
  pose proof (exp_ineq1_le (- 0.1 * (- 10 * B))). lra.
Qed.

(** ** The scenario of the specification *)

Lemma scenario_similarity :
  17917 / 46052 < similarity_score 5 < 1791762 / 4605165.
Proof.
  unfold similarity_score.
  replace (1 + 5) with 6 by lra.
  pose proof TaylorFacts.ln_6_upper. pose proof TaylorFacts.ln_6_lower.
  pose proof TaylorFacts.ln_10_upper. pose proof TaylorFacts.ln_10_lower.
  pose proof TaylorFacts.ln_100_eq as E.
  assert (Hlo : 17917 / 46052 < ln 6 / ln 100).
  { apply Rmult_lt_reg_r with (ln 100); [lra|].
    unfold Rdiv at 2. rewrite Rmult_assoc, Rinv_l by lra. lra. }
  assert (Hhi : ln 6 / ln 100 < 1791762 / 4605165).
  { apply Rmult_lt_reg_r with (ln 100); [lra|].
    unfold Rdiv at 1. rewrite Rmult_assoc, Rinv_l by lra. lra. }
  rewrite Rmin_left by lra. lra.
Qed.

Lemma scenario_variance : variance_score 5000 15000 = 3 / 4.
Proof.
  unfold variance_score.
  destruct (Rlt_dec 0 15000); [|lra].
  destruct (Rge_dec 5000 0); [|lra].
  field.
Qed.

Lemma scenario_quality : quality_score 0.8 = 0.8.
Proof.
  unfold quality_score.
  rewrite Rmin_right by lra. apply Rmax_right. lra.
Qed.

Lemma scenario_temporal :
  5488 / 10000 < temporal_score 6 < 548813 / 1000000.
Proof.
  unfold temporal_score.
  replace (- 0.1 * 6) with (- (6 / 10)) by lra.
  split; [apply TaylorFacts.exp_m06_lower | apply TaylorFacts.exp_m06_upper].
Qed.

Lemma scenario_weighted_sum :
  0.6025 < weighted_sum 5 5000 15000 0.8 6 < 0.6035.
Proof.
  unfold weighted_sum.
  rewrite scenario_variance, scenario_quality.
  pose proof scenario_similarity. pose proof scenario_temporal.
  lra.
Qed.

Lemma scenario_value : calculate_confidence 5 5000 15000 0.8 6 = 0.603.
Proof.
  unfold calculate_confidence.
  rewrite (@RoundFacts.round3_near 603); [lra|].
  pose proof scenario_weighted_sum. lra.
Qed.

(** C1 (as amended): for the inputs 5, 5000, 15000, 0.8 and 6 the
    weighted sum lies strictly between 0.6025 and 0.6035, so
    [calculate_confidence] returns 0.603, and [classify_confidence_level]
    maps that value to the tier 'Hoch' (High) through its [>= 0.6]
    branch. *)
Theorem C1_scenario_value_and_tier :
  calculate_confidence 5 5000 15000 0.8 6 = 0.603 /\
  classify_confidence_level (calculate_confidence 5 5000 15000 0.8 6)
  = tier_hoch /\
  level tier_hoch = "Hoch".
Proof.
  rewrite scenario_value. split; [reflexivity|]. split; [|reflexivity].
  unfold classify_confidence_level.
  destruct (Rge_dec 0.603 0.8); [lra|].
  destruct (Rge_dec 0.603 0.6); [reflexivity|lra].
Qed.

(** C1 (as stated) fails: the value returned for the scenario is not
    0.638. *)
Lemma C1_scenario_is_not_0638 :
  calculate_confidence 5 5000 15000 0.8 6 <> 0.638.
Proof. rewrite scenario_value. lra. Qed.

(** C7 (evaluation at the failing input): with a count of 0, no variance
    signal, quality 0 and an average age of -100 months the returned
    score is above 1, outside the documented range 0.0-1.0. *)
Theorem C7_negative_age_exceeds_one :
  1 < calculate_confidence 0 0 0 0 (- 100).
Proof.
  unfold calculate_confidence.
  assert (H : 1.8 <= weighted_sum 0 0 0 0 (- 100)).
  { unfold weighted_sum.
    rewrite similarity_score_zero.
    pose proof (quality_score_bounds 0).
    unfold variance_score.
    destruct (Rlt_dec 0 0); [lra|].
    unfold temporal_score.
    pose proof (exp_ineq1_le (- 0.1 * - 100)). lra. }
  pose proof (@RoundFacts.round_mono 3 _ _ H) as Hr.
  rewrite (@RoundFacts.round3_near 1800 1.8) in Hr by lra.
  lra.
Qed.

(** C8: for counts [0 <= n1 <= n2] the score does not decrease when the
    count grows from [n1] to [n2], and for [q1 <= q2] it does not
    decrease when the data quality grows from [q1] to [q2], the other
    four inputs being the same. *)
Theorem C8_confidence_monotone (n1 n2 : Z) (v p q1 q2 m : R) :
  (0 <= n1 <= n2)%Z -> q1 <= q2 ->
  calculate_confidence n1 v p q1 m <= calculate_confidence n2 v p q1 m /\
  calculate_confidence n1 v p q1 m <= calculate_confidence n1 v p q2 m.
Proof.
  intros Hn Hq. unfold calculate_confidence.
  pose proof (similarity_score_mono Hn).
  pose proof (quality_score_mono Hq).
  split; apply RoundFacts.round_mono; unfold weighted_sum; lra.
Qed.

Lemma C8_confidence_monotone_witness :
  calculate_confidence 0 5000 15000 0.5 6
  <= calculate_confidence 5 5000 15000 0.5 6 /\
  calculate_confidence 0 5000 15000 0.5 6
  <= calculate_confidence 0 5000 15000 0.8 6.
Proof.
  apply (@C8_confidence_monotone 0 5 5000 15000 0.5 0.8 6); [lia | lra].
Defined.

(** C10: [classify_confidence_level] is total on the reals and returns
    one of the five tier records, the first whose inclusive lower bound
    the input reaches: every input [>= 0.8] (also above 1) gives
    'Sehr hoch', every input [< 0.2] (also negative) gives
    'Sehr niedrig'. *)
Theorem C10_classify_total (c : R) :
  In (classify_confidence_level c)
     [tier_sehr_hoch; tier_hoch; tier_mittel; tier_niedrig;
      tier_sehr_niedrig] /\
  (0.8 <= c -> classify_confidence_level c = tier_sehr_hoch) /\
  (0.6 <= c < 0.8 -> classify_confidence_level c = tier_hoch) /\
  (0.4 <= c < 0.6 -> classify_confidence_level c = tier_mittel) /\
  (0.2 <= c < 0.4 -> classify_confidence_level c = tier_niedrig) /\
  (c < 0.2 -> classify_confidence_level c = tier_sehr_niedrig).
Proof.
  unfold classify_confidence_level.
  destruct (Rge_dec c 0.8); [|destruct (Rge_dec c 0.6);
    [|destruct (Rge_dec c 0.4); [|destruct (Rge_dec c 0.2)]]];
    (split; [simpl; tauto|]);
    repeat split; intros; try reflexivity; lra.
Qed.

Lemma C10_classify_total_witness :
  classify_confidence_level 1.5 = tier_sehr_hoch /\
  classify_confidence_level (- 3) = tier_sehr_niedrig /\
  level tier_sehr_hoch = "Sehr hoch" /\
  level tier_sehr_niedrig = "Sehr niedrig".
Proof.
  split; [|split; [|split; reflexivity]].
  - apply (C10_classify_total 1.5). lra.
  - apply (C10_classify_total (- 3)). lra.
Defined.

End ConfidenceFacts.

(* ================================================================== *)
(** * The stable sort                                                  *)
(* ================================================================== *)

Module SortFacts.

Section Generic.
Context {A : Type} (before : A -> A -> bool).

Let ord (x y : A) : Prop := before x y = true.

Hypothesis before_total : forall x y, before x y = false -> before y x = true.
Hypothesis before_trans :
  forall x y z, before x y = true -> before y z = true -> before x z = true.

Lemma insert_In (x z : A) (l : list A) :
  In z (Py.insert before x l) <-> z = x \/ In z l.
Proof.
  induction l as [|y l IH]; simpl.
  - intuition congruence.
  - destruct (before x y); simpl; rewrite ?IH; intuition congruence.
Qed.

Lemma stable_sort_In (z : A) (l : list A) :
  In z (Py.stable_sort before l) <-> In z l.
Proof.
  induction l as [|x l IH]; simpl; [tauto|].
  rewrite insert_In, IH. intuition congruence.
Qed.

Lemma insert_sorted (x : A) (l : list A) :
  StronglySorted ord l -> StronglySorted ord (Py.insert before x l).
Proof.
  induction 1 as [|y l Hs IH Hy]; simpl.
  - repeat constructor.
  - destruct (before x y) eqn:E.
    + constructor; [now constructor|].
      constructor; [exact E|].
      rewrite Forall_forall in *. intros z Hz.
      apply before_trans with y; [exact E | now apply Hy].
    + constructor; [exact IH|].
      rewrite Forall_forall in *. intros z Hz.
      apply insert_In in Hz. destruct Hz as [->|Hz].
      * now apply before_total.
      * now apply Hy.
Qed.

Lemma stable_sort_sorted (l : list A) :
  StronglySorted ord (Py.stable_sort before l).
Proof.
  induction l; simpl; [constructor | now apply insert_sorted].
Qed.

(** Stability: a selection of elements that all may stand in front of
    one another (elements with one and the same key) comes out of the
    sort in the order it went in. *)
Lemma insert_filter (P : A -> bool) (x : A) (l : list A) :
  (forall a b, P a = true -> P b = true -> before a b = true) ->
  filter P (Py.insert before x l) = filter P (x :: l).
Proof.
  intros HP. induction l as [|y l IH]; [reflexivity|].
  cbn [Py.insert]. destruct (before x y) eqn:E; [reflexivity|].
  cbn [filter] in *. rewrite IH.
  destruct (P x) eqn:Ex, (P y) eqn:Ey; try reflexivity.
  rewrite (HP x y Ex Ey) in E. discriminate.
Qed.

Lemma stable_sort_filter (P : A -> bool) (l : list A) :
  (forall a b, P a = true -> P b = true -> before a b = true) ->
  filter P (Py.stable_sort before l) = filter P l.
Proof.
  intros HP. induction l as [|x l IH]; [reflexivity|].
  cbn [Py.stable_sort]. rewrite insert_filter by exact HP.
  cbn [filter]. now rewrite IH.
Qed.

End Generic.

(** ** Facts on [precedes] *)

Section Precedes.
Context {A : Type}.

Lemma precedes_In (x y : A) (l : list A) :
  Py.precedes x y l -> In x l /\ In y l.
Proof.
  induction 1 as [l Hy | a l _ [IHx IHy]]; simpl; tauto.
Qed.

Lemma precedes_filter (P : A -> bool) (x y : A) (l : list A) :
  P x = true -> P y = true ->
  Py.precedes x y l -> Py.precedes x y (filter P l).
Proof.
  intros Hx Hy. induction 1 as [l Hin | a l _ IH]; cbn [filter].
  - rewrite Hx. constructor. apply filter_In. now split.
  - destruct (P a); [now constructor | exact IH].
Qed.

Lemma precedes_of_filter (P : A -> bool) (x y : A) (l : list A) :
  Py.precedes x y (filter P l) -> Py.precedes x y l.
Proof.
  induction l as [|a l IH]; cbn [filter]; [inversion 1|].
  destruct (P a) eqn:E.
  - inversion 1; subst.
    + constructor. match goal with H : In _ (filter _ _) |- _ =>
        apply filter_In in H; tauto end.
    + apply Py.precedes_later. now apply IH.
  - intros H. apply Py.precedes_later. now apply IH.
Qed.

Lemma In_firstn (n : nat) (y : A) (l : list A) : In y (firstn n l) -> In y l.
Proof.
  revert n. induction l as [|a l IH]; intros [|n]; simpl; try tauto.
  intros [->|H]; [now left | right; now apply (IH n)].
Qed.

Lemma precedes_of_firstn (n : nat) (x y : A) (l : list A) :
  Py.precedes x y (firstn n l) -> Py.precedes x y l.
Proof.
  revert n. induction l as [|a l IH]; intros [|n]; simpl;
    try solve [inversion 1].
  inversion 1; subst.
  - constructor. eapply In_firstn; eassumption.
  - apply Py.precedes_later. now apply (IH n).
Qed.

Lemma precedes_of_slice (k : Z) (x y : A) (l : list A) :
  Py.precedes x y (Py.slice_to k l) -> Py.precedes x y l.
Proof. unfold Py.slice_to. destruct (0 <=? k)%Z; apply precedes_of_firstn. Qed.

Lemma In_slice (k : Z) (y : A) (l : list A) : In y (Py.slice_to k l) -> In y l.
Proof. unfold Py.slice_to. destruct (0 <=? k)%Z; apply In_firstn. Qed.

Lemma precedes_map {B : Type} (f : A -> B) (x y : A) (l : list A) :
  Py.precedes x y l -> Py.precedes (f x) (f y) (map f l).
Proof.
  induction 1 as [l Hin | a l _ IH]; cbn [map].
  - constructor. now apply in_map.
  - now constructor.
Qed.

Lemma sorted_precedes (ord : A -> A -> Prop) (x y : A) (l : list A) :
  StronglySorted ord l -> Py.precedes x y l -> ord x y.
Proof.
  intros Hs. induction 1 as [l Hin | a l _ IH].
  - apply StronglySorted_inv in Hs. destruct Hs as [_ Hf].
    rewrite Forall_forall in Hf. now apply Hf.
  - apply StronglySorted_inv in Hs. now apply IH.
Qed.

Lemma sorted_firstn (ord : A -> A -> Prop) (n : nat) (l : list A) :
  StronglySorted ord l -> StronglySorted ord (firstn n l).
Proof.
  intros Hs. revert n. induction Hs as [|a l Hs IH Ha]; intros [|n]; simpl;
    try constructor.
  - apply IH.
  - rewrite Forall_forall in *. intros z Hz. apply Ha.
    eapply In_firstn; eassumption.
Qed.

Lemma sorted_weaken (ord1 ord2 : A -> A -> Prop) (l : list A) :
  (forall x y, ord1 x y -> ord2 x y) ->
  StronglySorted ord1 l -> StronglySorted ord2 l.
Proof.
  intros Hw. induction 1 as [|a l Hs IH Ha]; constructor; [exact IH|].
  rewrite Forall_forall in *. auto.
Qed.

Lemma sorted_slice (ord : A -> A -> Prop) (k : Z) (l : list A) :
  StronglySorted ord l -> StronglySorted ord (Py.slice_to k l).
Proof. unfold Py.slice_to. destruct (0 <=? k)%Z; apply sorted_firstn. Qed.

End Precedes.

(** ** The two instances *)

Local Open Scope R_scope.

Lemma Rleb_true (a b : R) : Py.Rleb a b = true <-> a <= b.
Proof. unfold Py.Rleb. destruct (Rle_dec a b); intuition discriminate. Qed.

Lemma Rleb_false (a b : R) : Py.Rleb a b = false <-> b < a.
Proof.
  unfold Py.Rleb.
  destruct (Rle_dec a b); split; intros; try lra; try discriminate; reflexivity.
Qed.

Lemma sort_desc_descending {A : Type} (key : A -> R) (l : list A) :
  Py.descending key (Py.sort_desc key l).
Proof.
  unfold Py.descending, Py.sort_desc.
  apply sorted_weaken
    with (ord1 := fun x y => Py.Rleb (key y) (key x) = true);
    [intros x y H; now apply Rleb_true|].
  apply stable_sort_sorted.
  - intros x y H. apply Rleb_false in H. apply Rleb_true. lra.
  - intros x y z H1 H2. apply Rleb_true in H1, H2. apply Rleb_true. lra.
Qed.

Lemma sort_desc_In {A : Type} (key : A -> R) (z : A) (l : list A) :
  In z (Py.sort_desc key l) <-> In z l.
Proof. apply stable_sort_In. Qed.

(** Entries with one and the same score keep their order. *)
Lemma sort_desc_stable {A : Type} (key : A -> R) (x y : A) (l : list A) :
  key x = key y ->
  Py.precedes x y (Py.sort_desc key l) -> Py.precedes x y l.
Proof.
  intros E H.
  set (P := fun e : A => if Req_dec_T (key e) (key x) then true else false).
  assert (Px : P x = true) by (unfold P; destruct (Req_dec_T _ _); congruence).
  assert (Py' : P y = true) by (unfold P; destruct (Req_dec_T _ _); congruence).
  apply (precedes_of_filter P).
  unfold Py.sort_desc in H.
  rewrite <- (@stable_sort_filter A (fun a b => Py.Rleb (key b) (key a)) P).
  - now apply precedes_filter.
  - intros a b Ha Hb. unfold P in Ha, Hb.
    destruct (Req_dec_T (key a) _), (Req_dec_T (key b) _); try discriminate.
    apply Rleb_true. lra.
Qed.

Lemma sort_descZ_descending {A : Type} (key : A -> Z) (l : list A) :
  StronglySorted (fun x y => (key y <= key x)%Z) (Py.sort_descZ key l).
Proof.
  unfold Py.sort_descZ.
  apply sorted_weaken
    with (ord1 := fun x y => (key y <=? key x)%Z = true);
    [intros x y H; now apply Z.leb_le|].
  apply stable_sort_sorted.
  - intros x y H. apply Z.leb_gt in H. apply Z.leb_le. lia.
  - intros x y z H1 H2. apply Z.leb_le in H1, H2. apply Z.leb_le. lia.
Qed.

End SortFacts.

(* ================================================================== *)
(** * Similarity search                                                *)
(* ================================================================== *)

Module SearchFacts.
Import EmbeddingGenerator.
Local Open Scope R_scope.

Module CC := ConfidenceCalculator.

(** ** The loop of [EmbeddingGenerator.find_similar_projects] *)

Lemma results_hit (q emb : Embedding) (p : Models.Project)
    (rest : list Models.Project) (s : R) :
  Models.description_embedding p = Some emb -> emb <> [] ->
  cosine_similarity q emb = Ok s -> 0.3 < s ->
  results q (p :: rest) = result_of p s :: results q rest.
Proof.
  intros He Hn Hc Hs. cbn [results]. rewrite He.
  destruct emb as [|x emb]; [congruence|].
  rewrite Hc. destruct (Rgt_dec s 0.3) as [_|H]; [reflexivity|].
  exfalso. apply H. exact Hs.
Qed.

Lemma results_at_threshold (q emb : Embedding) (p : Models.Project)
    (rest : list Models.Project) (s : R) :
  Models.description_embedding p = Some emb ->
  cosine_similarity q emb = Ok s -> s <= 0.3 ->
  results q (p :: rest) = results q rest.
Proof.
  intros He Hc Hs. cbn [results]. rewrite He.
  destruct emb as [|x emb]; [reflexivity|].
  rewrite Hc. destruct (Rgt_dec s 0.3) as [H|_]; [|reflexivity].
  unfold Rgt in H. lra.
Qed.

(** Every collected entry stems from a project of the corpus and has a
    score strictly above 0.3. *)
Lemma results_In (q : Embedding) (ps : list Models.Project) (e : Result) :
  In e (results q ps) ->
  0.3 < similarity e /\
  exists p, In p ps /\ e = result_of p (similarity e).
Proof.
  induction ps as [|p ps IH]; cbn [results]; [intros []|].
  assert (Hrest : In e (results q ps) ->
                  0.3 < similarity e /\
                  exists p0, In p0 (p :: ps) /\ e = result_of p0 (similarity e)).
  { intros H. destruct (IH H) as (Hs & p0 & Hp0 & E).
    split; [exact Hs|]. exists p0. split; [now right | exact E]. }
  destruct (Models.description_embedding p) as [[|x emb]|]; try exact Hrest.
  destruct (cosine_similarity q (x :: emb)) as [s|]; try exact Hrest.
  destruct (Rgt_dec s 0.3) as [Hs|_]; try exact Hrest.
  intros [<-|H]; [|now apply Hrest].
  cbn [similarity result_of]. split; [exact Hs|].
  exists p. split; [now left | reflexivity].
Qed.

(** The collected entries follow the order of the corpus. *)
Lemma results_precedes (q : Embedding) (ps : list Models.Project)
    (e1 e2 : Result) :
  Py.precedes e1 e2 (results q ps) ->
  exists p1 p2, Py.precedes p1 p2 ps /\
    e1 = result_of p1 (similarity e1) /\ e2 = result_of p2 (similarity e2).
Proof.
  induction ps as [|p ps IH]; cbn [results]; [inversion 1|].
  assert (Hrest : Py.precedes e1 e2 (results q ps) ->
    exists p1 p2, Py.precedes p1 p2 (p :: ps) /\
      e1 = result_of p1 (similarity e1) /\ e2 = result_of p2 (similarity e2)).
  { intros H. destruct (IH H) as (p1 & p2 & Hp & E1 & E2).
    exists p1, p2. split; [now apply Py.precedes_later | now split]. }
  destruct (Models.description_embedding p) as [[|x emb]|]; try exact Hrest.
  destruct (cosine_similarity q (x :: emb)) as [s|]; try exact Hrest.
  destruct (Rgt_dec s 0.3) as [Hs|_]; try exact Hrest.
  inversion 1; subst; [|now apply Hrest].
  match goal with H : In e2 _ |- _ =>
    destruct (results_In _ _ _ H) as (_ & p2 & Hp2 & E2) end.
  exists p, p2. split; [now constructor|]. split; [reflexivity | exact E2].
Qed.

(** ** The loop of [ConfidenceCalculator.find_similar_projects] *)

Lemma similarities_projects (q : Embedding) (ps : list Models.Project)
    (sims : list CC.Similarity) :
  CC.similarities q ps = Ok sims -> map CC.project sims = ps.
Proof.
  revert sims. induction ps as [|p ps IH]; intros sims; cbn [CC.similarities].
  - intros [= <-]. reflexivity.
  - destruct (CC.project_similarity q p) as [s|]; cbn [Py.bind]; [|discriminate].
    destruct (CC.similarities q ps) as [sims'|]; cbn [Py.bind]; [|discriminate].
    intros [= <-]. cbn [map CC.project]. now rewrite (IH sims').
Qed.

Lemma finalized_with_embedding_by_date (table : list Models.Project) :
  StronglySorted
    (fun x y => (Models.project_date y <= Models.project_date x)%Z)
    (CC.finalized_with_embedding table).
Proof. apply SortFacts.sort_descZ_descending. Qed.

(** ** Concrete similarities *)

Lemma cosine_unit : cosine_similarity [1] [1] = Ok 1.
Proof.
  unfold cosine_similarity. cbn [List.length Nat.eqb orb negb]. f_equal.
  unfold normalize, l2_norm, dot. cbn [combine map fold_right fst snd].
  replace (1 * 1 + 0) with 1 by lra. rewrite sqrt_1.
  destruct (Req_dec_T 1 0); [lra|].
  cbn [combine map fold_right fst snd]. lra.
Qed.

Lemma cosine_at_threshold :
  cosine_similarity Scenario.threshold_query [3; 9; 3; 1] = Ok 0.3.
Proof.
  unfold cosine_similarity, Scenario.threshold_query.
  cbn [List.length Nat.eqb orb negb]. f_equal.
  unfold normalize, l2_norm, dot. cbn [combine map fold_right fst snd].
  replace (1 * 1 + (0 * 0 + (0 * 0 + (0 * 0 + 0)))) with 1 by lra.
  replace (3 * 3 + (9 * 9 + (3 * 3 + (1 * 1 + 0)))) with (10 * 10) by lra.
  rewrite sqrt_1, sqrt_square by lra.
  destruct (Req_dec_T 1 0); [lra|]. destruct (Req_dec_T 10 0); [lra|].
  cbn [combine map fold_right fst snd]. lra.
Qed.

Lemma results_of_tied_projects :
  results [1] [Scenario.older_project; Scenario.newer_project]
  = [result_of Scenario.older_project 1; result_of Scenario.newer_project 1].
Proof.
  rewrite (@results_hit [1] [1] _ _ 1);
    [|reflexivity | discriminate | apply cosine_unit | lra].
  rewrite (@results_hit [1] [1] _ _ 1);
    [|reflexivity | discriminate | apply cosine_unit | lra].
  reflexivity.
Qed.

Lemma find_similar_tied_projects :
  find_similar_projects [1]
    [Scenario.older_project; Scenario.newer_project] 5
  = [result_of Scenario.older_project 1; result_of Scenario.newer_project 1].
Proof.
  unfold find_similar_projects. rewrite results_of_tied_projects.
  unfold Py.sort_desc. cbn [Py.stable_sort Py.insert result_of similarity].
  replace (Py.Rleb 1 1) with true
    by (symmetry; apply SortFacts.Rleb_true; lra).
  reflexivity.
Qed.

Lemma find_similar_at_threshold :
  find_similar_projects Scenario.threshold_query
    [Scenario.threshold_project] 5 = [].
Proof.
  unfold find_similar_projects.
  rewrite (@results_at_threshold _ [3; 9; 3; 1] _ _ 0.3);
    [reflexivity | reflexivity | apply cosine_at_threshold | lra].
Qed.

Lemma queryset_of_tied_projects :
  CC.finalized_with_embedding
    [Scenario.older_project; Scenario.newer_project]
  = [Scenario.newer_project; Scenario.older_project].
Proof. reflexivity. Qed.

Lemma project_similarity_unit (p : Models.Project) :
  Models.description_embedding p = Some [1] ->
  CC.project_similarity [1] p = Ok 1.
Proof.
  intros E. unfold CC.project_similarity. rewrite E. apply cosine_unit.
Qed.

Lemma calculator_search_tied_projects :
  CC.find_similar_projects Scenario.constant_encode
    [Scenario.older_project; Scenario.newer_project] "Treppe" 5
  = Ok [CC.mkSimilarity Scenario.newer_project 1;
        CC.mkSimilarity Scenario.older_project 1].
Proof.
  unfold CC.find_similar_projects, generate_embedding.
  replace (Py.is_blank "Treppe") with false by reflexivity.
  unfold Scenario.constant_encode.
  cbn [Py.bind]. rewrite queryset_of_tied_projects.
  cbn [CC.similarities].
  rewrite !project_similarity_unit by reflexivity.
  cbn [Py.bind].
  unfold Py.sort_desc. cbn [Py.stable_sort Py.insert CC.similarity].
  replace (Py.Rleb 1 1) with true
    by (symmetry; apply SortFacts.Rleb_true; lra).
  reflexivity.
Qed.

(** C2 (as amended): [EmbeddingGenerator.find_similar_projects] returns
    only entries whose score is strictly above the fixed threshold 0.3
    (an entry exactly at 0.3 is left out), in descending order of score;
    [ConfidenceCalculator.find_similar_projects] applies no threshold and
    returns its entries in descending order of score. *)
Theorem C2_above_threshold_and_descending
    (q : Embedding) (projects : list Models.Project) (top_k : Z)
    (encode : string -> res Embedding) (table : list Models.Project)
    (text : string) (sims : list CC.Similarity) :
  (forall e, In e (find_similar_projects q projects top_k) ->
             0.3 < similarity e) /\
  Py.descending similarity (find_similar_projects q projects top_k) /\
  (CC.find_similar_projects encode table text top_k = Ok sims ->
   Py.descending CC.similarity sims).
Proof.
  split; [|split].
  - intros e He. unfold find_similar_projects in He.
    apply SortFacts.In_slice, SortFacts.sort_desc_In in He.
    now apply results_In in He.
  - apply SortFacts.sorted_slice, SortFacts.sort_desc_descending.
  - unfold CC.find_similar_projects.
    destruct (generate_embedding encode text) as [e|]; cbn [Py.bind];
      [|discriminate].
    destruct (CC.similarities e _) as [l|]; cbn [Py.bind]; [|discriminate].
    intros [= <-].
    apply SortFacts.sorted_slice, SortFacts.sort_desc_descending.
Qed.

Lemma C2_above_threshold_and_descending_witness :
  0.3 < similarity (result_of Scenario.older_project 1) /\
  Py.descending similarity
    (find_similar_projects [1]
       [Scenario.older_project; Scenario.newer_project] 5) /\
  Py.descending CC.similarity
    [CC.mkSimilarity Scenario.newer_project 1;
     CC.mkSimilarity Scenario.older_project 1].
Proof.
  destruct (@C2_above_threshold_and_descending [1]
              [Scenario.older_project; Scenario.newer_project] 5
              Scenario.constant_encode
              [Scenario.older_project; Scenario.newer_project] "Treppe"
              [CC.mkSimilarity Scenario.newer_project 1;
               CC.mkSimilarity Scenario.older_project 1])
    as (Ha & Hd & Hc).
  split; [|split].
  - apply Ha. rewrite find_similar_tied_projects. left. reflexivity.
  - exact Hd.
  - apply Hc. apply calculator_search_tied_projects.
Defined.

(** C2 (as stated) fails: a project whose cosine similarity to the query
    is exactly the threshold 0.3 is not returned. *)
Lemma C2_entry_at_threshold_excluded :
  cosine_similarity Scenario.threshold_query [3; 9; 3; 1] = Ok 0.3 /\
  Models.description_embedding Scenario.threshold_project
  = Some [3; 9; 3; 1] /\
  find_similar_projects Scenario.threshold_query
    [Scenario.threshold_project] default_top_k = [].
Proof.
  split; [apply cosine_at_threshold|]. split; [reflexivity|].
  apply find_similar_at_threshold.
Qed.

(** C5 (as amended): entries with one and the same score keep the order
    in which the corpus was iterated.  For
    [EmbeddingGenerator.find_similar_projects] that is the order of the
    [projects] argument, whatever the dates;
    [ConfidenceCalculator.find_similar_projects] reads the corpus in the
    default ordering of the model (descending [project_date]), so of two
    tied entries the first is never the older project. *)
Theorem C5_ties_keep_corpus_order
    (q : Embedding) (projects : list Models.Project) (top_k : Z)
    (encode : string -> res Embedding) (table : list Models.Project)
    (text : string) (sims : list CC.Similarity) :
  (forall e1 e2,
     Py.precedes e1 e2 (find_similar_projects q projects top_k) ->
     similarity e1 = similarity e2 ->
     exists p1 p2, Py.precedes p1 p2 projects /\
       e1 = result_of p1 (similarity e1) /\
       e2 = result_of p2 (similarity e2)) /\
  (CC.find_similar_projects encode table text top_k = Ok sims ->
   forall s1 s2,
     Py.precedes s1 s2 sims -> CC.similarity s1 = CC.similarity s2 ->
     (Models.project_date (CC.project s2)
      <= Models.project_date (CC.project s1))%Z).
Proof.
  split.
  - intros e1 e2 Hp E. unfold find_similar_projects in Hp.
    apply SortFacts.precedes_of_slice in Hp.
    apply (SortFacts.sort_desc_stable _ _ E) in Hp.
    now apply results_precedes in Hp.
  - unfold CC.find_similar_projects.
    destruct (generate_embedding encode text) as [e|]; cbn [Py.bind];
      [|discriminate].
    destruct (CC.similarities e _) as [l|] eqn:El; cbn [Py.bind];
      [|discriminate].
    intros [= <-] s1 s2 Hp E.
    apply SortFacts.precedes_of_slice in Hp.
    apply (SortFacts.sort_desc_stable _ _ E) in Hp.
    apply (SortFacts.precedes_map CC.project) in Hp.
    rewrite (similarities_projects _ _ El) in Hp.
    exact (SortFacts.sorted_precedes
             (finalized_with_embedding_by_date table) Hp).
Qed.

Lemma C5_ties_keep_corpus_order_witness :
  (exists p1 p2,
     Py.precedes p1 p2 [Scenario.older_project; Scenario.newer_project] /\
     result_of Scenario.older_project 1 = result_of p1 1 /\
     result_of Scenario.newer_project 1 = result_of p2 1) /\
  (Models.project_date Scenario.older_project
   <= Models.project_date Scenario.newer_project)%Z.
Proof.
  destruct (@C5_ties_keep_corpus_order [1]
              [Scenario.older_project; Scenario.newer_project] 5
              Scenario.constant_encode
              [Scenario.older_project; Scenario.newer_project] "Treppe"
              [CC.mkSimilarity Scenario.newer_project 1;
               CC.mkSimilarity Scenario.older_project 1])
    as (Ha & Hc).
  split.
  - apply (Ha (result_of Scenario.older_project 1)
              (result_of Scenario.newer_project 1)); [|reflexivity].
    rewrite find_similar_tied_projects.
    constructor. left. reflexivity.
  - apply (Hc calculator_search_tied_projects
              (CC.mkSimilarity Scenario.newer_project 1)
              (CC.mkSimilarity Scenario.older_project 1)); [|reflexivity].
    constructor. left. reflexivity.
Defined.

(** C5 (as stated) fails: two projects with the same score are returned
    in the order of the list handed over, here the older one first. *)
Lemma C5_older_project_returned_first :
  find_similar_projects [1]
    [Scenario.older_project; Scenario.newer_project] default_top_k
  = [result_of Scenario.older_project 1;
     result_of Scenario.newer_project 1] /\
  (Models.project_date Scenario.older_project
   < Models.project_date Scenario.newer_project)%Z.
Proof. split; [apply find_similar_tied_projects | reflexivity]. Qed.

End SearchFacts.

(* ================================================================== *)
(** * Embedding of single texts and of batches                         *)
(* ================================================================== *)

Module EmbeddingFacts.
Import EmbeddingGenerator.
Local Open Scope R_scope.

Lemma generate_embedding_blank (encode : string -> res Embedding)
    (text : string) :
  Py.is_blank text = true -> generate_embedding encode text = Ok (zeros 384).
Proof. intros H. unfold generate_embedding. now rewrite H. Qed.

Lemma embed_text_blank (encode : string -> res Embedding) (text : string) :
  Py.is_blank text = true -> EmbeddingService.embed_text encode text = zeros 384.
Proof. intros H. unfold EmbeddingService.embed_text. now rewrite H. Qed.

Lemma one_is_not_zeros : [1] <> zeros 384.
Proof.
  intros H. apply (f_equal (@List.length R)) in H.
  unfold zeros in H. rewrite repeat_length in H. discriminate.
Qed.

(** C6 (evaluation at the failing input): the single-text operations
    map the empty and the whitespace-only text to the zero vector of
    dimension 384 without asking the model, while the batch operations
    hand every element to the model; when the model's vector [v] for the
    empty text is not the zero vector, the batch result for [[""]] is
    not the list of the single-text results. *)
Theorem C6_batch_hands_blank_text_to_model
    (encode : string -> res Embedding)
    (encode_batch : list string -> res (list Embedding)) (v : Embedding) :
  encode_batch [""] = Ok [v] -> v <> zeros 384 ->
  generate_embedding encode "" = Ok (zeros 384) /\
  generate_embedding encode "   " = Ok (zeros 384) /\
  generate_embeddings_batch encode_batch [""] = Ok [v] /\
  generate_embeddings_batch encode_batch [""] <> Ok [zeros 384] /\
  EmbeddingService.embed_text encode "" = zeros 384 /\
  EmbeddingService.embed_texts_batch encode_batch [""] = [v] /\
  EmbeddingService.embed_texts_batch encode_batch [""]
  <> [EmbeddingService.embed_text encode ""].
Proof.
  intros Hb Hv.
  assert (Hs : EmbeddingService.embed_texts_batch encode_batch [""] = [v])
    by (unfold EmbeddingService.embed_texts_batch; now rewrite Hb).
  repeat split.
  - exact Hb.
  - unfold generate_embeddings_batch. rewrite Hb. congruence.
  - exact Hs.
  - rewrite Hs, embed_text_blank by reflexivity. congruence.
Qed.

Lemma C6_batch_hands_blank_text_to_model_witness :
  generate_embeddings_batch Scenario.constant_encode_batch [""] = Ok [[1]] /\
  generate_embedding Scenario.constant_encode "" = Ok (zeros 384) /\
  EmbeddingService.embed_texts_batch Scenario.constant_encode_batch [""]
  <> [EmbeddingService.embed_text Scenario.constant_encode ""].
Proof.
  destruct (@C6_batch_hands_blank_text_to_model Scenario.constant_encode
              Scenario.constant_encode_batch [1] eq_refl one_is_not_zeros)
    as (H1 & _ & H3 & _ & _ & _ & H7).
  split; [exact H3|]. split; [exact H1 | exact H7].
Defined.

End EmbeddingFacts.

(* ================================================================== *)
(** * Feature extraction                                               *)
(* ================================================================== *)

Module FeatureFacts.
Import FeatureEngineer.

(** The clock enters [extract_features] through [days_old] only. *)
Lemma extract_features_days (now1 now2 t : Z) (d : ProjectDict) :
  project_date d = Some (Parsed t) ->
  days_old now1 t = days_old now2 t ->
  extract_features now1 d = extract_features now2 d.
Proof.
  intros Hd Hdays. unfold extract_features. rewrite Hd, Hdays. reflexivity.
Qed.

(** C9 (as amended): [extract_features] is a function of the project
    dict and of the current time.  Two calls with the same dict return
    the same features when the dict has no [project_date], when its
    [project_date] cannot be parsed, or when the same number of whole
    days has passed since [project_date] at both calls. *)
Theorem C9_features_depend_on_clock_through_days
    (now1 now2 : Z) (d : ProjectDict) :
  (project_date d = None \/
   project_date d = Some Unparseable \/
   exists t, project_date d = Some (Parsed t) /\
             days_old now1 t = days_old now2 t) ->
  extract_features now1 d = extract_features now2 d.
Proof.
  intros [H | [H | (t & H & Hdays)]].
  - unfold extract_features. now rewrite H.
  - unfold extract_features. now rewrite H.
  - now apply extract_features_days with t.
Qed.

Lemma C9_features_depend_on_clock_through_days_witness :
  extract_features 0 Scenario.undated_project
  = extract_features 17280000 Scenario.undated_project.
Proof.
  apply (@C9_features_depend_on_clock_through_days 0 17280000
           Scenario.undated_project).
  left. reflexivity.
Defined.

(** C9 (as stated) fails: the same dict, with a [project_date], gives
    different features at two different times: on the day of the
    project [is_recent] is 1, two hundred days later it is 0. *)
Lemma C9_same_dict_different_features :
  is_recent (extract_features 0 Scenario.dated_project) = 1%Z /\
  is_recent (extract_features 17280000 Scenario.dated_project) = 0%Z /\
  extract_features 0 Scenario.dated_project
  <> extract_features 17280000 Scenario.dated_project.
Proof.
  split; [reflexivity|]. split; [reflexivity|].
  intros H. apply (f_equal is_recent) in H. discriminate H.
Qed.

End FeatureFacts.

(* ================================================================== *)
(** * The price predictor                                              *)
(* ================================================================== *)

Module PredictorFacts.
Import PricePredictor.

Section Regressor.
Variable regressor : Type.
Variable xgb_predict : regressor -> Features -> res (list Q).

Lemma nrows_frame_of_values (rows : list ProjectValues) :
  nrows (frame_of_values rows) = List.length rows.
Proof. destruct rows; reflexivity. Qed.

(** With a fitted encoder in place the loop body only transforms. *)
Lemma encode_column_fitted (col : string) (classes values : list string)
    (st : t regressor) :
  fitted_with col classes st ->
  encode_column col (Some values) st
  = (LabelEncoder.transform_values classes values, st).
Proof.
  unfold fitted_with. intros H.
  unfold encode_column, bindM, has_encoder, get_encoder, column, ret, lift.
  rewrite H. cbn iota. rewrite H. reflexivity.
Qed.

Lemma transform_one_unseen (classes : list string) (v : string) :
  LabelEncoder.index_of v classes = None ->
  LabelEncoder.transform_values classes [v]
  = Raise (ValueError "y contains previously unseen labels").
Proof. intros H. cbn. now rewrite H. Qed.

Lemma transform_one_seen (classes : list string) (v : string) (i : Z) :
  LabelEncoder.index_of v classes = Some i ->
  LabelEncoder.transform_values classes [v] = Ok [i].
Proof. intros H. cbn. now rewrite H. Qed.

Section Predict.
Variables (now : Z) (d : ProjectData) (st : t regressor) (m : regressor).
Variables (cw cp cr : list string) (a : Q) (c : Z) (w pt r : string).
Hypothesis Hm : model st = Some m.
Hypothesis Hw : fitted_with "wood_type" cw st.
Hypothesis Hp : fitted_with "project_type" cp st.
Hypothesis Hr : fitted_with "region" cr st.
Hypothesis Ha : d_total_area_sqm d = Some a.
Hypothesis Hc : d_complexity d = Some c.
Hypothesis Hdw : d_wood_type d = Some w.
Hypothesis Hdp : d_project_type d = Some pt.
Hypothesis Hdr : d_region d = Some r.

Ltac enter_predict :=
  unfold predict; unfold bindM at 1; unfold get_model; rewrite Hm;
  unfold prepare_features, frame_of_dict;
  cbn [col_total_area_sqm col_complexity col_wood_type col_project_type
       col_region col_project_date];
  rewrite Ha, Hc, Hdw, Hdp, Hdr; cbn [option_map column];
  unfold bindM, ret;
  rewrite (encode_column_fitted _ Hw).

Lemma predict_unseen :
  LabelEncoder.index_of w cw = None \/
  LabelEncoder.index_of pt cp = None \/
  LabelEncoder.index_of r cr = None ->
  predict xgb_predict now d st
  = (Raise (ValueError "y contains previously unseen labels"), st).
Proof.
  intros Hu. enter_predict.
  destruct (LabelEncoder.index_of w cw) as [iw|] eqn:Ew;
    [rewrite (transform_one_seen _ _ Ew)
    | rewrite (transform_one_unseen _ _ Ew); reflexivity].
  rewrite (encode_column_fitted _ Hp).
  destruct (LabelEncoder.index_of pt cp) as [ip|] eqn:Ep;
    [rewrite (transform_one_seen _ _ Ep)
    | rewrite (transform_one_unseen _ _ Ep); reflexivity].
  rewrite (encode_column_fitted _ Hr).
  destruct (LabelEncoder.index_of r cr) as [ir|] eqn:Er;
    [rewrite (transform_one_seen _ _ Er)
    | rewrite (transform_one_unseen _ _ Er); reflexivity].
  destruct Hu as [Hu | [Hu | Hu]]; discriminate Hu.
Qed.

Lemma predict_seen (iw ip ir : Z) :
  LabelEncoder.index_of w cw = Some iw ->
  LabelEncoder.index_of pt cp = Some ip ->
  LabelEncoder.index_of r cr = Some ir ->
  exists X,
    predict xgb_predict now d st
    = (first_prediction (xgb_predict m X),
       mk (Some m) (label_encoders st) (columns X) (model_version st)) /\
    wood_type_encoded X = [iw] /\
    project_type_encoded X = [ip] /\
    region_encoded X = [ir] /\
    List.length (columns X)
    = match d_project_date d with Some _ => 9%nat | None => 7%nat end.
Proof.
  intros Ew Ep Er. enter_predict.
  rewrite (transform_one_seen _ _ Ew).
  rewrite (encode_column_fitted _ Hp), (transform_one_seen _ _ Ep).
  rewrite (encode_column_fitted _ Hr), (transform_one_seen _ _ Er).
  cbn [set_feature_names]. unfold lift. rewrite Hm.
  match goal with |- context [xgb_predict m ?X] => exists X end.
  split; [reflexivity|]. repeat split.
  destruct (d_project_date d); reflexivity.
Qed.

End Predict.
End Regressor.

(** C3 (as amended): with fewer than 30 rows [train] raises
    [ValueError] with the message 'Mindestens 30 Projekte benötigt, nur
    N vorhanden.' before it prepares features or fits anything: the
    predictor object is left as it was, so no model is produced. *)
Theorem C3_too_few_projects_raise_value_error
    (regressor : Type) (xgb_new : regressor)
    (xgb_fit :
       regressor -> Features -> list Q -> Features -> list Q -> res regressor)
    (xgb_predict : regressor -> Features -> res (list Q))
    (train_test_split :
       Features -> list Q -> Q
       -> res ((Features * Features) * (list Q * list Q)))
    (mape rmse : list Q -> list Q -> res Q)
    (now : Z) (rows : list ProjectValues) (test_size : Q)
    (st : t regressor) :
  (List.length rows < 30)%nat ->
  train xgb_new xgb_fit xgb_predict train_test_split mape rmse now rows
    test_size st
  = (Raise (ValueError (too_few_projects (List.length rows))), st) /\
  Py.exc_name (ValueError (too_few_projects (List.length rows)))
  = "ValueError".
Proof.
  intros Hn. split; [|reflexivity].
  unfold train. rewrite nrows_frame_of_values.
  destruct (Nat.ltb_spec (List.length rows) 30) as [_|H]; [reflexivity|lia].
Qed.

Lemma C3_too_few_projects_raise_value_error_witness :
  Scenario.flat_train 0 Scenario.ten_projects (init unit)
  = (Raise (ValueError "Mindestens 30 Projekte benötigt, nur 10 vorhanden."),
     init unit).
Proof.
  refine (proj1 (@C3_too_few_projects_raise_value_error unit tt
            Scenario.flat_fit Scenario.flat_predict Scenario.whole_split
            Scenario.zero_metric Scenario.zero_metric 0
            Scenario.ten_projects default_test_size (init unit) _)).
  vm_compute. lia.
Defined.

(** C3 (as stated) fails: with 10 projects the exception raised is a
    [ValueError], not an [InsufficientDataError]. *)
Lemma C3_exception_is_value_error :
  exists e,
    fst (Scenario.flat_train 0 Scenario.ten_projects (init unit)) = Raise e /\
    Py.exc_name e = "ValueError" /\
    Py.exc_name e <> "InsufficientDataError".
Proof.
  exists (ValueError (too_few_projects 10)).
  split; [reflexivity|]. split; [reflexivity | discriminate].
Qed.

(** C4 (as amended): with a loaded model and fitted encoders, [predict]
    raises [ValueError] (from the label encoder's [transform]) as soon
    as the wood type, the project type or the region of the input is
    not among the classes seen at fit time, and it leaves the predictor
    object as it was; there is no fallback bucket, and the regressor is
    not asked. *)
Theorem C4_unseen_category_raises_value_error
    (regressor : Type) (xgb_predict : regressor -> Features -> res (list Q))
    (now : Z) (d : ProjectData) (st : t regressor) (m : regressor)
    (cw cp cr : list string) (a : Q) (c : Z) (w pt r : string) :
  model st = Some m ->
  fitted_with "wood_type" cw st ->
  fitted_with "project_type" cp st ->
  fitted_with "region" cr st ->
  d_total_area_sqm d = Some a -> d_complexity d = Some c ->
  d_wood_type d = Some w -> d_project_type d = Some pt ->
  d_region d = Some r ->
  LabelEncoder.index_of w cw = None \/
  LabelEncoder.index_of pt cp = None \/
  LabelEncoder.index_of r cr = None ->
  predict xgb_predict now d st
  = (Raise (ValueError "y contains previously unseen labels"), st).
Proof.
  intros Hm Hw Hp Hr Ha Hc Hdw Hdp Hdr Hu.
  eapply predict_unseen; eassumption.
Qed.

Lemma C4_unseen_category_raises_value_error_witness :
  predict Scenario.flat_predict 0 Scenario.unseen_wood_type
    Scenario.trained_predictor
  = (Raise (ValueError "y contains previously unseen labels"),
     Scenario.trained_predictor).
Proof.
  refine (@C4_unseen_category_raises_value_error unit
            Scenario.flat_predict 0 Scenario.unseen_wood_type
            Scenario.trained_predictor tt
            ["Eiche"; "Kiefer"] ["Dachstuhl"; "Treppenbau"] ["Nord"]
            20%Q 2%Z "Mahagoni" "Treppenbau" "Nord"
            _ _ _ _ _ _ _ _ _ _); try reflexivity.
  left. reflexivity.
Defined.

(** C4 (as stated) fails: a predictor with a model and with encoders
    fitted on oak and pine projects raises [ValueError] for a mahogany
    project instead of returning a price. *)
Lemma C4_unseen_wood_type_raises :
  model Scenario.trained_predictor = Some tt /\
  fitted_with "wood_type" ["Eiche"; "Kiefer"] Scenario.trained_predictor /\
  fst (predict Scenario.flat_predict 0 Scenario.unseen_wood_type
         Scenario.trained_predictor)
  = Raise (ValueError "y contains previously unseen labels").
Proof. repeat split. Qed.

End PredictorFacts.

(* ================================================================== *)
(** * Further properties of the confidence formula                     *)
(* ================================================================== *)

Module ConfidenceMore.
Import ConfidenceCalculator.
Local Open Scope R_scope.

Lemma temporal_score_antitone (m1 m2 : R) :
  m1 <= m2 -> temporal_score m2 <= temporal_score m1.
Proof.
  intros H. unfold temporal_score.
  destruct (Req_dec m1 m2) as [->|NE]; [lra|].
  left. apply exp_increasing. lra.
Qed.

Lemma variance_score_antitone (v1 v2 p : R) :
  0 < p -> 0 <= v1 <= v2 -> variance_score v2 p <= variance_score v1 p.
Proof.
  intros Hp [H1 H12]. unfold variance_score.
  destruct (Rlt_dec 0 p); [|lra].
  destruct (Rge_dec v1 0); [|lra]. destruct (Rge_dec v2 0); [|lra].
  assert (Hi : 0 < / p) by now apply Rinv_0_lt_compat.
  assert (Hq1 : 0 <= v1 / p) by (apply Rmult_le_pos; lra).
  assert (Hq : v1 / p <= v2 / p) by (apply Rmult_le_compat_r; lra).
  unfold Rdiv at 1 3. rewrite !Rmult_1_l.
  apply Rinv_le_contravar; lra.
Qed.

(** With a count [n >= 0] and an average age [m >= 0] the score lies in
    the unit interval, whatever the variance, the price and the quality
    score are. *)
Theorem confidence_in_unit_interval (n : Z) (v p q m : R) :
  (0 <= n)%Z -> 0 <= m -> 0 <= calculate_confidence n v p q m <= 1.
Proof. apply ConfidenceFacts.calculate_confidence_unit_interval. Qed.

Lemma confidence_in_unit_interval_witness :
  0 <= calculate_confidence 5 5000 15000 (- 2) 6 <= 1.
Proof. apply confidence_in_unit_interval; [lia | lra]. Defined.

(** For a count of similar projects that is not negative, the
    confidence does not grow with the age of the similar projects,
    whatever the other inputs are, and, for a positive predicted price,
    it does not grow when the price variance grows from one value that
    is not negative to another. *)
Theorem confidence_antitone_in_age_and_variance
    (n : Z) (v v1 v2 p q m m1 m2 : R) :
  (0 <= n)%Z ->
  (m1 <= m2 ->
   calculate_confidence n v p q m2 <= calculate_confidence n v p q m1) /\
  (0 < p -> 0 <= v1 <= v2 ->
   calculate_confidence n v2 p q m <= calculate_confidence n v1 p q m).
Proof.
  intros _. split.
  - intros Hm. unfold calculate_confidence.
    pose proof (temporal_score_antitone Hm).
    apply RoundFacts.round_mono; unfold weighted_sum; lra.
  - intros Hp Hv. unfold calculate_confidence.
    pose proof (variance_score_antitone Hp Hv).
    apply RoundFacts.round_mono; unfold weighted_sum; lra.
Qed.

Lemma confidence_antitone_in_age_and_variance_witness :
  calculate_confidence 5 5000 15000 0.8 12
  <= calculate_confidence 5 5000 15000 0.8 6 /\
  calculate_confidence 5 9000 15000 0.8 6
  <= calculate_confidence 5 5000 15000 0.8 6.
Proof.
  assert (Hn : (0 <= 5)%Z) by lia.
  destruct (@confidence_antitone_in_age_and_variance 5 5000 5000 9000 15000
              0.8 6 6 12 Hn) as [Hage Hvar].
  split; [apply Hage | apply Hvar]; lra.
Defined.

(** A negative variance or a non-positive predicted price switches the
    variance component to the neutral 0.5; a variance of exactly 0 with
    a positive price gives the full 1. *)
Theorem variance_score_neutral_and_full (v p : R) :
  (v < 0 \/ p <= 0 -> variance_score v p = 0.5) /\
  (0 < p -> variance_score 0 p = 1).
Proof.
  unfold variance_score. split.
  - intros [H|H].
    + destruct (Rlt_dec 0 p); [|reflexivity].
      destruct (Rge_dec v 0); [lra | reflexivity].
    + destruct (Rlt_dec 0 p); [lra | reflexivity].
  - intros Hp. destruct (Rlt_dec 0 p); [|lra].
    destruct (Rge_dec 0 0); [|lra].
    unfold Rdiv. rewrite Rmult_0_l, Rplus_0_r, Rinv_1. lra.
Qed.

Lemma variance_score_neutral_and_full_witness :
  variance_score (- 1) 15000 = 0.5 /\ variance_score 0 15000 = 1.
Proof.
  split.
  - apply (proj1 (variance_score_neutral_and_full (- 1) 15000)). left. lra.
  - apply (proj2 (variance_score_neutral_and_full 0 15000)). lra.
Defined.

(** From 99 similar projects on the similarity component is saturated:
    it is exactly 1, and further projects do not change the score. *)
Theorem similarity_saturates_at_99 (n : Z) (v p q m : R) :
  (99 <= n)%Z ->
  similarity_score n = 1 /\
  calculate_confidence n v p q m = calculate_confidence 99 v p q m.
Proof.
  intros Hn.
  assert (Hs : forall k, (99 <= k)%Z -> similarity_score k = 1).
  { intros k Hk. unfold similarity_score. apply Rmin_right.
    pose proof ConfidenceFacts.ln_100_pos as Hp.
    apply IZR_le in Hk.
    assert (ln 100 <= ln (1 + IZR k)).
    { destruct (Req_dec (1 + IZR k) 100) as [->|NE]; [lra|].
      left. apply ln_increasing; lra. }
    apply Rmult_le_reg_r with (ln 100); [exact Hp|].
    unfold Rdiv. rewrite Rmult_assoc, Rinv_l by lra. lra. }
  split; [now apply Hs|].
  unfold calculate_confidence, weighted_sum.
  rewrite (Hs n Hn), (Hs 99%Z) by lia. reflexivity.
Qed.

Lemma similarity_saturates_at_99_witness :
  similarity_score 500 = 1 /\
  calculate_confidence 500 5000 15000 0.8 6
  = calculate_confidence 99 5000 15000 0.8 6.
Proof. apply similarity_saturates_at_99. lia. Defined.

End ConfidenceMore.

(* ================================================================== *)
(** * Further properties of cosine similarity and of the search        *)
(* ================================================================== *)

Module CosineFacts.
Import EmbeddingGenerator.
Local Open Scope R_scope.

Lemma dot_sym (a b : list R) : dot a b = dot b a.
Proof.
  unfold dot. revert b.
  induction a as [|x a IH]; intros [|y b]; cbn; try reflexivity.
  rewrite IH. lra.
Qed.

Lemma dot_cons (x y : R) (a b : list R) :
  dot (x :: a) (y :: b) = x * y + dot a b.
Proof. reflexivity. Qed.

Lemma dot_self_nonneg (a : list R) : 0 <= dot a a.
Proof.
  induction a as [|x a IH]; [unfold dot; cbn; lra|].
  rewrite dot_cons. nra.
Qed.

(** Twice the product is at most the sum of the two squares, entry by
    entry, hence for the sums. *)
Lemma dot_nil_l (b : list R) : dot [] b = 0.
Proof. reflexivity. Qed.

Lemma dot_nil_r (a : list R) : dot a [] = 0.
Proof. destruct a; reflexivity. Qed.

Lemma dot_le_squares (a b : list R) : 2 * dot a b <= dot a a + dot b b.
Proof.
  revert b. induction a as [|x a IH]; intros [|y b].
  - rewrite dot_nil_l. lra.
  - pose proof (dot_self_nonneg (y :: b)). rewrite !dot_nil_l. lra.
  - pose proof (dot_self_nonneg (x :: a)). rewrite !dot_nil_r. lra.
  - rewrite !dot_cons. specialize (IH b).
    pose proof (Rle_0_sqr (x - y)) as Hq. unfold Rsqr in Hq. nra.
Qed.

Lemma dot_ge_squares (a b : list R) : - (dot a a + dot b b) <= 2 * dot a b.
Proof.
  revert b. induction a as [|x a IH]; intros [|y b].
  - rewrite dot_nil_l. lra.
  - pose proof (dot_self_nonneg (y :: b)). rewrite !dot_nil_l. lra.
  - pose proof (dot_self_nonneg (x :: a)). rewrite !dot_nil_r. lra.
  - rewrite !dot_cons. specialize (IH b).
    pose proof (Rle_0_sqr (x + y)) as Hq. unfold Rsqr in Hq. nra.
Qed.

Lemma dot_scale (c d : R) (a b : list R) :
  dot (map (fun x => x / c) a) (map (fun x => x / d) b)
  = dot a b * (/ c * / d).
Proof.
  revert b. induction a as [|x a IH]; intros [|y b];
    try (unfold dot; cbn; lra).
  cbn [map]. rewrite !dot_cons, IH. unfold Rdiv. lra.
Qed.

Lemma l2_norm_nonneg (a : list R) : 0 <= l2_norm a.
Proof. apply sqrt_pos. Qed.

Lemma l2_norm_square (a : list R) : l2_norm a * l2_norm a = dot a a.
Proof. apply sqrt_sqrt, dot_self_nonneg. Qed.

(** A normalised vector has squared length 1, or 0 when it is the zero
    vector. *)
Lemma dot_normalize_self (a : list R) :
  dot (normalize a) (normalize a) = (if Req_dec_T (l2_norm a) 0 then 0 else 1).
Proof.
  unfold normalize. rewrite dot_scale.
  pose proof (l2_norm_square a) as Hs.
  destruct (Req_dec_T (l2_norm a) 0) as [E|NE].
  - rewrite E in Hs. rewrite <- Hs. lra.
  - rewrite <- Hs. field. exact NE.
Qed.

Lemma dot_normalize_self_le_1 (a : list R) :
  0 <= dot (normalize a) (normalize a) <= 1.
Proof.
  rewrite dot_normalize_self. destruct (Req_dec_T _ _); lra.
Qed.

Lemma cosine_ok (a b : list R) (s : R) :
  cosine_similarity a b = Ok s ->
  a <> [] /\ b <> [] /\ List.length a = List.length b /\
  s = dot (normalize a) (normalize b).
Proof.
  unfold cosine_similarity.
  destruct a as [|x a]; [discriminate|].
  destruct b as [|y b]; [discriminate|].
  cbn [List.length Nat.eqb orb].
  destruct (Nat.eqb_spec (List.length a) (List.length b)) as [E|NE];
    cbn [negb]; [|discriminate].
  intros [= <-]. repeat split; try discriminate. cbn. now rewrite E.
Qed.

Lemma cosine_defined (a b : list R) :
  a <> [] -> List.length a = List.length b ->
  cosine_similarity a b = Ok (dot (normalize a) (normalize b)).
Proof.
  intros Ha E. unfold cosine_similarity.
  destruct a as [|x a]; [congruence|].
  destruct b as [|y b]; [discriminate|].
  cbn [List.length Nat.eqb orb] in *.
  injection E as E. rewrite E, Nat.eqb_refl. reflexivity.
Qed.

Lemma cosine_mismatch (a b : list R) :
  List.length a <> List.length b ->
  exists msg, cosine_similarity a b = Raise (ValueError msg).
Proof.
  intros NE. unfold cosine_similarity.
  destruct (_ || _); [eexists; reflexivity|].
  apply Nat.eqb_neq in NE. rewrite NE. cbn [negb]. eexists; reflexivity.
Qed.

Lemma dot_normalize_range (a b : list R) :
  - 1 <= dot (normalize a) (normalize b) <= 1.
Proof.
  pose proof (dot_le_squares (normalize a) (normalize b)).
  pose proof (dot_ge_squares (normalize a) (normalize b)).
  pose proof (dot_normalize_self_le_1 a).
  pose proof (dot_normalize_self_le_1 b).
  lra.
Qed.

Lemma cosine_ok_range (a b : list R) (s : R) :
  cosine_similarity a b = Ok s -> - 1 <= s <= 1.
Proof.
  intros H. apply cosine_ok in H. destruct H as (_ & _ & _ & ->).
  apply dot_normalize_range.
Qed.

(** A vector whose squared length is 0 has product 0 with every
    vector. *)
Lemma dot_zero_vector (c d : list R) : dot c c = 0 -> dot c d = 0.
Proof.
  revert d. induction c as [|x c IH]; intros [|y d] Hc;
    try (unfold dot; cbn; lra); try apply dot_nil_r.
  rewrite dot_cons in *.
  pose proof (dot_self_nonneg c).
  assert (x = 0) by nra. assert (dot c c = 0) by nra.
  rewrite (IH d) by assumption. subst x. lra.
Qed.

Lemma cosine_zero_norm (a b : list R) :
  a <> [] -> l2_norm a = 0 -> List.length a = List.length b ->
  cosine_similarity a b = Ok 0.
Proof.
  intros Ha Hn E. rewrite cosine_defined by auto. f_equal.
  apply dot_zero_vector. rewrite dot_normalize_self.
  destruct (Req_dec_T (l2_norm a) 0); [reflexivity | contradiction].
Qed.

Lemma zeros_norm (n : nat) : l2_norm (zeros n) = 0.
Proof.
  unfold l2_norm.
  replace (dot (zeros n) (zeros n)) with 0; [apply sqrt_0|].
  unfold zeros. induction n as [|n IH]; [reflexivity|].
  cbn [repeat]. rewrite dot_cons, <- IH. lra.
Qed.

(** The similarity of two embeddings does not depend on their order,
    neither the score nor the failure. *)
Theorem cosine_similarity_symmetric (a b : list R) :
  cosine_similarity a b = cosine_similarity b a.
Proof.
  unfold cosine_similarity.
  rewrite (dot_sym (normalize a)).
  rewrite (Nat.eqb_sym (List.length a) (List.length b)).
  rewrite (orb_comm (List.length a =? 0)%nat (List.length b =? 0)%nat).
  reflexivity.
Qed.

(** The similarity never divides by zero: a norm of 0 is replaced by 1,
    so the zero vector has similarity 0 to every vector of its length,
    in either order of the arguments. *)
Theorem cosine_similarity_of_zero_vector (n : nat) (b : list R) :
  (0 < n)%nat -> List.length b = n ->
  cosine_similarity (zeros n) b = Ok 0 /\
  cosine_similarity b (zeros n) = Ok 0.
Proof.
  intros Hn Hb.
  assert (Hz : zeros n <> []) by (destruct n; [lia | discriminate]).
  assert (Hl : List.length (zeros n) = List.length b)
    by (unfold zeros; now rewrite repeat_length).
  assert (H0 : dot (normalize (zeros n)) (normalize (zeros n)) = 0).
  { rewrite dot_normalize_self.
    destruct (Req_dec_T (l2_norm (zeros n)) 0) as [_|NE]; [reflexivity|].
    destruct (NE (zeros_norm n)). }
  split.
  - rewrite cosine_defined by assumption. f_equal.
    now apply dot_zero_vector.
  - rewrite cosine_defined; [|intros ->; cbn in Hb; lia | now symmetry].
    f_equal. rewrite dot_sym. now apply dot_zero_vector.
Qed.

Lemma cosine_similarity_of_zero_vector_witness :
  cosine_similarity [0; 0; 0; 0] [3; 9; 3; 1] = Ok 0 /\
  cosine_similarity [3; 9; 3; 1] [0; 0; 0; 0] = Ok 0.
Proof.
  apply (@cosine_similarity_of_zero_vector 4 [3; 9; 3; 1]);
    [lia | reflexivity].
Defined.

End CosineFacts.

Module SearchMore.
Import EmbeddingGenerator.
Local Open Scope R_scope.

Module CC := ConfidenceCalculator.

(** ** Sorting rearranges, and a cut of a sorted list keeps the best *)

Lemma insert_permutation {A : Type} (before : A -> A -> bool) (x : A)
    (l : list A) : Permutation (x :: l) (Py.insert before x l).
Proof.
  induction l as [|y l IH]; cbn [Py.insert]; [reflexivity|].
  destruct (before x y); [reflexivity|].
  rewrite perm_swap. now apply perm_skip.
Qed.

Lemma stable_sort_permutation {A : Type} (before : A -> A -> bool)
    (l : list A) : Permutation l (Py.stable_sort before l).
Proof.
  induction l as [|x l IH]; cbn [Py.stable_sort]; [reflexivity|].
  rewrite <- insert_permutation. now apply perm_skip.
Qed.

Lemma stable_sort_length {A : Type} (before : A -> A -> bool) (l : list A) :
  List.length (Py.stable_sort before l) = List.length l.
Proof. symmetry. apply Permutation_length, stable_sort_permutation. Qed.

Lemma sorted_app {A : Type} (ord : A -> A -> Prop) (l1 l2 : list A) :
  StronglySorted ord (l1 ++ l2) ->
  forall x y, In x l1 -> In y l2 -> ord x y.
Proof.
  induction l1 as [|a l1 IH]; cbn; intros Hs x y Hx Hy; [contradiction|].
  apply StronglySorted_inv in Hs. destruct Hs as [Hs Hf].
  destruct Hx as [<-|Hx]; [|now apply IH].
  rewrite Forall_forall in Hf. apply Hf, in_or_app. now right.
Qed.

Lemma slice_to_firstn {A : Type} (k : Z) (l : list A) :
  exists n, Py.slice_to k l = firstn n l.
Proof. unfold Py.slice_to. destruct (0 <=? k)%Z; eexists; reflexivity. Qed.

Lemma slice_to_length {A : Type} (k : Z) (l : list A) :
  (List.length (Py.slice_to k l) <= List.length l)%nat /\
  ((0 <= k)%Z -> (List.length (Py.slice_to k l) <= Z.to_nat k)%nat).
Proof.
  unfold Py.slice_to. split.
  - destruct (0 <=? k)%Z; rewrite length_firstn; lia.
  - intros Hk. apply Z.leb_le in Hk. rewrite Hk, length_firstn. lia.
Qed.

(** ** The loop of [EmbeddingGenerator.find_similar_projects] *)

Lemma results_length (q : Embedding) (ps : list Models.Project) :
  (List.length (results q ps) <= List.length ps)%nat.
Proof.
  induction ps as [|p ps IH]; [cbn; lia|].
  cbn [results].
  destruct (Models.description_embedding p) as [[|x emb]|];
    try (cbn [List.length]; lia).
  destruct (cosine_similarity q (x :: emb)) as [s|];
    try (cbn [List.length]; lia).
  destruct (Rgt_dec s 0.3); cbn [List.length]; lia.
Qed.

Lemma results_origin (q : Embedding) (ps : list Models.Project) (e : Result) :
  In e (results q ps) ->
  exists p emb,
    In p ps /\ Models.description_embedding p = Some emb /\
    cosine_similarity q emb = Ok (similarity e) /\
    e = result_of p (similarity e) /\ 0.3 < similarity e.
Proof.
  induction ps as [|p ps IH]; cbn [results]; [intros []|].
  assert (Hrest : In e (results q ps) ->
    exists p0 emb, In p0 (p :: ps) /\
      Models.description_embedding p0 = Some emb /\
      cosine_similarity q emb = Ok (similarity e) /\
      e = result_of p0 (similarity e) /\ 0.3 < similarity e).
  { intros H. destruct (IH H) as (p0 & emb & Hp & Hrest).
    exists p0, emb. split; [now right | exact Hrest]. }
  destruct (Models.description_embedding p) as [[|x emb]|] eqn:Ee;
    try exact Hrest.
  destruct (cosine_similarity q (x :: emb)) as [s|] eqn:Ec; try exact Hrest.
  destruct (Rgt_dec s 0.3) as [Hs|_]; try exact Hrest.
  intros [<-|H]; [|now apply Hrest].
  exists p, (x :: emb). cbn [similarity result_of].
  repeat split; try assumption. now left.
Qed.

Lemma results_none (q : Embedding) (ps : list Models.Project) :
  (forall emb s, cosine_similarity q emb = Ok s -> s <= 0.3) ->
  results q ps = [].
Proof.
  intros Hq. induction ps as [|p ps IH]; cbn [results]; [reflexivity|].
  destruct (Models.description_embedding p) as [[|x emb]|]; try exact IH.
  destruct (cosine_similarity q (x :: emb)) as [s|] eqn:Ec; try exact IH.
  destruct (Rgt_dec s 0.3) as [Hs|_]; try exact IH.
  specialize (Hq _ _ Ec). unfold Rgt in Hs. lra.
Qed.

(** Every returned entry is the entry of a project of the corpus that
    has a non-empty embedding of the query's dimension; its score is the
    cosine similarity of that embedding to the query and lies strictly
    above 0.3.  Projects without an embedding, with an empty one or
    with one of another dimension are never returned. *)
Theorem find_similar_origin
    (q : Embedding) (projects : list Models.Project) (top_k : Z) (e : Result) :
  In e (find_similar_projects q projects top_k) ->
  exists p emb,
    In p projects /\ Models.description_embedding p = Some emb /\
    emb <> [] /\ List.length emb = List.length q /\
    cosine_similarity q emb = Ok (similarity e) /\
    e = result_of p (similarity e) /\
    0.3 < similarity e.
Proof.
  intros He. unfold find_similar_projects in He.
  apply SortFacts.In_slice, SortFacts.sort_desc_In, results_origin in He.
  destruct He as (p & emb & Hp & Ee & Ec & E & Hs).
  pose proof (CosineFacts.cosine_ok _ _ Ec) as (_ & Hn & Hl & _).
  exists p, emb. repeat split; auto.
Qed.

Lemma find_similar_origin_witness :
  exists p emb,
    In p [Scenario.older_project; Scenario.newer_project] /\
    Models.description_embedding p = Some emb /\
    emb <> [] /\ List.length emb = 1%nat /\
    cosine_similarity [1] emb = Ok 1 /\
    result_of Scenario.older_project 1 = result_of p 1 /\
    0.3 < 1.
Proof.
  apply (@find_similar_origin [1]
           [Scenario.older_project; Scenario.newer_project] 5
           (result_of Scenario.older_project 1)).
  rewrite SearchFacts.find_similar_tied_projects. left. reflexivity.
Defined.

(** The result is never longer than the corpus, and for [top_k >= 0]
    never longer than [top_k]. *)
Theorem find_similar_length
    (q : Embedding) (projects : list Models.Project) (top_k : Z) :
  (List.length (find_similar_projects q projects top_k)
   <= List.length projects)%nat /\
  ((0 <= top_k)%Z ->
   (List.length (find_similar_projects q projects top_k)
    <= Z.to_nat top_k)%nat).
Proof.
  unfold find_similar_projects.
  pose proof (slice_to_length top_k
                (Py.sort_desc similarity (results q projects))) as [H1 H2].
  unfold Py.sort_desc in *. rewrite stable_sort_length in H1.
  pose proof (results_length q projects). split; [lia | exact H2].
Qed.

Lemma find_similar_length_witness :
  (List.length (find_similar_projects [1%R]
      [Scenario.older_project; Scenario.newer_project] 1%Z) <= 1)%nat.
Proof.
  apply (@find_similar_length [1]
           [Scenario.older_project; Scenario.newer_project] 1).
  lia.
Defined.

(** What the cut to [top_k] leaves out is never better than what it
    keeps: the entries collected from the corpus are the returned ones
    plus a remainder, and no entry of the remainder has a higher score
    than a returned entry. *)
Theorem find_similar_keeps_the_best
    (q : Embedding) (projects : list Models.Project) (top_k : Z) :
  exists cut,
    Permutation (results q projects)
      (find_similar_projects q projects top_k ++ cut) /\
    forall e e',
      In e (find_similar_projects q projects top_k) -> In e' cut ->
      similarity e' <= similarity e.
Proof.
  unfold find_similar_projects.
  set (sorted := Py.sort_desc similarity (results q projects)).
  destruct (slice_to_firstn top_k sorted) as [n ->].
  exists (skipn n sorted). split.
  - rewrite firstn_skipn. apply stable_sort_permutation.
  - intros e e' He He'.
    pose proof (SortFacts.sort_desc_descending similarity
                  (results q projects)) as Hs.
    fold sorted in Hs. unfold Py.descending in Hs.
    rewrite <- (firstn_skipn n sorted) in Hs.
    exact (sorted_app _ _ Hs e e' He He').
Qed.

Lemma find_similar_keeps_the_best_witness :
  exists cut,
    Permutation
      (results [1] [Scenario.older_project; Scenario.newer_project])
      (find_similar_projects [1]
         [Scenario.older_project; Scenario.newer_project] 1 ++ cut).
Proof.
  destruct (find_similar_keeps_the_best [1]
              [Scenario.older_project; Scenario.newer_project] 1)
    as (cut & Hperm & _).
  exists cut. exact Hperm.
Defined.

Lemma zero_query_finds_nothing (n : nat) (projects : list Models.Project)
    (top_k : Z) : find_similar_projects (zeros n) projects top_k = [].
Proof.
  unfold find_similar_projects. rewrite results_none.
  { unfold Py.slice_to, Py.sort_desc. cbn [Py.stable_sort].
    destruct (0 <=? top_k)%Z; apply firstn_nil. }
  intros emb s Hc.
  pose proof (CosineFacts.cosine_ok _ _ Hc) as (Hn & _ & Hl & _).
  rewrite (@CosineFacts.cosine_zero_norm _ emb Hn (CosineFacts.zeros_norm n) Hl) in Hc.
  injection Hc as <-. lra.
Qed.

Lemma find_similar_score_range (q : Embedding)
    (projects : list Models.Project) (top_k : Z) (e : Result) :
  In e (find_similar_projects q projects top_k) -> 0.3 < similarity e <= 1.
Proof.
  intros He. unfold find_similar_projects in He.
  apply SortFacts.In_slice, SortFacts.sort_desc_In, results_origin in He.
  destruct He as (p & emb & _ & _ & Ec & _ & Hs).
  pose proof (CosineFacts.cosine_ok_range _ _ Ec). lra.
Qed.

Lemma find_similar_nonempty (q : Embedding) (projects : list Models.Project)
    (top_k : Z) :
  results q projects <> [] -> (0 < top_k)%Z ->
  find_similar_projects q projects top_k <> [].
Proof.
  intros Hr Hk. unfold find_similar_projects, Py.slice_to.
  destruct (Z.leb_spec 0 top_k) as [_|H]; [|lia].
  intros E. apply (f_equal (@List.length Result)) in E.
  unfold Py.sort_desc in E.
  rewrite length_firstn, stable_sort_length in E. cbn [List.length] in E.
  destruct (results q projects); [congruence|]. cbn [List.length] in E. lia.
Qed.

(** A blank description is embedded as the zero vector of dimension 384
    without the model being asked, and the zero vector is similar to
    nothing: the search returns no project, whatever the corpus. *)
Theorem blank_description_finds_nothing
    (encode : string -> res Embedding) (text : string)
    (projects : list Models.Project) (top_k : Z) :
  Py.is_blank text = true ->
  exists e,
    generate_embedding encode text = Ok e /\
    e = zeros 384 /\
    List.length e = 384%nat /\
    find_similar_projects e projects top_k = [].
Proof.
  intros Hb. exists (zeros 384). split; [|split; [|split]].
  - now apply EmbeddingFacts.generate_embedding_blank.
  - reflexivity.
  - apply repeat_length.
  - unfold find_similar_projects. rewrite results_none.
    { unfold Py.slice_to, Py.sort_desc. cbn [Py.stable_sort].
      destruct (0 <=? top_k)%Z; apply firstn_nil. }
    intros emb s Hc.
    pose proof (CosineFacts.cosine_ok _ _ Hc) as (Hn & _ & Hl & _).
    rewrite (@CosineFacts.cosine_zero_norm _ emb Hn (CosineFacts.zeros_norm 384) Hl) in Hc.
    injection Hc as <-. lra.
Qed.

Lemma blank_description_finds_nothing_witness :
  exists e,
    generate_embedding Scenario.constant_encode "   " = Ok e /\
    e = zeros 384 /\
    List.length e = 384%nat /\
    find_similar_projects e
      [Scenario.older_project; Scenario.newer_project] 5 = [].
Proof.
  apply (@blank_description_finds_nothing Scenario.constant_encode "   ").
  reflexivity.
Defined.

(** ** [ConfidenceCalculator.find_similar_projects] *)

Lemma project_similarity_error (q : Embedding) (p : Models.Project)
    (e : exn) :
  CC.project_similarity q p = Raise e -> exists msg, e = ValueError msg.
Proof.
  unfold CC.project_similarity, calculate_similarity, cosine_similarity.
  destruct (Models.description_embedding p) as [emb|].
  - destruct (_ || _); [intros [= <-]; eexists; reflexivity|].
    destruct (negb _); [intros [= <-]; eexists; reflexivity | discriminate].
  - intros [= <-]. eexists; reflexivity.
Qed.

Lemma similarities_raise (q : Embedding) (ps : list Models.Project)
    (p : Models.Project) (e : exn) :
  In p ps -> CC.project_similarity q p = Raise e ->
  exists msg, CC.similarities q ps = Raise (ValueError msg).
Proof.
  intros Hin Hr. induction ps as [|p0 ps IH]; [contradiction|].
  cbn [CC.similarities].
  destruct (CC.project_similarity q p0) as [s|e0] eqn:E0; cbn [Py.bind].
  - destruct Hin as [->|Hin]; [congruence|].
    destruct (IH Hin) as [msg ->]. cbn [Py.bind]. now exists msg.
  - destruct (project_similarity_error _ _ E0) as [msg ->]. now exists msg.
Qed.

Lemma finalized_with_embedding_In (table : list Models.Project)
    (p : Models.Project) :
  In p (CC.finalized_with_embedding table) <->
  In p table /\ Models.is_finalized p = true /\
  Models.description_embedding p <> None.
Proof.
  unfold CC.finalized_with_embedding, Models.default_ordering, Py.sort_descZ.
  rewrite SortFacts.stable_sort_In, !filter_In.
  destruct (Models.description_embedding p); intuition congruence.
Qed.

(** One finalized project whose stored embedding has another dimension
    than the query embedding makes the calculator's search fail with
    [ValueError], whatever else the table holds. *)
Theorem calculator_search_fails_on_other_dimension
    (encode : string -> res Embedding) (table : list Models.Project)
    (text : string) (top_k : Z) (q emb : Embedding) (p : Models.Project) :
  generate_embedding encode text = Ok q ->
  In p table -> Models.is_finalized p = true ->
  Models.description_embedding p = Some emb ->
  List.length emb <> List.length q ->
  exists msg,
    CC.find_similar_projects encode table text top_k
    = Raise (ValueError msg).
Proof.
  intros Hq Hin Hf He Hl. unfold CC.find_similar_projects.
  rewrite Hq. cbn [Py.bind].
  assert (Hp : In p (CC.finalized_with_embedding table)).
  { apply finalized_with_embedding_In. repeat split; congruence. }
  assert (Hr : exists e, CC.project_similarity q p = Raise e).
  { unfold CC.project_similarity, calculate_similarity. rewrite He.
    destruct (@CosineFacts.cosine_mismatch q emb) as [msg ->]; [congruence|].
    eexists; reflexivity. }
  destruct Hr as [e Hr].
  destruct (similarities_raise _ _ _ Hp Hr) as [msg ->].
  cbn [Py.bind]. now exists msg.
Qed.

Lemma calculator_search_fails_on_other_dimension_witness :
  exists msg,
    CC.find_similar_projects Scenario.constant_encode
      [Scenario.older_project; Scenario.threshold_project] "Treppe" 5
    = Raise (ValueError msg).
Proof.
  apply (@calculator_search_fails_on_other_dimension Scenario.constant_encode
           [Scenario.older_project; Scenario.threshold_project] "Treppe" 5
           [1] [3; 9; 3; 1] Scenario.threshold_project);
    try reflexivity.
  - right. left. reflexivity.
  - cbn. discriminate.
Defined.

End SearchMore.

(* ================================================================== *)
(** * Further properties of feature extraction                         *)
(* ================================================================== *)

Module FeatureMore.
Import FeatureEngineer.
Local Open Scope Q_scope.

Lemma max0_nonneg (x : Q) : 0 <= max0 x.
Proof.
  unfold max0. destruct (Qlt_le_dec 0 x) as [H|H];
    [now apply Qlt_le_weak | apply Qle_refl].
Qed.

Lemma months_lt_6 (d : Z) : max0 (inject_Z d / 30) < 6 <-> (d < 180)%Z.
Proof.
  unfold max0.
  destruct (Qlt_le_dec 0 (inject_Z d / 30)) as [H|H];
    unfold Qlt, Qle, Qdiv, Qmult, Qinv, inject_Z in *; cbn in *; lia.
Qed.

(** Whatever the clock, and for a dict whose area and complexity are
    numbers where they are present: the age in months is not negative
    and [is_recent] is 0 or 1.  The divisor of [area_per_complexity] is
    at least 1: for a complexity of 1 or below, 0 and negative numbers
    included, the quotient is the area itself, and for an area that is
    not negative it lies between 0 and the area. *)
Theorem extract_features_invariants (now : Z) (d : ProjectDict) :
  0 <= months_old (extract_features now d) /\
  (is_recent (extract_features now d) = 0%Z \/
   is_recent (extract_features now d) = 1%Z) /\
  ((f_complexity (extract_features now d) <= 1)%Z ->
   area_per_complexity (extract_features now d)
   == f_total_area_sqm (extract_features now d)) /\
  (0 <= f_total_area_sqm (extract_features now d) ->
   0 <= area_per_complexity (extract_features now d)
   /\ area_per_complexity (extract_features now d)
      <= f_total_area_sqm (extract_features now d)).
Proof.
  unfold extract_features.
  cbn [months_old is_recent f_complexity area_per_complexity
       f_total_area_sqm].
  split; [|split; [|split]].
  - destruct (project_date d) as [[t|]|]; cbn [fst];
      [apply max0_nonneg | apply Qle_refl | apply Qle_refl].
  - destruct (project_date d) as [[t|]|]; cbn [snd]; auto.
    destruct (days_old now t <? 180)%Z; auto.
  - intros Hc. rewrite Z.max_r by exact Hc.
    unfold Qdiv. change (/ inject_Z 1) with 1. apply Qmult_1_r.
  - intros Ha.
    set (area := get (total_area_sqm d) 0) in *.
    set (k := Z.max (get (complexity d) 1%Z) 1).
    assert (Hk : (1 <= k)%Z) by (subst k; lia).
    clearbody area k. destruct area as [num den].
    destruct k as [|k|k]; try lia.
    unfold Qle, Qdiv, Qmult, Qinv, inject_Z in *. cbn in *. split; nia.
Qed.

Lemma extract_features_invariants_witness :
  0 <= area_per_complexity (extract_features 0 Scenario.dated_project)
  /\ area_per_complexity (extract_features 0 Scenario.dated_project)
     <= f_total_area_sqm (extract_features 0 Scenario.dated_project).
Proof.
  apply (proj2 (proj2 (proj2
           (extract_features_invariants 0 Scenario.dated_project)))).
  vm_compute. discriminate.
Defined.

(** For a dict with a parsed date [is_recent] is 1 exactly when
    [months_old] is below 6.  A date in the future gives an age of 0
    months and counts as recent; a dict without a date gives an age of 0
    months and counts as not recent. *)
Theorem is_recent_agrees_with_months_old (now t : Z) (d : ProjectDict) :
  (project_date d = Some (Parsed t) ->
   (is_recent (extract_features now d) = 1%Z <->
    months_old (extract_features now d) < 6) /\
   ((now < t)%Z ->
    months_old (extract_features now d) == 0 /\
    is_recent (extract_features now d) = 1%Z)) /\
  (project_date d = None ->
   months_old (extract_features now d) = 0 /\
   is_recent (extract_features now d) = 0%Z).
Proof.
  unfold extract_features. cbn [months_old is_recent]. split.
  - intros ->. cbn [fst snd]. split.
    + rewrite months_lt_6.
      destruct (Z.ltb_spec (days_old now t) 180); split; intros; try lia;
        try reflexivity; discriminate.
    + intros Hlt.
      assert (Hd : (days_old now t < 0)%Z).
      { unfold days_old, seconds_per_day. apply Z.div_lt_upper_bound; lia. }
      split.
      * unfold max0. destruct (Qlt_le_dec 0 (inject_Z (days_old now t) / 30))
          as [H|H]; [|reflexivity].
        unfold Qlt, Qdiv, Qmult, Qinv, inject_Z in H; cbn in H. lia.
      * destruct (Z.ltb_spec (days_old now t) 180); [reflexivity | lia].
  - intros ->. split; reflexivity.
Qed.

Lemma is_recent_agrees_with_months_old_witness :
  (is_recent (extract_features 0 Scenario.dated_project) = 1%Z <->
   months_old (extract_features 0 Scenario.dated_project) < 6) /\
  months_old (extract_features 0 Scenario.undated_project) = 0.
Proof.
  split.
  - apply (proj1 (@is_recent_agrees_with_months_old 0 0
                    Scenario.dated_project) eq_refl).
  - apply (proj2 (@is_recent_agrees_with_months_old 0 0
                    Scenario.undated_project) eq_refl).
Defined.

End FeatureMore.

(* ================================================================== *)
(** * Further properties of the label encoders and of the predictor    *)
(* ================================================================== *)

Module EncoderFacts.
Import LabelEncoder.

Lemma insert_unique_In (s v : string) (l : list string) :
  In v (insert_unique s l) <-> v = s \/ In v l.
Proof.
  induction l as [|x l IH]; cbn [insert_unique]; [cbn; intuition congruence|].
  destruct (String.compare s x) eqn:E; cbn [In]; rewrite ?IH.
  - apply String.compare_eq_iff in E. subst. intuition congruence.
  - intuition congruence.
  - intuition congruence.
Qed.

Lemma unique_In (v : string) (values : list string) :
  In v (unique values) <-> In v values.
Proof.
  induction values as [|x values IH]; cbn [unique fold_right]; [tauto|].
  fold (unique values). rewrite insert_unique_In, IH. cbn. intuition congruence.
Qed.

Lemma index_of_In (v : string) (classes : list string) :
  In v classes <-> exists i, index_of v classes = Some i.
Proof.
  induction classes as [|c classes IH]; cbn [index_of In].
  - split; [tauto | intros [i H]; discriminate].
  - destruct (String.eqb_spec v c) as [->|NE].
    + split; [eexists; reflexivity | now left].
    + rewrite IH. split.
      * intros [E|[i ->]]; [congruence | eexists; reflexivity].
      * intros [i H]. right.
        destruct (index_of v classes) as [j|]; [now exists j | discriminate].
Qed.

(** An index names the class it was looked up for. *)
Lemma index_of_nth (v : string) (classes : list string) (i : Z) :
  index_of v classes = Some i ->
  (0 <= i)%Z /\ nth_error classes (Z.to_nat i) = Some v.
Proof.
  revert i. induction classes as [|c classes IH]; intros i; cbn [index_of];
    [discriminate|].
  destruct (String.eqb_spec v c) as [->|NE].
  - intros [= <-]. split; [lia | reflexivity].
  - destruct (index_of v classes) as [j|]; [|discriminate].
    intros [= <-]. destruct (IH j eq_refl) as [Hj Hn].
    split; [lia|]. rewrite Z2Nat.inj_succ by lia. exact Hn.
Qed.

Lemma transform_values_ok (classes values : list string) :
  (forall v, In v values -> In v classes) ->
  exists l, transform_values classes values = Ok l /\
            Forall2 (fun v i => index_of v classes = Some i) values l.
Proof.
  induction values as [|v values IH]; intros H; cbn [transform_values].
  - exists []. split; [reflexivity | constructor].
  - destruct IH as (l & -> & Hl); [intros; apply H; now right|].
    destruct (proj1 (index_of_In v classes) (H v (or_introl eq_refl)))
      as [i Hi].
    rewrite Hi. exists (i :: l). split; [reflexivity | now constructor].
Qed.

Lemma transform_values_unseen (classes values : list string) (v : string) :
  In v values -> index_of v classes = None ->
  transform_values classes values
  = Raise (ValueError "y contains previously unseen labels").
Proof.
  induction values as [|x values IH]; intros Hin Hv; [contradiction|].
  cbn [transform_values]. destruct Hin as [->|Hin].
  - now rewrite Hv.
  - rewrite (IH Hin Hv). now destruct (index_of x classes).
Qed.

(** An encoder fitted on a column transforms that column without
    raising, and every index it hands out names the value it stands
    for among the fitted classes. *)
Theorem fit_then_transform (values : list string) :
  exists l,
    transform (fit values) values = Ok l /\
    Forall2 (fun v i =>
               (0 <= i)%Z /\
               nth_error (unique values) (Z.to_nat i) = Some v) values l.
Proof.
  destruct (@transform_values_ok (unique values) values) as (l & Hl & Hf).
  { intros v Hv. now apply unique_In. }
  exists l. split; [exact Hl|]. clear Hl.
  generalize dependent (unique values). intros classes Hf.
  induction Hf as [|v i vs l Hi _ IH]; constructor;
    [now apply index_of_nth | exact IH].
Qed.

End EncoderFacts.

Module PredictorMore.
Import PricePredictor.

Section Regressor.
Variable regressor : Type.
Variable xgb_new : regressor.
Variable xgb_fit :
  regressor -> Features -> list Q -> Features -> list Q -> res regressor.
Variable xgb_predict : regressor -> Features -> res (list Q).
Variable train_test_split :
  Features -> list Q -> Q -> res ((Features * Features) * (list Q * list Q)).
Variable mape : list Q -> list Q -> res Q.
Variable rmse : list Q -> list Q -> res Q.

Lemma lookup_update_same (name : string) (enc : LabelEncoder.t)
    (d : list (string * LabelEncoder.t)) :
  lookup name (update name enc d) = Some enc.
Proof.
  induction d as [|[k v] d IH]; cbn [update lookup].
  - now rewrite String.eqb_refl.
  - destruct (String.eqb_spec name k) as [->|NE]; cbn [lookup].
    + now rewrite String.eqb_refl.
    + apply String.eqb_neq in NE. now rewrite NE.
Qed.

Lemma update_twice (name : string) (e1 e2 : LabelEncoder.t)
    (d : list (string * LabelEncoder.t)) :
  update name e2 (update name e1 d) = update name e2 d.
Proof.
  induction d as [|[k v] d IH]; cbn [update].
  - now rewrite String.eqb_refl.
  - destruct (String.eqb_spec name k) as [->|NE]; cbn [update].
    + now rewrite String.eqb_refl.
    + apply String.eqb_neq in NE. now rewrite NE, IH.
Qed.

(** Without an encoder under [col] the loop body fits one on the column
    and transforms the column with it. *)
Lemma encode_column_unknown (col : string) (values : list string)
    (st : t regressor) :
  lookup col (label_encoders st) = None ->
  encode_column col (Some values) st
  = (LabelEncoder.transform (LabelEncoder.fit values) values,
     mk (model st) (update col (LabelEncoder.fit values) (label_encoders st))
        (feature_names st) (model_version st)).
Proof.
  intros H.
  unfold encode_column, bindM, has_encoder, get_encoder, set_encoder, column,
    ret, lift.
  rewrite H. cbn [label_encoders model feature_names model_version].
  rewrite update_twice, lookup_update_same. reflexivity.
Qed.

(** Without an encoder under [col] and without the column the loop
    body raises [KeyError] and leaves an encoder behind that was never
    fitted. *)
Lemma encode_column_unknown_missing (col : string) (st : t regressor) :
  lookup col (label_encoders st) = None ->
  encode_column col None st
  = (Raise (KeyError col),
     mk (model st) (update col LabelEncoder.unfitted (label_encoders st))
        (feature_names st) (model_version st)).
Proof.
  intros H.
  unfold encode_column, bindM, has_encoder, get_encoder, set_encoder, column,
    ret, raise, lift.
  rewrite H. reflexivity.
Qed.

Lemma encode_column_unfitted (col : string) (values : list string)
    (st : t regressor) :
  lookup col (label_encoders st) = Some LabelEncoder.unfitted ->
  encode_column col (Some values) st
  = (Raise (NotFittedError "This LabelEncoder instance is not fitted yet"),
     st).
Proof.
  intros H.
  unfold encode_column, bindM, has_encoder, get_encoder, column, ret, lift.
  rewrite H. cbn iota. rewrite H. reflexivity.
Qed.

Lemma frame_of_values_nonempty (rows : list ProjectValues) :
  rows <> [] ->
  frame_of_values rows
  = mkDataFrame (List.length rows)
      (Some (map v_total_area_sqm rows)) (Some (map v_complexity rows))
      (Some (map v_wood_type rows)) (Some (map v_project_type rows))
      (Some (map v_region rows)) (Some (map v_final_price rows))
      (Some (map v_project_date rows)).
Proof. destruct rows; [congruence | reflexivity]. Qed.

(** The column names of a frame with the temporal columns. *)
Lemma nine_columns : forall X : Features,
  months_old X <> None ->
  columns X
  = ["total_area_sqm"; "complexity"; "wood_type_encoded";
     "project_type_encoded"; "region_encoded"; "wood_area_interaction";
     "complexity_area_interaction"; "months_old"; "is_recent"].
Proof.
  intros X H. unfold columns. destruct (months_old X); [reflexivity|congruence].
Qed.

(** [prepare_features] on the frame of at least one training row and
    without encoders: nothing raises, the three encoders are fitted on
    the columns and nine feature names are recorded. *)
Lemma prepare_training_frame (now : Z) (rows : list ProjectValues)
    (st : t regressor) :
  label_encoders st = [] -> rows <> [] ->
  exists X,
    prepare_features now (frame_of_values rows) st
    = (Ok X,
       mk (model st)
          [("wood_type", LabelEncoder.fit (map v_wood_type rows));
           ("project_type", LabelEncoder.fit (map v_project_type rows));
           ("region", LabelEncoder.fit (map v_region rows))]
          (columns X) (model_version st)) /\
    List.length (columns X) = 9%nat.
Proof.
  intros Hfresh Hrows. destruct st as [m0 encs names ver].
  cbn in Hfresh. subst encs.
  rewrite frame_of_values_nonempty by exact Hrows.
  unfold prepare_features.
  cbn [col_total_area_sqm col_complexity col_wood_type col_project_type
       col_region col_project_date column].
  unfold bindM, ret.
  rewrite encode_column_unknown by reflexivity.
  destruct (EncoderFacts.fit_then_transform (map v_wood_type rows))
    as (lw & -> & _).
  cbn [label_encoders model feature_names model_version update].
  rewrite encode_column_unknown by reflexivity.
  destruct (EncoderFacts.fit_then_transform (map v_project_type rows))
    as (lp & -> & _).
  cbn [label_encoders model feature_names model_version update String.eqb
       Ascii.eqb Bool.eqb].
  rewrite encode_column_unknown by reflexivity.
  destruct (EncoderFacts.fit_then_transform (map v_region rows))
    as (lr & -> & _).
  cbn [label_encoders model feature_names model_version update String.eqb
       Ascii.eqb Bool.eqb set_feature_names fst snd].
  eexists. split; reflexivity.
Qed.

(** [train] on a predictor without encoders and with at least 30 rows:
    the state it leaves, whether the libraries return or raise. *)
Lemma train_fresh_state (now : Z) (rows : list ProjectValues) (test_size : Q)
    (st : t regressor) :
  label_encoders st = [] -> (30 <= List.length rows)%nat ->
  exists model' names outcome,
    train xgb_new xgb_fit xgb_predict train_test_split mape rmse now rows
      test_size st
    = (outcome,
       mk model'
          [("wood_type", LabelEncoder.fit (map v_wood_type rows));
           ("project_type", LabelEncoder.fit (map v_project_type rows));
           ("region", LabelEncoder.fit (map v_region rows))]
          names (model_version st)) /\
    List.length names = 9%nat /\
    (forall metrics,
       outcome = Ok metrics ->
       metrics_model_version metrics = model_version st /\
       exists m X_train y_train X_test y_test,
         xgb_fit xgb_new X_train y_train X_test y_test = Ok m /\
         model' = Some m) /\
    (forall e,
       outcome = Raise e ->
       ((exists X y, train_test_split X y test_size = Raise e) /\
        model' = model st) \/
       ((exists X_train y_train X_test y_test,
           xgb_fit xgb_new X_train y_train X_test y_test = Raise e) /\
        model' = Some xgb_new) \/
       (exists m X_train y_train X_test y_test,
          xgb_fit xgb_new X_train y_train X_test y_test = Ok m /\
          model' = Some m /\
          ((exists X, xgb_predict m X = Raise e) \/
           (exists y predictions, mape y predictions = Raise e) \/
           (exists y predictions, rmse y predictions = Raise e)))).
Proof.
  intros Hfresh Hn.
  assert (Hrows : rows <> []) by (intros ->; cbn in Hn; lia).
  destruct (prepare_training_frame now st Hfresh Hrows) as (X & EX & HX).
  unfold train. rewrite PredictorFacts.nrows_frame_of_values.
  destruct (Nat.ltb_spec (List.length rows) 30) as [H|_]; [lia|].
  unfold bindM at 1. rewrite EX.
  rewrite frame_of_values_nonempty by exact Hrows.
  cbn [col_final_price column].
  unfold bindM, ret, lift, set_model, get_model_version.
  cbn [label_encoders model feature_names model_version].
  destruct (train_test_split X (map v_final_price rows) test_size)
    as [[[X_train X_test] [y_train y_test]]|e0] eqn:Esplit.
  2:{ do 3 eexists. split; [reflexivity|]. split; [exact HX|].
      split; [discriminate|]. intros e [= <-]. left. eauto. }
  destruct (xgb_fit xgb_new X_train y_train X_test y_test) as [m|e0] eqn:Efit.
  2:{ do 3 eexists. split; [reflexivity|]. split; [exact HX|].
      split; [discriminate|]. intros e [= <-]. right; left. eauto 7. }
  cbn [label_encoders model feature_names model_version].
  assert (Hfit : exists m0 X_train y_train X_test y_test,
             xgb_fit xgb_new X_train y_train X_test y_test = Ok m0 /\
             Some m = Some m0) by eauto 7.
  assert (Hlater : forall e,
             (exists X, xgb_predict m X = Raise e) \/
             (exists y predictions, mape y predictions = Raise e) \/
             (exists y predictions, rmse y predictions = Raise e) ->
             exists m0 X_train y_train X_test y_test,
               xgb_fit xgb_new X_train y_train X_test y_test = Ok m0 /\
               Some m = Some m0 /\
               ((exists X, xgb_predict m0 X = Raise e) \/
                (exists y predictions, mape y predictions = Raise e) \/
                (exists y predictions, rmse y predictions = Raise e)))
    by (intros e He; exists m, X_train, y_train, X_test, y_test; auto).
  destruct (xgb_predict m X_train) as [p1|e0] eqn:Ep1.
  2:{ do 3 eexists. split; [reflexivity|]. split; [exact HX|].
      split; [discriminate|]. intros e [= <-]. right; right.
      apply Hlater. left. eauto. }
  destruct (xgb_predict m X_test) as [p2|e0] eqn:Ep2.
  2:{ do 3 eexists. split; [reflexivity|]. split; [exact HX|].
      split; [discriminate|]. intros e [= <-]. right; right.
      apply Hlater. left. eauto. }
  destruct (mape y_train p1) as [q1|e0] eqn:Em1.
  2:{ do 3 eexists. split; [reflexivity|]. split; [exact HX|].
      split; [discriminate|]. intros e [= <-]. right; right.
      apply Hlater. right; left. eauto. }
  destruct (mape y_test p2) as [q2|e0] eqn:Em2.
  2:{ do 3 eexists. split; [reflexivity|]. split; [exact HX|].
      split; [discriminate|]. intros e [= <-]. right; right.
      apply Hlater. right; left. eauto. }
  destruct (rmse y_train p1) as [q3|e0] eqn:Er1.
  2:{ do 3 eexists. split; [reflexivity|]. split; [exact HX|].
      split; [discriminate|]. intros e [= <-]. right; right.
      apply Hlater. right; right. eauto. }
  destruct (rmse y_test p2) as [q4|e0] eqn:Er2.
  2:{ do 3 eexists. split; [reflexivity|]. split; [exact HX|].
      split; [discriminate|]. intros e [= <-]. right; right.
      apply Hlater. right; right. eauto. }
  do 3 eexists. split; [reflexivity|]. split; [exact HX|].
  split; [|discriminate]. intros metrics [= <-]. split; [reflexivity|exact Hfit].
Qed.

(** [predict] on a predictor with a model and without encoders. *)
Lemma predict_fresh_state (now : Z) (d : ProjectData) (st : t regressor)
    (m : regressor) (a : Q) (c : Z) (w pt r : string) :
  model st = Some m -> label_encoders st = [] ->
  d_total_area_sqm d = Some a -> d_complexity d = Some c ->
  d_wood_type d = Some w -> d_project_type d = Some pt ->
  d_region d = Some r ->
  exists X names,
    predict xgb_predict now d st
    = (first_prediction (xgb_predict m X),
       mk (Some m)
          [("wood_type", LabelEncoder.mk (Some [w]));
           ("project_type", LabelEncoder.mk (Some [pt]));
           ("region", LabelEncoder.mk (Some [r]))]
          names (model_version st)) /\
    wood_type_encoded X = [0%Z] /\
    project_type_encoded X = [0%Z] /\
    region_encoded X = [0%Z].
Proof.
  intros Hm He Ha Hc Hw Hp Hr. destruct st as [m0 encs names ver].
  cbn in Hm, He. subst m0 encs.
  unfold predict. unfold bindM at 1. unfold get_model. cbn [model].
  unfold prepare_features, frame_of_dict.
  cbn [col_total_area_sqm col_complexity col_wood_type col_project_type
       col_region col_project_date].
  rewrite Ha, Hc, Hw, Hp, Hr. cbn [option_map column].
  unfold bindM, ret.
  assert (Hone : forall v : string,
             LabelEncoder.transform (LabelEncoder.fit [v]) [v] = Ok [0%Z]).
  { intros v. cbn. now rewrite String.eqb_refl. }
  rewrite encode_column_unknown, Hone by reflexivity.
  cbn [label_encoders model feature_names model_version update].
  rewrite encode_column_unknown, Hone by reflexivity.
  cbn [label_encoders model feature_names model_version update String.eqb
       Ascii.eqb Bool.eqb].
  rewrite encode_column_unknown, Hone by reflexivity.
  cbn [label_encoders model feature_names model_version update String.eqb
       Ascii.eqb Bool.eqb set_feature_names].
  unfold lift.
  match goal with |- context [xgb_predict m ?X] => exists X end.
  eexists. split; [reflexivity|]. repeat split.
Qed.

End Regressor.

(** [train] prepares the features before it touches the libraries, and
    nothing is rolled back.  On a predictor without encoders and with
    at least 30 rows, whether the split, the fit, the predictions and
    the metrics return or raise, the three encoders are afterwards
    fitted on the distinct values of the training columns and nine
    feature names are recorded.  When [train] returns, the fitted
    regressor is stored and the metrics carry the predictor's version.
    When it raises, the exception is one a library call raised: after a
    raise of the split the old model is still there, after a raise of
    [fit] the new, unfitted regressor has taken its place, and after a
    raise of a prediction or a metric the fitted regressor is stored
    although [train] failed. *)
Theorem train_fits_encoders_whatever_the_libraries_do
    (regressor : Type) (xgb_new : regressor)
    (xgb_fit :
       regressor -> Features -> list Q -> Features -> list Q -> res regressor)
    (xgb_predict : regressor -> Features -> res (list Q))
    (train_test_split :
       Features -> list Q -> Q
       -> res ((Features * Features) * (list Q * list Q)))
    (mape rmse : list Q -> list Q -> res Q)
    (now : Z) (rows : list ProjectValues) (test_size : Q)
    (st : t regressor) :
  label_encoders st = [] -> (30 <= List.length rows)%nat ->
  let out :=
    train xgb_new xgb_fit xgb_predict train_test_split mape rmse now rows
      test_size st in
  fitted_with "wood_type" (LabelEncoder.unique (map v_wood_type rows))
    (snd out) /\
  fitted_with "project_type" (LabelEncoder.unique (map v_project_type rows))
    (snd out) /\
  fitted_with "region" (LabelEncoder.unique (map v_region rows)) (snd out) /\
  List.length (feature_names (snd out)) = 9%nat /\
  model_version (snd out) = model_version st /\
  (forall metrics,
     fst out = Ok metrics ->
     metrics_model_version metrics = model_version st /\
     exists m X_train y_train X_test y_test,
       xgb_fit xgb_new X_train y_train X_test y_test = Ok m /\
       model (snd out) = Some m) /\
  (forall e,
     fst out = Raise e ->
     ((exists X y, train_test_split X y test_size = Raise e) /\
      model (snd out) = model st) \/
     ((exists X_train y_train X_test y_test,
         xgb_fit xgb_new X_train y_train X_test y_test = Raise e) /\
      model (snd out) = Some xgb_new) \/
     (exists m X_train y_train X_test y_test,
        xgb_fit xgb_new X_train y_train X_test y_test = Ok m /\
        model (snd out) = Some m /\
        ((exists X, xgb_predict m X = Raise e) \/
         (exists y predictions, mape y predictions = Raise e) \/
         (exists y predictions, rmse y predictions = Raise e)))).
Proof.
  intros Hf Hn out.
  destruct (train_fresh_state xgb_new xgb_fit xgb_predict train_test_split
              mape rmse now rows test_size st Hf Hn)
    as (model' & names & outcome & E & Hl & Hok & Hraise).
  subst out. rewrite E.
  cbn [fst snd model label_encoders feature_names model_version].
  do 3 (split; [reflexivity|]). split; [exact Hl|]. split; [reflexivity|].
  split; [exact Hok | exact Hraise].
Qed.

Lemma train_fits_encoders_whatever_the_libraries_do_witness :
  fst (train tt Samples.refusing_fit Scenario.flat_predict Scenario.whole_split
         Scenario.zero_metric Scenario.zero_metric 0 Scenario.thirty_projects
         default_test_size (init unit))
  = Raise (ValueError "DataFrame.dtypes for data must be int, float or bool") /\
  fitted_with "wood_type" ["Eiche"; "Kiefer"]
    (snd (train tt Samples.refusing_fit Scenario.flat_predict
            Scenario.whole_split Scenario.zero_metric Scenario.zero_metric 0
            Scenario.thirty_projects default_test_size (init unit))) /\
  List.length
    (feature_names
       (snd (train tt Samples.refusing_fit Scenario.flat_predict
               Scenario.whole_split Scenario.zero_metric Scenario.zero_metric
               0 Scenario.thirty_projects default_test_size (init unit))))
  = 9%nat /\
  model (snd (train tt Samples.refusing_fit Scenario.flat_predict
                Scenario.whole_split Scenario.zero_metric Scenario.zero_metric
                0 Scenario.thirty_projects default_test_size (init unit)))
  = Some tt.
Proof.
  assert (Hn : (30 <= List.length Scenario.thirty_projects)%nat)
    by (vm_compute; lia).
  destruct (@train_fits_encoders_whatever_the_libraries_do unit tt
              Samples.refusing_fit Scenario.flat_predict Scenario.whole_split
              Scenario.zero_metric Scenario.zero_metric 0
              Scenario.thirty_projects default_test_size (init unit)
              eq_refl Hn)
    as (Hw & _ & _ & Hl & _).
  split; [reflexivity|]. split; [exact Hw|]. split; [exact Hl | reflexivity].
Defined.

(** Training and predicting compose in the encoders.  After [train] on
    a predictor without encoders and with at least 30 rows, a [predict]
    on the stored model for an input whose wood type, project type and
    region occur in the training rows raises nothing before the model
    is asked: every category is encoded as its position among the
    sorted distinct training values, and the outcome is the first
    prediction of the model or the exception of the model.  The frame
    handed to the model has nine columns if the input has a project
    date and seven if not, while [train] recorded nine feature names;
    [predict] overwrites the recorded names with those of its frame. *)
Theorem train_then_predict_known_categories
    (regressor : Type) (xgb_new : regressor)
    (xgb_fit :
       regressor -> Features -> list Q -> Features -> list Q -> res regressor)
    (xgb_predict : regressor -> Features -> res (list Q))
    (train_test_split :
       Features -> list Q -> Q
       -> res ((Features * Features) * (list Q * list Q)))
    (mape rmse : list Q -> list Q -> res Q)
    (now now' : Z) (rows : list ProjectValues) (test_size : Q)
    (st : t regressor) (d : ProjectData) (a : Q) (c : Z) (w pt r : string)
    (m : regressor) :
  label_encoders st = [] -> (30 <= List.length rows)%nat ->
  d_total_area_sqm d = Some a -> d_complexity d = Some c ->
  d_wood_type d = Some w -> d_project_type d = Some pt ->
  d_region d = Some r ->
  In w (map v_wood_type rows) -> In pt (map v_project_type rows) ->
  In r (map v_region rows) ->
  let st' :=
    snd (train xgb_new xgb_fit xgb_predict train_test_split mape rmse now rows
           test_size st) in
  model st' = Some m ->
  exists X iw ip ir,
    fst (predict xgb_predict now' d st')
    = first_prediction (xgb_predict m X) /\
    wood_type_encoded X = [iw] /\
    project_type_encoded X = [ip] /\
    region_encoded X = [ir] /\
    nth_error (LabelEncoder.unique (map v_wood_type rows)) (Z.to_nat iw)
    = Some w /\
    nth_error (LabelEncoder.unique (map v_project_type rows)) (Z.to_nat ip)
    = Some pt /\
    nth_error (LabelEncoder.unique (map v_region rows)) (Z.to_nat ir)
    = Some r /\
    List.length (feature_names st') = 9%nat /\
    List.length (columns X)
    = match d_project_date d with Some _ => 9%nat | None => 7%nat end /\
    feature_names (snd (predict xgb_predict now' d st')) = columns X.
Proof.
  intros Hf Hn Ha Hc Hw Hp Hr Iw Ip Ir st' Hm.
  destruct (train_fresh_state xgb_new xgb_fit xgb_predict train_test_split
              mape rmse now rows test_size st Hf Hn)
    as (model' & names & outcome & E & Hl & _).
  assert (E' : st' = snd (outcome,
                  mk model'
                    [("wood_type", LabelEncoder.fit (map v_wood_type rows));
                     ("project_type",
                      LabelEncoder.fit (map v_project_type rows));
                     ("region", LabelEncoder.fit (map v_region rows))]
                    names (model_version st)))
    by (subst st'; now rewrite E).
  cbn [snd] in E'. clear E. rename E' into E.
  apply EncoderFacts.unique_In, EncoderFacts.index_of_In in Iw, Ip, Ir.
  destruct Iw as [iw Iw], Ip as [ip Ip], Ir as [ir Ir].
  assert (Fw : fitted_with "wood_type"
                 (LabelEncoder.unique (map v_wood_type rows)) st')
    by (rewrite E; reflexivity).
  assert (Fp : fitted_with "project_type"
                 (LabelEncoder.unique (map v_project_type rows)) st')
    by (rewrite E; reflexivity).
  assert (Fr : fitted_with "region"
                 (LabelEncoder.unique (map v_region rows)) st')
    by (rewrite E; reflexivity).
  destruct (@PredictorFacts.predict_seen regressor xgb_predict now' d st' m
              _ _ _ a c w pt r Hm Fw Fp Fr Ha Hc Hw Hp Hr
              iw ip ir Iw Ip Ir) as (X & HX & Ew & Ep & Er & Hcols).
  exists X, iw, ip, ir. rewrite HX. cbn [fst snd feature_names].
  repeat split; try assumption.
  - now apply EncoderFacts.index_of_nth.
  - now apply EncoderFacts.index_of_nth.
  - now apply EncoderFacts.index_of_nth.
  - rewrite E. exact Hl.
Qed.

Lemma train_then_predict_known_categories_witness :
  exists X iw,
    fst (predict Scenario.flat_predict 0 Scenario.seen_wood_type
           Scenario.trained_predictor)
    = first_prediction (Scenario.flat_predict tt X) /\
    wood_type_encoded X = [iw] /\
    nth_error ["Eiche"; "Kiefer"] (Z.to_nat iw) = Some "Eiche" /\
    List.length (feature_names Scenario.trained_predictor) = 9%nat /\
    List.length (columns X) = 7%nat.
Proof.
  assert (Hn : (30 <= List.length Scenario.thirty_projects)%nat)
    by (vm_compute; lia).
  destruct (@train_then_predict_known_categories unit tt Scenario.flat_fit
              Scenario.flat_predict Scenario.whole_split Scenario.zero_metric
              Scenario.zero_metric 0 0 Scenario.thirty_projects
              default_test_size (init unit) Scenario.seen_wood_type
              20%Q 2%Z "Eiche" "Treppenbau" "Nord" tt
              eq_refl Hn eq_refl eq_refl eq_refl eq_refl eq_refl
              (or_introl eq_refl) (or_introl eq_refl) (or_introl eq_refl)
              eq_refl)
    as (X & iw & ip & ir & E & Ew & _ & _ & Hw & _ & _ & Hl & Hc & _).
  exists X, iw. split; [exact E|]. split; [exact Ew|].
  split; [exact Hw|]. split; [exact Hl | exact Hc].
Defined.

(** [train] does not refit an encoder the predictor already has: when
    the wood type of one training row is not among the classes of the
    existing encoder, training raises [ValueError] and leaves the
    predictor, its old model included, as it was. *)
Theorem retrain_with_new_category_raises
    (regressor : Type) (xgb_new : regressor)
    (xgb_fit :
       regressor -> Features -> list Q -> Features -> list Q -> res regressor)
    (xgb_predict : regressor -> Features -> res (list Q))
    (train_test_split :
       Features -> list Q -> Q
       -> res ((Features * Features) * (list Q * list Q)))
    (mape rmse : list Q -> list Q -> res Q)
    (now : Z) (rows : list ProjectValues) (test_size : Q)
    (st : t regressor) (cw : list string) (row : ProjectValues) :
  fitted_with "wood_type" cw st -> (30 <= List.length rows)%nat ->
  In row rows -> LabelEncoder.index_of (v_wood_type row) cw = None ->
  train xgb_new xgb_fit xgb_predict train_test_split mape rmse now rows
    test_size st
  = (Raise (ValueError "y contains previously unseen labels"), st).
Proof.
  intros Hw Hn Hin Hu.
  unfold train. rewrite PredictorFacts.nrows_frame_of_values.
  destruct (Nat.ltb_spec (List.length rows) 30) as [H|_]; [lia|].
  rewrite frame_of_values_nonempty by (intros ->; contradiction).
  unfold prepare_features.
  cbn [col_total_area_sqm col_complexity col_wood_type col_project_type
       col_region col_project_date column].
  unfold bindM, ret.
  rewrite (PredictorFacts.encode_column_fitted _ Hw).
  rewrite (@EncoderFacts.transform_values_unseen cw _ (v_wood_type row));
    [reflexivity | now apply in_map | exact Hu].
Qed.

Lemma retrain_with_new_category_raises_witness :
  Scenario.flat_train 0
    (repeat (mkProjectValues 20 "Mahagoni" "Treppenbau" "Nord" 2 9000 0) 30)
    Scenario.trained_predictor
  = (Raise (ValueError "y contains previously unseen labels"),
     Scenario.trained_predictor).
Proof.
  apply (@retrain_with_new_category_raises unit tt Scenario.flat_fit
           Scenario.flat_predict Scenario.whole_split Scenario.zero_metric
           Scenario.zero_metric 0 _ default_test_size
           Scenario.trained_predictor ["Eiche"; "Kiefer"]
           (mkProjectValues 20 "Mahagoni" "Treppenbau" "Nord" 2 9000 0)).
  - reflexivity.
  - vm_compute. lia.
  - left. reflexivity.
  - reflexivity.
Defined.

(** A [predict] call whose input lacks the wood type, on a predictor
    that has no wood type encoder yet, raises [KeyError] and leaves an
    encoder behind that was never fitted: from then on every [predict]
    call, also one with a complete input, raises [NotFittedError]. *)
Theorem missing_key_leaves_unfitted_encoder
    (regressor : Type) (xgb_predict : regressor -> Features -> res (list Q))
    (now : Z) (d : ProjectData) (st : t regressor) (m : regressor)
    (a : Q) (c : Z) :
  model st = Some m ->
  lookup "wood_type" (label_encoders st) = None ->
  d_total_area_sqm d = Some a -> d_complexity d = Some c ->
  d_wood_type d = None ->
  exists st1,
    predict xgb_predict now d st = (Raise (KeyError "wood_type"), st1) /\
    forall now2 d2 a2 c2 w2,
      d_total_area_sqm d2 = Some a2 -> d_complexity d2 = Some c2 ->
      d_wood_type d2 = Some w2 ->
      predict xgb_predict now2 d2 st1
      = (Raise (NotFittedError "This LabelEncoder instance is not fitted yet"),
         st1).
Proof.
  intros Hm Hl Ha Hc Hw.
  eexists. split.
  - unfold predict. unfold bindM at 1. unfold get_model. rewrite Hm.
    unfold prepare_features, frame_of_dict.
    cbn [col_total_area_sqm col_complexity col_wood_type col_project_type
         col_region col_project_date].
    rewrite Ha, Hc, Hw. cbn [option_map column].
    unfold bindM, ret.
    rewrite encode_column_unknown_missing by exact Hl. reflexivity.
  - intros now2 d2 a2 c2 w2 Ha2 Hc2 Hw2.
    unfold predict. unfold bindM at 1. unfold get_model. cbn [model].
    rewrite Hm.
    unfold prepare_features, frame_of_dict.
    cbn [col_total_area_sqm col_complexity col_wood_type col_project_type
         col_region col_project_date].
    rewrite Ha2, Hc2, Hw2. cbn [option_map column].
    unfold bindM, ret.
    rewrite encode_column_unfitted; [reflexivity|].
    cbn [label_encoders]. apply lookup_update_same.
Qed.

Lemma missing_key_leaves_unfitted_encoder_witness :
  exists st1,
    predict Scenario.flat_predict 0
      (mkProjectData (Some 20) (Some 2%Z) None (Some "Treppenbau")
         (Some "Nord") None)
      (mk (Some tt) [] [] "v1.0.0")
    = (Raise (KeyError "wood_type"), st1) /\
    predict Scenario.flat_predict 0 Scenario.seen_wood_type st1
    = (Raise (NotFittedError "This LabelEncoder instance is not fitted yet"),
       st1).
Proof.
  destruct (@missing_key_leaves_unfitted_encoder unit Scenario.flat_predict 0
              (mkProjectData (Some 20) (Some 2%Z) None (Some "Treppenbau")
                 (Some "Nord") None)
              (mk (Some tt) [] [] "v1.0.0") tt 20 2%Z
              eq_refl eq_refl eq_refl eq_refl eq_refl) as (st1 & E & H).
  exists st1. split; [exact E|].
  apply (H 0%Z Scenario.seen_wood_type 20 2%Z "Eiche"); reflexivity.
Defined.

(** [predict] on a predictor that has a model but no encoders (never
    trained in this object, or loaded from a bundle without them) fits
    the encoders on the input itself: every category is encoded as 0
    and no value is unseen.  The encoders stay: a later input with
    another wood type raises [ValueError]. *)
Theorem predict_without_encoders_fits_on_input
    (regressor : Type) (xgb_predict : regressor -> Features -> res (list Q))
    (now : Z) (d : ProjectData) (st : t regressor) (m : regressor)
    (a : Q) (c : Z) (w pt r : string) :
  model st = Some m -> label_encoders st = [] ->
  d_total_area_sqm d = Some a -> d_complexity d = Some c ->
  d_wood_type d = Some w -> d_project_type d = Some pt ->
  d_region d = Some r ->
  exists X,
    fst (predict xgb_predict now d st)
    = first_prediction (xgb_predict m X) /\
    wood_type_encoded X = [0%Z] /\
    project_type_encoded X = [0%Z] /\
    region_encoded X = [0%Z] /\
    fitted_with "wood_type" [w] (snd (predict xgb_predict now d st)) /\
    forall now2 d2 a2 c2 w2,
      d_total_area_sqm d2 = Some a2 -> d_complexity d2 = Some c2 ->
      d_wood_type d2 = Some w2 -> d_project_type d2 = Some pt ->
      d_region d2 = Some r -> w2 <> w ->
      fst (predict xgb_predict now2 d2 (snd (predict xgb_predict now d st)))
      = Raise (ValueError "y contains previously unseen labels").
Proof.
  intros Hm He Ha Hc Hw Hp Hr.
  destruct (predict_fresh_state xgb_predict now d st Hm He Ha Hc Hw Hp Hr)
    as (X & names & E & Ew & Ep & Er).
  exists X. rewrite E. cbn [fst snd].
  repeat split; try assumption; try reflexivity.
  intros now2 d2 a2 c2 w2 Ha2 Hc2 Hw2 Hp2 Hr2 NE.
  erewrite PredictorFacts.predict_unseen; try eassumption;
    try reflexivity.
  left. cbn. apply String.eqb_neq in NE. now rewrite NE.
Qed.

Lemma predict_without_encoders_fits_on_input_witness :
  exists X,
    fst (predict Scenario.flat_predict 0 Scenario.unseen_wood_type
           (mk (Some tt) [] [] "v1.0.0"))
    = first_prediction (Scenario.flat_predict tt X) /\
    wood_type_encoded X = [0%Z].
Proof.
  destruct (@predict_without_encoders_fits_on_input unit Scenario.flat_predict
              0 Scenario.unseen_wood_type (mk (Some tt) [] [] "v1.0.0") tt
              20 2%Z "Mahagoni" "Treppenbau" "Nord"
              eq_refl eq_refl eq_refl eq_refl eq_refl eq_refl eq_refl)
    as (X & E & Ew & _).
  exists X. split; [exact E | exact Ew].
Defined.

End PredictorMore.

(* ================================================================== *)
(** * The data-quality score                                           *)
(* ================================================================== *)

Module DataQualityFacts.
Import DataQuality.
Local Open Scope R_scope.

Lemma filled_fields_le_6 (d : ProjectData) : (filled_fields d <= 6)%nat.
Proof.
  unfold filled_fields.
  etransitivity; [apply filter_length_le|]. reflexivity.
Qed.

Lemma base_score_range (d : ProjectData) :
  0 <= INR (filled_fields d) / INR (List.length (required_fields d)) <= 1.
Proof.
  cbn [required_fields List.length].
  pose proof (filled_fields_le_6 d) as H. apply le_INR in H.
  pose proof (pos_INR (filled_fields d)).
  replace (INR 6) with 6 in * by (simpl; lra). lra.
Qed.

Lemma description_bonus_range (n : nat) : 0 <= Rmin (INR n / 100) 0.2 <= 0.2.
Proof.
  pose proof (pos_INR n). split; [|apply Rmin_r].
  apply Rmin_glb; lra.
Qed.

Lemma area_bonus_range (d : ProjectData) (bonus : R) :
  area_bonus d = PyExt.Ok bonus -> 0 <= bonus <= 0.1.
Proof.
  unfold area_bonus.
  destruct (total_area_sqm d) as [[| |x]|]; try discriminate.
  - destruct (Rle_dec 5 x); [destruct (Rle_dec x 500)|];
      intros [= <-]; lra.
  - intros [= <-]. lra.
Qed.

Lemma round_one : Py.round 1 3 = 1.
Proof. rewrite (@RoundFacts.round3_near 1000); lra. Qed.

Lemma complete_score
    (str_of_number : R -> string) (d : ProjectData) (area : R) :
  forallb filled (required_fields d) = true ->
  total_area_sqm d = Some (VNum area) ->
  calculate_data_quality str_of_number d = PyExt.Ok 1.
Proof.
  intros Hall Ha.
  assert (Hf : filled_fields d = 6%nat).
  { unfold filled_fields. rewrite forallb_filter_id by exact Hall.
    reflexivity. }
  assert (Hb : exists bonus, area_bonus d = PyExt.Ok bonus /\ 0 <= bonus).
  { unfold area_bonus. rewrite Ha.
    destruct (Rle_dec 5 area); [destruct (Rle_dec area 500)|];
      eexists; (split; [reflexivity | lra]). }
  destruct Hb as (bonus & Hb & Hpos).
  unfold calculate_data_quality. rewrite Hb, Hf.
  cbn [required_fields List.length].
  pose proof (description_bonus_range
                (String.length (description_text str_of_number d))).
  rewrite Rmin_left; [now rewrite round_one|].
  replace (INR 6) with 6 by (simpl; lra). lra.
Qed.

(** Whenever the score is returned it lies in the unit interval,
    however long the description is. *)
Theorem data_quality_in_unit_interval
    (str_of_number : R -> string) (d : ProjectData) (score : R) :
  calculate_data_quality str_of_number d = PyExt.Ok score ->
  0 <= score <= 1.
Proof.
  unfold calculate_data_quality.
  destruct (area_bonus d) as [bonus|e] eqn:Eb; [|discriminate].
  set (total := Rmin 1 _).
  assert (Ht : 0 <= total <= 1).
  { pose proof (base_score_range d).
    pose proof (description_bonus_range
                  (String.length (description_text str_of_number d))).
    pose proof (area_bonus_range _ Eb).
    unfold total. split; [apply Rmin_glb; lra | apply Rmin_l]. }
  intros [= <-].
  pose proof (@RoundFacts.round3_between 0 1000 total) as Hr. lra.
Qed.

Lemma data_quality_in_unit_interval_witness : 0 <= 1 <= 1.
Proof.
  apply (@data_quality_in_unit_interval Samples.str_of_number
           Samples.complete_data 1).
  apply (@complete_score Samples.str_of_number Samples.complete_data 20);
    reflexivity.
Defined.

(** With all six fields filled and a numeric area the score is exactly
    1, whatever the description length and the area are. *)
Theorem data_quality_complete
    (str_of_number : R -> string) (d : ProjectData) (area : R) :
  forallb filled (required_fields d) = true ->
  total_area_sqm d = Some (VNum area) ->
  calculate_data_quality str_of_number d = PyExt.Ok 1.
Proof. apply complete_score. Qed.

Lemma data_quality_complete_witness :
  calculate_data_quality Samples.str_of_number Samples.complete_data
  = PyExt.Ok 1.
Proof.
  apply (@data_quality_complete Samples.str_of_number Samples.complete_data
           20); reflexivity.
Defined.

(** The score raises [TypeError] exactly when the area key is present
    with a value that is not a number ([None] or a string); an absent
    area key does not raise. *)
Theorem data_quality_raises_iff
    (str_of_number : R -> string) (d : ProjectData) :
  ((exists e, calculate_data_quality str_of_number d = PyExt.Raise e) <->
   (total_area_sqm d = Some VNone \/
    exists s, total_area_sqm d = Some (VStr s))) /\
  (forall e,
     calculate_data_quality str_of_number d = PyExt.Raise e ->
     exists msg, e = PyExt.TypeError msg).
Proof.
  unfold calculate_data_quality, area_bonus.
  destruct (total_area_sqm d) as [[|s|x]|]; (split; [split|]).
  - intros _. now left.
  - intros _. eexists; reflexivity.
  - intros e [= <-]. eexists; reflexivity.
  - intros _. right. now exists s.
  - intros _. eexists; reflexivity.
  - intros e [= <-]. eexists; reflexivity.
  - destruct (Rle_dec 5 x); [destruct (Rle_dec x 500)|];
      intros [e H]; discriminate.
  - intros [H|[s H]]; discriminate.
  - destruct (Rle_dec 5 x); [destruct (Rle_dec x 500)|];
      intros e H; discriminate.
  - intros [e H]; discriminate.
  - intros [H|[s H]]; discriminate.
  - intros e H; discriminate.
Qed.

Lemma data_quality_raises_iff_witness :
  exists e,
    calculate_data_quality Samples.str_of_number Samples.null_area_data
    = PyExt.Raise e.
Proof.
  apply (proj2 (proj1 (data_quality_raises_iff Samples.str_of_number
                         Samples.null_area_data))).
  left. reflexivity.
Defined.

End DataQualityFacts.

(* ================================================================== *)
(** * Saving and loading the predictor                                 *)
(* ================================================================== *)

Module PersistenceFacts.
Import Persistence.





End PersistenceFacts.

(* ================================================================== *)
(** * The vector store                                                 *)
(* ================================================================== *)

Module VectorStoreFacts.
Import VectorStore.

Lemma retrieve_upsert (point : Point) (c : list Point) :
  retrieve (id point) (upsert point c) = Some point.
Proof.
  induction c as [|p c IH]; cbn [upsert retrieve].
  - now rewrite Z.eqb_refl.
  - destruct (id p =? id point)%Z eqn:E; cbn [retrieve].
    + now rewrite Z.eqb_refl.
    + now rewrite E.
Qed.

Lemma retrieve_upsert_id (i : Z) (point : Point) (c : list Point) :
  id point = i -> retrieve i (upsert point c) = Some point.
Proof. intros <-. apply retrieve_upsert. Qed.

Lemma retrieve_delete (i : Z) (c : list Point) :
  retrieve i (delete i c) = None.
Proof.
  induction c as [|p c IH]; cbn [delete filter retrieve]; [reflexivity|].
  destruct (id p =? i)%Z eqn:E; cbn [negb]; [exact IH|].
  cbn [retrieve]. now rewrite E.
Qed.

Lemma upsert_length_present (point : Point) (c : list Point) :
  retrieve (id point) c <> None ->
  List.length (upsert point c) = List.length c.
Proof.
  induction c as [|p c IH]; cbn [upsert retrieve]; [congruence|].
  destruct (id p =? id point)%Z; intros H; cbn [List.length];
    [reflexivity | now rewrite IH].
Qed.

(** The client's upsert of a vector of the collection's size. *)
Lemma client_upsert_fits (point : Point) (c : Collection) :
  List.length (vector point) = size c ->
  client_upsert point c
  = Some (mkCollection (size c) (upsert point (points c))).
Proof. intros H. unfold client_upsert. now rewrite H, Nat.eqb_refl. Qed.

(** On an initialised client and for a project id that parses as a
    UUID: an embedding of the collection's vector size is stored, with
    the project id in the payload, under a point id between 0 and
    2^31 - 1, and [upsert_vector] returns [True]; [delete_vector] for
    the same project id then returns [True] and the point is gone.  For
    an embedding of another size the refusal of the server is caught:
    [upsert_vector] returns [False] and the collection stays as it
    was. *)
Theorem upsert_then_delete
    (uuid_int : string -> option Z) (c : Collection) (project : string)
    (embedding : list R) (metadata : Metadata) (u : Z) :
  uuid_int project = Some u ->
  (List.length embedding = size c ->
   exists point_id c1 c2 point,
     (0 <= point_id < 2 ^ 31)%Z /\
     upsert_vector uuid_int (Some c) project embedding metadata
     = (true, Some c1) /\
     retrieve point_id (points c1) = Some point /\
     vector point = embedding /\
     project_id (payload point) = project /\
     delete_vector uuid_int (Some c1) project = (true, Some c2) /\
     retrieve point_id (points c2) = None) /\
  (List.length embedding <> size c ->
   upsert_vector uuid_int (Some c) project embedding metadata
   = (false, Some c)).
Proof.
  intros Hu. split.
  - intros Hl. unfold upsert_vector, delete_vector, point_id_of.
    rewrite Hu. cbn [option_map].
    match goal with |- context [client_upsert ?p c] => set (point := p) end.
    rewrite (client_upsert_fits point c Hl).
    exists (u mod 2 ^ 31)%Z, (mkCollection (size c) (upsert point (points c))),
      (client_delete (u mod 2 ^ 31)%Z
         (mkCollection (size c) (upsert point (points c)))), point.
    split; [apply Z.mod_pos_bound; lia|].
    split; [reflexivity|].
    split; [now apply retrieve_upsert_id|].
    repeat split. apply retrieve_delete.
  - intros Hl. unfold upsert_vector, point_id_of, client_upsert.
    rewrite Hu. cbn [option_map vector].
    apply Nat.eqb_neq in Hl. now rewrite Hl.
Qed.

Lemma upsert_then_delete_witness :
  (exists point_id c1 c2 point,
     (0 <= point_id < 2 ^ 31)%Z /\
     upsert_vector Samples.uuid_int
       (Some (mkCollection default_vector_size [])) Samples.first_project
       (repeat 1%R 768) Samples.no_metadata = (true, Some c1) /\
     retrieve point_id (points c1) = Some point /\
     vector point = repeat 1%R 768 /\
     project_id (payload point) = Samples.first_project /\
     delete_vector Samples.uuid_int (Some c1) Samples.first_project
     = (true, Some c2) /\
     retrieve point_id (points c2) = None) /\
  upsert_vector Samples.uuid_int (Some (mkCollection default_vector_size []))
    Samples.first_project (repeat 1%R 384) Samples.no_metadata
  = (false, Some (mkCollection default_vector_size [])).
Proof.
  split.
  - apply (proj1 (@upsert_then_delete Samples.uuid_int
                    (mkCollection default_vector_size [])
                    Samples.first_project (repeat 1%R 768)
                    Samples.no_metadata 5 eq_refl)).
    reflexivity.
  - apply (proj2 (@upsert_then_delete Samples.uuid_int
                    (mkCollection default_vector_size [])
                    Samples.first_project (repeat 1%R 384)
                    Samples.no_metadata 5 eq_refl)).
    rewrite repeat_length. discriminate.
Defined.

(** Point ids are the UUID modulo 2^31, so two projects whose UUIDs
    agree modulo 2^31 share a point.  With two embeddings of the
    collection's vector size, the second upsert replaces the first
    project's vector (the collection does not grow), and what is
    retrieved under the shared id belongs to the second project. *)
Theorem colliding_ids_overwrite
    (uuid_int : string -> option Z) (c : Collection)
    (project1 project2 : string) (e1 e2 : list R) (m1 m2 : Metadata)
    (u1 u2 : Z) :
  uuid_int project1 = Some u1 -> uuid_int project2 = Some u2 ->
  (u1 mod 2 ^ 31 = u2 mod 2 ^ 31)%Z ->
  List.length e1 = size c -> List.length e2 = size c ->
  exists c1 c2 point,
    upsert_vector uuid_int (Some c) project1 e1 m1 = (true, Some c1) /\
    upsert_vector uuid_int (Some c1) project2 e2 m2 = (true, Some c2) /\
    List.length (points c2) = List.length (points c1) /\
    retrieve (u1 mod 2 ^ 31)%Z (points c2) = Some point /\
    vector point = e2 /\
    project_id (payload point) = project2.
Proof.
  intros H1 H2 E L1 L2.
  do 3 eexists.
  split.
  { unfold upsert_vector, point_id_of. rewrite H1. cbn [option_map].
    rewrite client_upsert_fits by exact L1. reflexivity. }
  split.
  { unfold upsert_vector, point_id_of. rewrite H2. cbn [option_map].
    rewrite client_upsert_fits by exact L2. reflexivity. }
  cbn [points size]. split; [|split; [|split]].
  - apply upsert_length_present. cbn [id].
    rewrite retrieve_upsert_id by (cbn [id]; congruence). discriminate.
  - apply retrieve_upsert_id. cbn [id]. congruence.
  - reflexivity.
  - reflexivity.
Qed.

Lemma colliding_ids_overwrite_witness :
  exists c1 c2 point,
    upsert_vector Samples.uuid_int
      (Some (mkCollection default_vector_size [])) Samples.first_project
      (repeat 1%R 768) Samples.no_metadata = (true, Some c1) /\
    upsert_vector Samples.uuid_int (Some c1) Samples.second_project
      (repeat 2%R 768) Samples.no_metadata = (true, Some c2) /\
    List.length (points c2) = List.length (points c1) /\
    retrieve (5 mod 2 ^ 31)%Z (points c2) = Some point /\
    vector point = repeat 2%R 768 /\
    project_id (payload point) = Samples.second_project.
Proof.
  apply (@colliding_ids_overwrite Samples.uuid_int
           (mkCollection default_vector_size [])
           Samples.first_project Samples.second_project
           (repeat 1%R 768) (repeat 2%R 768)
           Samples.no_metadata Samples.no_metadata 5 2147483653);
    reflexivity.
Defined.

End VectorStoreFacts.

(* ================================================================== *)
(** * The comparison of the two embedding models                       *)
(* ================================================================== *)

Module ComparisonFacts.
Import EmbeddingGenerator EmbeddingService768.

Lemma embed_text_length (encode : string -> res Embedding) (txt : string) :
  (forall v, encode txt = Ok v -> List.length v = 384%nat) ->
  List.length (EmbeddingService.embed_text encode txt) = 384%nat.
Proof.
  intros H. unfold EmbeddingService.embed_text.
  destruct (Py.is_blank txt); [apply repeat_length|].
  destruct (encode txt) as [v|]; [now apply H | apply repeat_length].
Qed.

Lemma embed_text_768d_length (encode_768d : string -> res Embedding)
    (txt : string) :
  (forall v, encode_768d txt = Ok v -> List.length v = 768%nat) ->
  List.length (embed_text_768d encode_768d txt) = 768%nat.
Proof.
  intros H. unfold embed_text_768d.
  destruct (Py.is_blank txt); [apply repeat_length|].
  destruct (encode_768d txt) as [v|]; [now apply H | apply repeat_length].
Qed.

Lemma compare_other_length (encode encode_768d : string -> res Embedding)
    (txt : string) :
  List.length (EmbeddingService.embed_text encode txt)
  <> List.length (embed_text_768d encode_768d txt) ->
  compare_embedding_models encode encode_768d txt = None.
Proof.
  intros NE. unfold compare_embedding_models, normalized_dot.
  apply Nat.eqb_neq in NE. now rewrite NE.
Qed.

(** The comparison multiplies a 384-d vector with a 768-d vector, which
    [np.dot] refuses: whenever the two models return vectors of their
    declared dimensions, and always for a blank text, the function ends
    in its [except] branch and returns the empty dict. *)
Theorem compare_embedding_models_returns_nothing
    (encode encode_768d : string -> res Embedding) (txt : string) :
  (Py.is_blank txt = true ->
   compare_embedding_models encode encode_768d txt = None) /\
  ((forall v, encode txt = Ok v -> List.length v = 384%nat) ->
   (forall v, encode_768d txt = Ok v -> List.length v = 768%nat) ->
   compare_embedding_models encode encode_768d txt = None).
Proof.
  split.
  - intros Hb. apply compare_other_length.
    unfold EmbeddingService.embed_text, embed_text_768d. rewrite Hb.
    unfold zeros. rewrite !repeat_length. discriminate.
  - intros H1 H2. apply compare_other_length.
    rewrite embed_text_length, embed_text_768d_length by assumption.
    discriminate.
Qed.

Lemma compare_embedding_models_returns_nothing_witness :
  compare_embedding_models Samples.encode_384 Samples.encode_768 "   " = None /\
  compare_embedding_models Samples.encode_384 Samples.encode_768 "Treppe"
  = None.
Proof.
  split.
  - apply (proj1 (compare_embedding_models_returns_nothing
                    Samples.encode_384 Samples.encode_768 "   ")).
    reflexivity.
  - apply (proj2 (compare_embedding_models_returns_nothing
                    Samples.encode_384 Samples.encode_768 "Treppe")).
    + intros v [= <-]. reflexivity.
    + intros v [= <-]. reflexivity.
Defined.

End ComparisonFacts.

(* ================================================================== *)
(** * The similarity endpoints                                         *)
(* ================================================================== *)

Module ViewsFacts.
Import EmbeddingGenerator Views.
Local Open Scope R_scope.

Lemma map_res_similar_item (l : list Result) :
  map_res similar_item l
  = match l with
    | [] => Ok []
    | _ => Raise (KeyError "project")
    end.
Proof. destruct l; reflexivity. Qed.

Lemma map_res_ok {A B : Type} (f : A -> res B) (l : list A) (rs : list B) :
  map_res f l = Ok rs -> Forall2 (fun x r => f x = Ok r) l rs.
Proof.
  revert rs. induction l as [|x l IH]; intros rs; cbn [map_res].
  - intros [= <-]. constructor.
  - destruct (f x) as [y|] eqn:E; cbn [Py.bind]; [|discriminate].
    destruct (map_res f l) as [ys|]; cbn [Py.bind]; [|discriminate].
    intros [= <-]. constructor; [exact E | now apply IH].
Qed.

(** [SimilarProjectsViewSet.find] builds its answer from [s['project']],
    a key the search results do not have.  So every answer it gives
    with status 200 lists no project and has count 0, and whenever some
    project clears the threshold (for a non-empty description with a
    non-empty embedding) the view raises [KeyError]. *)
Theorem find_lists_no_project
    (encode : string -> res Embedding) (table : list Models.Project)
    (description : string) (top_k : Z) :
  (forall dim items count,
     find encode table description top_k = Ok (Find200 dim items count) ->
     items = [] /\ count = 0%nat) /\
  (forall e,
     description <> "" ->
     generate_embedding encode description = Ok e -> e <> [] ->
     find_similar_projects e (finalized_projects table) top_k <> [] ->
     find encode table description top_k = Raise (KeyError "project")).
Proof.
  split.
  - intros dim items count. unfold find.
    destruct description as [|c description]; [discriminate|].
    destruct (generate_embedding encode (String c description)) as [e|];
      cbn [Py.bind]; [|discriminate].
    destruct e as [|x e]; [discriminate|].
    rewrite map_res_similar_item.
    destruct (find_similar_projects _ _ _); cbn [Py.bind]; [|discriminate].
    intros [= <- <- <-]. split; reflexivity.
  - intros e Hd He Hn Hs. unfold find.
    destruct description as [|c description]; [congruence|].
    rewrite He. cbn [Py.bind].
    destruct e as [|x e]; [congruence|].
    rewrite map_res_similar_item.
    destruct (find_similar_projects _ _ _); [congruence | reflexivity].
Qed.

Lemma finalized_tied_projects :
  finalized_projects [Scenario.older_project; Scenario.newer_project]
  = [Scenario.newer_project; Scenario.older_project].
Proof. reflexivity. Qed.

Lemma find_lists_no_project_witness :
  find Scenario.constant_encode
    [Scenario.older_project; Scenario.newer_project] "Treppe" 5
  = Raise (KeyError "project").
Proof.
  apply (proj2 (find_lists_no_project Scenario.constant_encode
                  [Scenario.older_project; Scenario.newer_project]
                  "Treppe" 5) [1]).
  - discriminate.
  - reflexivity.
  - discriminate.
  - rewrite finalized_tied_projects.
    apply SearchMore.find_similar_nonempty; [|lia].
    rewrite (@SearchFacts.results_hit [1] [1] _ _ 1);
      [discriminate | reflexivity | discriminate
       | apply SearchFacts.cosine_unit | lra].
Defined.

(** ** [BatchSimilarityViewSet.find] *)

Lemma batch_result_shape
    (encode : string -> res Embedding) (table : list Models.Project)
    (top_k : Z) (desc : string) (r : BatchResult) :
  batch_result encode table top_k desc = Ok r ->
  match r with
  | BatchError _ => True
  | BatchMatch _ n top =>
      (n = 0%nat /\ top = 0 \/ (1 <= n)%nat /\ 0.3 <= top <= 1) /\
      ((0 <= top_k)%Z -> (n <= Z.to_nat top_k)%nat)
  end.
Proof.
  unfold batch_result.
  destruct (generate_embedding encode desc) as [e|]; cbn [Py.bind];
    [|discriminate].
  destruct e as [|x e]; [intros [= <-]; exact I|].
  intros [= <-]. split.
  - destruct (find_similar_projects (x :: e) (finalized_projects table) top_k)
      as [|best rest] eqn:E; [left; split; reflexivity|].
    right. split; [cbn [List.length]; lia|].
    assert (Hin : In best (find_similar_projects (x :: e)
                             (finalized_projects table) top_k))
      by (rewrite E; now left).
    apply SearchMore.find_similar_score_range in Hin.
    pose proof (@RoundFacts.round3_between 300 1000 (similarity best)) as Hr.
    lra.
  - intros Hk. unfold find_similar_projects.
    now apply SearchMore.slice_to_length.
Qed.

(** A status-200 answer of the batch endpoint has one result per
    description.  Every result that is not an embedding error reports
    either no similar project and a top score of 0, or at least one and
    a top score between 0.3 and 1; for [top_k >= 0] it never reports
    more than [top_k] similar projects. *)
Theorem batch_find_results
    (encode : string -> res Embedding) (table : list Models.Project)
    (descriptions : list string) (top_k : Z) (total : nat)
    (results : list BatchResult) :
  batch_find encode table descriptions top_k = Batch200 total results ->
  total = List.length descriptions /\
  List.length results = List.length descriptions /\
  Forall (fun r =>
            match r with
            | BatchError _ => True
            | BatchMatch _ n top =>
                (n = 0%nat /\ top = 0 \/ (1 <= n)%nat /\ 0.3 <= top <= 1) /\
                ((0 <= top_k)%Z -> (n <= Z.to_nat top_k)%nat)
            end) results.
Proof.
  unfold batch_find.
  destruct descriptions as [|d ds]; [discriminate|].
  destruct (map_res (batch_result encode table top_k) (d :: ds))
    as [rs|] eqn:E; [|discriminate].
  intros [= <- <-]. apply map_res_ok in E.
  pose proof (Forall2_length E) as Hl.
  split; [now symmetry|]. split; [now symmetry|].
  clear Hl. induction E as [|x r xs rs' Hx _ IH]; constructor;
    [now apply batch_result_shape in Hx | exact IH].
Qed.

Lemma batch_of_blank_description :
  batch_find Scenario.constant_encode Samples.small_table ["   "] 5
  = Batch200 1 [BatchMatch "   " 0 0].
Proof.
  unfold batch_find. cbn [map_res].
  unfold batch_result at 1.
  rewrite EmbeddingFacts.generate_embedding_blank by reflexivity.
  cbn [Py.bind]. rewrite SearchMore.zero_query_finds_nothing.
  change (zeros 384) with (0 :: zeros 383).
  reflexivity.
Qed.

Lemma batch_find_results_witness :
  1%nat = List.length ["   "] /\
  List.length [BatchMatch "   " 0 0] = List.length ["   "] /\
  Forall (fun r =>
            match r with
            | BatchError _ => True
            | BatchMatch _ n top =>
                (n = 0%nat /\ top = 0 \/ (1 <= n)%nat /\ 0.3 <= top <= 1) /\
                ((0 <= 5)%Z -> (n <= Z.to_nat 5)%nat)
            end) [BatchMatch "   " 0 0].
Proof.
  apply (@batch_find_results Scenario.constant_encode Samples.small_table
           ["   "] 5 1 [BatchMatch "   " 0 0]).
  apply batch_of_blank_description.
Defined.

(** ** [DocumentViewSet.similar_projects] *)

Lemma document_matches_scores (doc : Embedding) (ps : list Models.Project)
    (m : DocumentMatch) :
  In m (document_matches doc ps) -> 0.5 <= similarity_score m <= 1.
Proof.
  induction ps as [|p ps IH]; cbn [document_matches]; [intros []|].
  destruct (Models.description_embedding p) as [emb|]; [|exact IH].
  unfold calculate_similarity.
  destruct (cosine_similarity doc emb) as [s|] eqn:Ec; [|exact IH].
  destruct (Rgt_dec s 0.5) as [Hs|_]; [|exact IH].
  intros [<-|H]; [|now apply IH].
  cbn [similarity_score].
  pose proof (CosineFacts.cosine_ok_range _ _ Ec).
  pose proof (@RoundFacts.round3_between 500 1000 s) as Hr.
  unfold Rgt in Hs. lra.
Qed.

(** A status-200 answer for a document lists at most ten projects, in
    descending order of their rounded scores, each score between 0.5
    and 1; the reported count is that of all projects above the
    threshold, so it can exceed the number of projects listed. *)
Theorem document_similar_projects_answer
    (table : list Models.Project) (document_id : string)
    (document_embedding : option Embedding)
    (id' : string) (count : nat) (projects : list DocumentMatch) :
  similar_projects table document_id document_embedding
  = Document200 id' count projects ->
  (List.length projects <= 10)%nat /\
  (List.length projects <= count)%nat /\
  Py.descending similarity_score projects /\
  forall m, In m projects -> 0.5 <= similarity_score m <= 1.
Proof.
  unfold similar_projects.
  destruct document_embedding as [[|x doc]|]; try discriminate.
  intros [= <- <- <-].
  set (sorted := Py.sort_desc similarity_score _).
  pose proof (SearchMore.slice_to_length 10 sorted) as [H1 H2].
  split; [apply H2; lia|]. split; [exact H1|]. split.
  - apply SortFacts.sorted_slice, SortFacts.sort_desc_descending.
  - intros m Hm. apply SortFacts.In_slice in Hm.
    apply SortFacts.sort_desc_In in Hm.
    now apply document_matches_scores in Hm.
Qed.

Lemma document_of_one_project :
  similar_projects [Scenario.older_project] "doc" (Some [1])
  = Document200 "doc" 1
      [mkDocumentMatch "a" "Treppe alt" "Treppenbau" 1 9000%Q].
Proof.
  unfold similar_projects.
  replace (finalized_projects [Scenario.older_project])
    with [Scenario.older_project] by reflexivity.
  cbn [document_matches Scenario.older_project Models.description_embedding].
  unfold calculate_similarity. rewrite SearchFacts.cosine_unit.
  destruct (Rgt_dec 1 0.5) as [_|H]; [|exfalso; apply H; unfold Rgt; lra].
  rewrite DataQualityFacts.round_one. reflexivity.
Qed.

Lemma document_similar_projects_answer_witness :
  (List.length [mkDocumentMatch "a" "Treppe alt" "Treppenbau" 1 9000%Q]
   <= 10)%nat /\
  (List.length [mkDocumentMatch "a" "Treppe alt" "Treppenbau" 1 9000%Q]
   <= 1)%nat /\
  Py.descending similarity_score
    [mkDocumentMatch "a" "Treppe alt" "Treppenbau" 1 9000%Q] /\
  forall m,
    In m [mkDocumentMatch "a" "Treppe alt" "Treppenbau" 1 9000%Q] ->
    0.5 <= similarity_score m <= 1.
Proof.
  apply (@document_similar_projects_answer [Scenario.older_project] "doc"
           (Some [1]) "doc" 1
           [mkDocumentMatch "a" "Treppe alt" "Treppenbau" 1 9000%Q]).
  apply document_of_one_project.
Defined.

End ViewsFacts.

(* ================================================================== *)
(** * Feature rows of a queryset and normalisation                     *)
(* ================================================================== *)

Module FeatureFramesFacts.
Import FeatureFrames Lqa.
Local Open Scope Q_scope.

Lemma or_str_nonempty (s default : string) :
  default <> "" -> or_str s default <> "".
Proof. intros H. destruct s; [exact H | discriminate]. Qed.

Lemma or_int_nonzero (x : Z) : or_int x 1 <> 0%Z.
Proof. unfold or_int. destruct (Z.eqb_spec x 0); [discriminate | assumption]. Qed.

(** [extract_from_queryset] returns one feature row and one price per
    project, in the order of the queryset.  The [or] defaults see to it
    that no row has complexity 0 or an empty wood type, project type or
    region. *)
Theorem extract_from_queryset_rows (now : Z) (queryset : list Models.Project) :
  List.length (fst (extract_from_queryset now queryset))
  = List.length queryset /\
  List.length (snd (extract_from_queryset now queryset))
  = List.length queryset /\
  Forall (fun f =>
            FeatureEngineer.f_complexity f <> 0%Z /\
            FeatureEngineer.f_wood_type f <> "" /\
            FeatureEngineer.f_project_type f <> "" /\
            FeatureEngineer.f_region f <> "")
    (fst (extract_from_queryset now queryset)).
Proof.
  unfold extract_from_queryset. cbn [fst snd].
  rewrite !length_map. split; [reflexivity|]. split; [reflexivity|].
  apply Forall_forall. intros f Hf. apply in_map_iff in Hf.
  destruct Hf as (p & <- & _).
  unfold FeatureEngineer.extract_features, data_of.
  cbn [FeatureEngineer.f_complexity FeatureEngineer.f_wood_type
       FeatureEngineer.f_project_type FeatureEngineer.f_region
       FeatureEngineer.area_per_complexity FeatureEngineer.f_total_area_sqm
       FeatureEngineer.complexity FeatureEngineer.wood_type
       FeatureEngineer.project_type FeatureEngineer.region
       FeatureEngineer.total_area_sqm FeatureEngineer.get].
  repeat split.
  - apply or_int_nonzero.
  - apply or_str_nonempty. discriminate.
  - apply or_str_nonempty. discriminate.
  - apply or_str_nonempty. discriminate.
Qed.

(** ** Minimum and maximum of a column *)





Lemma normalize_column_length (config : option Config) (col : string)
    (values : list Q) :
  List.length (normalize_column config col values) = List.length values.
Proof.
  unfold normalize_column.
  destruct config as [cfg|];
    [destruct (config_get cfg col) as [[a b]|]|];
    cbn iota;
    repeat match goal with
           | |- context [match ?o with Some _ => _ | None => _ end] =>
               destruct o
           | |- context [if ?c then _ else _] => destruct c
           end; apply length_map.
Qed.



End FeatureFramesFacts.
